(** * mudsnake_lib.protocols.telnet: the MUD Telnet protocol engine

    A shallow embedding of [src/mudsnake_lib/protocols/telnet.py] and the
    properties of its negotiation handlers, line splitter, sender and
    connection set-up.

    Layout: the Python run-time values the module manipulates ([Py]), the
    module-level constants, the zlib objects of the module, the session
    object with a state-and-exception monad for its methods, the methods
    themselves, a process with several sessions, and then the properties:
    line splitting, window size, connection set-up, the terminal-type
    handshake, sending, compression and the sharing between sessions. *)

From Stdlib Require Import ZArith NArith List String Ascii Bool Lia.
From Stdlib.Strings Require Import Byte.
From stdpp Require Import base option list gmap.
Import ListNotations.

Local Open Scope Z_scope.

#[global] Instance byte_eq_dec : EqDecision byte := Byte.byte_eq_dec.

#[global] Instance byte_countable : Countable byte :=
  inj_countable Byte.to_N Byte.of_N Byte.of_to_N.

(** ** Python run-time values *)

Module Py.

(** A [bytes] object is a sequence of octets; a [str] is a sequence of
    Unicode code points. *)
Abbreviation bytes := (list byte).
Abbreviation str := (list N).

(** The ASCII literals of the source, as [bytes] and as [str]. *)
Definition b (s : string) : bytes := list_byte_of_string s.
Definition u (s : string) : str := map Byte.to_N (list_byte_of_string s).

(** The exceptions the modelled code can raise. *)
Inductive exn :=
| TypeError
| ValueError
| UnicodeDecodeError
| UnboundLocalError
| AttributeError
| IndexError
| KeyError
| ZlibError
| RecursionError.

(** The values bound to flags, passed as keyword arguments and written to the
    transport. *)
Inductive val :=
| VNone
| VBool (x : bool)
| VInt (x : Z)
| VStr (x : str)
| VBytes (x : bytes).

#[global] Instance val_eq_dec : EqDecision val.
Proof. solve_decision. Defined.

#[global] Instance exn_eq_dec : EqDecision exn.
Proof. solve_decision. Defined.

(** Truth value of an object, as [if x:] tests it. *)
Definition truthy (v : val) : bool :=
  match v with
  | VNone => false
  | VBool x => x
  | VInt x => negb (x =? 0)
  | VStr x => negb (Nat.eqb (length x) 0)
  | VBytes x => negb (Nat.eqb (length x) 0)
  end.

(** *** Sequences: [startswith], [endswith], [in], [split(sep, 1)] *)

Section Seq.
Context {A : Type} `{EqDecision A}.

Fixpoint startswith (s p : list A) {struct p} : bool :=
  match p, s with
  | [], _ => true
  | _ :: _, [] => false
  | x :: p', y :: s' => bool_decide (x = y) && startswith s' p'
  end.

Definition endswith (s p : list A) : bool := startswith (rev s) (rev p).

(** [sep in s]: [sep] occurs at some offset of [s]. *)
Fixpoint contains (s sep : list A) : bool :=
  startswith s sep ||
  match s with
  | [] => false
  | _ :: s' => contains s' sep
  end.

(** [s.split(sep, 1)] at the first occurrence of [sep]: the part before it
    and the part after it, or [None] when [sep] does not occur (Python then
    returns the one-element list [[s]]). *)
Fixpoint split_once (s sep : list A) : option (list A * list A) :=
  if startswith s sep then Some ([], drop (length sep) s)
  else match s with
       | [] => None
       | x :: s' =>
           match split_once s' sep with
           | Some (l, r) => Some (x :: l, r)
           | None => None
           end
       end.

(** [s.lstrip(chars)]: the leading elements that occur in [chars] are
    dropped. *)
Fixpoint lstrip_chars (chars s : list A) : list A :=
  match s with
  | x :: s' => if bool_decide (x ∈ chars) then lstrip_chars chars s' else s
  | [] => []
  end.
End Seq.

(** *** UTF-8 decoding: [bytes.decode()] *)

Definition is_cont (x : byte) : bool :=
  let n := Byte.to_N x in ((128 <=? n) && (n <=? 191))%N.

Definition cont_bits (x : byte) : N := (Byte.to_N x - 128)%N.

(** A code point of a sequence of [len] octets is accepted when it is not an
    overlong form, not a surrogate and at most U+10FFFF. *)
Definition scalar_ok (len : nat) (c : N) : bool :=
  (match len with
   | 2%nat => (128 <=? c)
   | 3%nat => (2048 <=? c) && negb ((55296 <=? c) && (c <=? 57343))
   | _ => (65536 <=? c) && (c <=? 1114111)
   end)%N.

Fixpoint decode (bs : bytes) : option str :=
  match bs with
  | [] => Some []
  | b0 :: t0 =>
      let n0 := Byte.to_N b0 in
      if (n0 <? 128)%N then cons n0 <$> decode t0
      else if (n0 <? 192)%N then None
      else if (n0 <? 224)%N then
        match t0 with
        | b1 :: t1 =>
            let c := ((n0 - 192) * 64 + cont_bits b1)%N in
            if is_cont b1 && scalar_ok 2 c then cons c <$> decode t1 else None
        | _ => None
        end
      else if (n0 <? 240)%N then
        match t0 with
        | b1 :: b2 :: t2 =>
            let c := ((n0 - 224) * 4096 + cont_bits b1 * 64 + cont_bits b2)%N in
            if is_cont b1 && is_cont b2 && scalar_ok 3 c
            then cons c <$> decode t2 else None
        | _ => None
        end
      else if (n0 <? 248)%N then
        match t0 with
        | b1 :: b2 :: b3 :: t3 =>
            let c := ((n0 - 240) * 262144 + cont_bits b1 * 4096
                      + cont_bits b2 * 64 + cont_bits b3)%N in
            if is_cont b1 && is_cont b2 && is_cont b3 && scalar_ok 4 c
            then cons c <$> decode t3 else None
        | _ => None
        end
      else None
  end.

(** *** Unicode character data

    [str.upper], [str.strip], [str.isdigit] and [int] follow the Unicode
    character database outside ASCII.  The ASCII rows are written out below;
    the rest of the database is a parameter of the development. *)
Record unicode := {
  u_upper : N -> list N;      (* full upper-case mapping of a code point *)
  u_isspace : N -> bool;      (* white space, as [str.strip] sees it *)
  u_isdigit : N -> bool;      (* Numeric_Type Digit or Decimal *)
  u_int : list N -> option Z  (* [int(s)] on a string that is not all ASCII digits *)
}.

(** The database cut down to ASCII: other code points have no case, are no
    white space and no digits. *)
Definition ascii_only : unicode :=
  {| u_upper := fun c => [c];
     u_isspace := fun _ => false;
     u_isdigit := fun _ => false;
     u_int := fun _ => None |}.

Definition ascii_isspace (c : N) : bool :=
  (((9 <=? c) && (c <=? 13)) || ((28 <=? c) && (c <=? 32)))%N.

Definition ascii_isdigit (c : N) : bool := ((48 <=? c) && (c <=? 57))%N.

(** The default of [sys.get_int_max_str_digits()]. *)
Definition int_max_str_digits : Z := 4300.

Section Text.
Variable U : unicode.

Definition upper_char (c : N) : list N :=
  if ((97 <=? c) && (c <=? 122))%N then [(c - 32)%N]
  else if (c <? 128)%N then [c]
  else u_upper U c.

Definition upper (s : str) : str := flat_map upper_char s.

Definition isspace (c : N) : bool :=
  if (c <? 128)%N then ascii_isspace c else u_isspace U c.

Fixpoint lstrip (s : str) : str :=
  match s with
  | c :: s' => if isspace c then lstrip s' else s
  | [] => []
  end.

Definition strip (s : str) : str := rev (lstrip (rev (lstrip s))).

Definition isdigit_char (c : N) : bool :=
  if (c <? 128)%N then ascii_isdigit c else u_isdigit U c.

(** [s.isdigit()]: every character is a digit and there is at least one. *)
Definition isdigit (s : str) : bool :=
  negb (Nat.eqb (length s) 0) && forallb isdigit_char s.

(** Value of a string of ASCII digits, most significant first. *)
Definition decimal (s : str) : Z :=
  fold_left (fun acc c => 10 * acc + (Z.of_N c - 48)) s 0.

(** [int(s)] at the strings [negotiate_TTYPE] passes to it ([None] is
    [ValueError]).  Integers are unbounded, but the interpreter refuses to
    convert a string of more than [int_max_str_digits] digits, leading zeros
    included. *)
Definition int (s : str) : option Z :=
  if negb (Nat.eqb (length s) 0) && forallb ascii_isdigit s
  then if Z.of_nat (length s) <=? int_max_str_digits then Some (decimal s) else None
  else u_int U s.
End Text.

(** Comparison of strings, [s >= t]: lexicographic on code points. *)
Fixpoint str_ge (s t : str) : bool :=
  match s, t with
  | _, [] => true
  | [], _ :: _ => false
  | x :: s', y :: t' =>
      if (y <? x)%N then true else if (x <? y)%N then false else str_ge s' t'
  end.

(** *** [codecs.encode(x, "hex")] and [int(x, 16)] *)

Definition hex_digit (n : N) : byte :=
  match Byte.of_N (if (n <? 10)%N then 48 + n else 87 + n)%N with
  | Some x => x
  | None => x00
  end.

Definition hex_encode (bs : bytes) : bytes :=
  flat_map (fun x => let n := Byte.to_N x in
                     [hex_digit (n / 16)%N; hex_digit (n mod 16)%N]) bs.

Definition hex_value (x : byte) : option Z :=
  let n := Z.of_N (Byte.to_N x) in
  if (48 <=? n) && (n <=? 57) then Some (n - 48)
  else if (97 <=? n) && (n <=? 102) then Some (n - 87)
  else if (65 <=? n) && (n <=? 70) then Some (n - 55)
  else None.

Fixpoint int16_from (acc : Z) (bs : bytes) : option Z :=
  match bs with
  | [] => Some acc
  | x :: bs' =>
      match hex_value x with
      | Some d => int16_from (16 * acc + d) bs'
      | None => None
      end
  end.

(** [int(bs, 16)] on a run of hexadecimal digits; the empty string and any
    other character are [ValueError] ([None]). *)
Definition int16 (bs : bytes) : option Z :=
  match bs with
  | [] => None
  | _ => int16_from 0 bs
  end.

End Py.

Import Py.

(** ** Module-level constants of [telnet.py] *)

(** [chr(i)] is [twisted.python.compat._bytesChr]: the one-octet [bytes]
    object holding [i]. *)
Definition chr (i : N) : bytes :=
  match Byte.of_N i with
  | Some x => [x]
  | None => []
  end.

(** Telnet command and option codes imported from [twisted.conch.telnet]
    (RFC 854, 858, 1073, 1184). *)
Definition IAC : bytes := chr 255.
Definition DONT : bytes := chr 254.
Definition DO : bytes := chr 253.
Definition WONT : bytes := chr 252.
Definition WILL : bytes := chr 251.
Definition SB : bytes := chr 250.
Definition GA : bytes := chr 249.
Definition NOP : bytes := chr 241.
Definition SE : bytes := chr 240.
Definition SGA : bytes := chr 3.
Definition NAWS : bytes := chr 31.
Definition LINEMODE : bytes := chr 34.

Definition MSSP : bytes := chr 70.
Definition MCCP1 : bytes := chr 85.
Definition MCCP2 : bytes := chr 86.
Definition MCCP3 : bytes := chr 87.
Definition MXP : bytes := chr 91.
Definition MSDP : bytes := chr 69.
Definition GMCP : bytes := chr 201.
Definition IS : bytes := chr 0.
Definition TTYPE : bytes := chr 24.
Definition SEND : bytes := chr 1.

(** [zlib.Z_SYNC_FLUSH]. *)
Definition ZLIB_FLUSH : Z := 2.

(** Terminal capabilities and their codes. *)
Definition MTTS : list (Z * str) :=
  [ (128, u "PROXY");
    (64, u "SCREENREADER");
    (32, u "OSC_COLOR_PALETTE");
    (16, u "MOUSE_TRACKING");
    (8, u "XTERM256");
    (4, u "UTF-8");
    (2, u "VT100");
    (1, u "ANSI") ].

Definition SUPPORTED_FEATURES : gmap bytes bool :=
  list_to_map
    [ (MCCP1, false); (MCCP2, true); (MCCP3, true); (MSSP, true); (MXP, true);
      (MSDP, true); (GMCP, true); (NAWS, true); (TTYPE, true) ].

Definition NEGOTIATE_ORDER : list bytes :=
  [SGA; NAWS; TTYPE; MCCP2; MCCP3; MSSP; MSDP; GMCP; MXP].

(** [enableLocal] *)
Definition enableLocal (option : bytes) : bool :=
  default false (SUPPORTED_FEATURES !! option).

(** ** The zlib stream objects

    A compression object is deterministic: what a call returns is a function
    of the calls made on the object before and of the call itself.  Its state
    is therefore modelled as the history of the calls made on it; the bytes a
    call returns are given by the output functions of the library, a
    parameter of the development. *)
Inductive zcall :=
| z_compress (data : bytes)       (* [obj.compress(data)] *)
| z_decompress (data : bytes)     (* [obj.decompress(data)] *)
| z_flush (arg : Z).              (* [obj.flush(arg)] *)

#[global] Instance zcall_eq_dec : EqDecision zcall.
Proof. solve_decision. Defined.

Record zlib := {
  deflate : list zcall -> zcall -> bytes;          (* output of a compressor call *)
  inflate : list zcall -> zcall -> option bytes    (* [None] is [zlib.error] *)
}.

(** A stand-in library for evaluating examples: it copies its input and
    prefixes each block with the number of calls the object has seen. *)
Definition counting_zlib : zlib :=
  {| deflate := fun h c =>
       chr (N.of_nat (length h)) ++
       match c with z_compress d => d | _ => [] end;
     inflate := fun h c =>
       Some (match c with z_decompress d => d | _ => [] end) |}.

(** The objects bound at module level, one of each per process:
    [ZLIB_COMPRESS = zlib.compressobj(9)] and
    [ZLIB_DECOMPRESS = zlib.decompressobj(9)]. *)
Record globals := {
  ZLIB_COMPRESS : list zcall;
  ZLIB_DECOMPRESS : list zcall
}.

Definition module_init : globals :=
  {| ZLIB_COMPRESS := []; ZLIB_DECOMPRESS := [] |}.

(** ** The session object *)

(** The bound methods stored in [willwontMap] (the entry for [MSDP] names
    [enable_MSDB], as the source does). *)
Inductive hook :=
| enable_MCCP2_h | disable_MCCP2_h
| enable_MCCP3_h | disable_MCCP3_h
| enable_NAWS_h | disable_NAWS_h
| enable_TTYPE_h | disable_TTYPE_h
| enable_GMCP_h | disable_GMCP_h
| enable_MSDB_h | disable_MSDP_h
| enable_MSSP_h | disable_MSSP_h
| enable_MXP_h | disable_MXP_h
| enable_SGA_h | disable_SGA_h
| enable_LINEMODE_h | disable_LINEMODE_h.

#[global] Instance hook_eq_dec : EqDecision hook.
Proof. solve_decision. Defined.

(** What a method asks of its collaborators (the Telnet layer it extends, the
    transport, the command dispatcher and the timer), in the order asked. *)
Inductive call :=
| tn_do (option : bytes)                         (* [self.do(option)] *)
| tn_dont (option : bytes)                       (* [self.dont(option)] *)
| tn_will (option : bytes)                       (* [self.will(option)] *)
| tn_wont (option : bytes)                       (* [self.wont(option)] *)
| d_addErrback (h : hook)                        (* [.addErrback(h)] on the result *)
| d_addCallbacks (on_yes on_no : hook)           (* [.addCallbacks] with the two hooks *)
| tn_requestNegotiation (about data : bytes)     (* [self.requestNegotiation] *)
| tn_write (data : val)                          (* [self._write(data)] *)
| tn_dataReceived (data : bytes)                 (* [super().dataReceived(data)] *)
| tr_setTcpKeepAlive (flag : Z)                  (* [self.transport.setTcpKeepAlive] *)
| handshake_done                                 (* [self.handshake_done()] *)
| lc_start (interval : Z)                        (* [LoopingCall(...).start] *)
| lc_stop.                                       (* [self.nop_keep_alive.stop()] *)

#[global] Instance call_eq_dec : EqDecision call.
Proof. solve_decision. Defined.

(** An entry of [inputfuncs_buffer]: [(kind, args, kwargs)]. *)
Record inputfunc := {
  if_kind : str;
  if_args : list bytes;
  if_kwargs : list (str * val)
}.

Record Session := {
  protocol_flags : gmap str val;
  ttype_step : Z;
  game_data_buffer : bytes;
  inputfuncs_buffer : list inputfunc;
  nop_keep_alive : option bool;     (* [None], or a [LoopingCall] and its [running] *)
  trace : list call
}.

(** [delimiter = b'\r\n'] *)
Definition delimiter : bytes := [x0d; x0a].

(** [__init__] *)
Definition init_flags : gmap str val :=
  <[u "NOPKEEPALIVE" := VBool true]> (
  <[u "ENCODING" := VStr (u "utf-8")]> (
  <[u "SCREENREADER" := VBool false]> (
  <[u "MSDP" := VBool false]> (
  <[u "GMCP" := VBool false]> (
  <[u "MCCP3" := VBool false]> (
  <[u "MCCP2" := VBool false]> (
  <[u "CLIENTNAME" := VStr (u "unknown")]> (
  <[u "XTERM256" := VBool false]> (
  <[u "ANSI" := VBool true]> (
  <[u "FORCEDENDLINE" := VBool true]> (
  <[u "SCREENHEIGHT" := VInt 0]> (
  <[u "SCREENWIDTH" := VInt 78]> ∅)))))))))))).

Definition init : Session :=
  {| protocol_flags := init_flags;
     ttype_step := 1;
     game_data_buffer := [];
     inputfuncs_buffer := [];
     nop_keep_alive := None;
     trace := [] |}.

(** ** Methods: state and exceptions

    A method runs on the module globals and on [self]; it returns a value or
    raises, and in both cases leaves the state as mutated up to that point. *)

Record state := {
  g : globals;
  self : Session
}.

Inductive outcome (A : Type) :=
| Ret (a : A)
| Raise (e : exn).
Arguments Ret {A} a.
Arguments Raise {A} e.

Definition M (A : Type) : Type := state -> outcome A * state.

Definition ret {A} (a : A) : M A := fun st => (Ret a, st).
Definition raise {A} (e : exn) : M A := fun st => (Raise e, st).

Definition bind {A B} (m : M A) (k : A -> M B) : M B :=
  fun st =>
    match m st with
    | (Ret a, st') => k a st'
    | (Raise e, st') => (Raise e, st')
    end.

Notation "x <- m ;; k" := (bind m (fun x => k))
  (at level 100, m at next level, right associativity).
Notation "m ;; k" := (bind m (fun _ => k))
  (at level 100, right associativity).

(** [try: m except e: handler] *)
Definition try_except {A} (m : M A) (e : exn) (handler : M A) : M A :=
  fun st =>
    match m st with
    | (Raise e', st') => if bool_decide (e' = e) then handler st' else (Raise e', st')
    | r => r
    end.

(** [for x in l: body x] *)
Fixpoint for_each {A} (l : list A) (body : A -> M unit) : M unit :=
  match l with
  | [] => ret tt
  | x :: l' => body x ;; for_each l' body
  end.

Definition get_self : M Session := fun st => (Ret (self st), st).
Definition put_self (s : Session) : M unit :=
  fun st => (Ret tt, {| g := g st; self := s |}).
Definition modify_self (f : Session -> Session) : M unit :=
  s <- get_self ;; put_self (f s).

(** A value that may fail ([None]) raises [e]. *)
Definition or_raise {A} (o : option A) (e : exn) : M A :=
  match o with
  | Some a => ret a
  | None => raise e
  end.

(** Reading a local variable that an earlier statement may have left
    unbound. *)
Definition local {A} (x : option A) : M A := or_raise x UnboundLocalError.

(** *** Field updates *)

Definition set_flags (f : gmap str val) (s : Session) : Session :=
  {| protocol_flags := f; ttype_step := ttype_step s;
     game_data_buffer := game_data_buffer s;
     inputfuncs_buffer := inputfuncs_buffer s;
     nop_keep_alive := nop_keep_alive s; trace := trace s |}.

Definition set_ttype_step (n : Z) (s : Session) : Session :=
  {| protocol_flags := protocol_flags s; ttype_step := n;
     game_data_buffer := game_data_buffer s;
     inputfuncs_buffer := inputfuncs_buffer s;
     nop_keep_alive := nop_keep_alive s; trace := trace s |}.

Definition set_game_data_buffer (x : bytes) (s : Session) : Session :=
  {| protocol_flags := protocol_flags s; ttype_step := ttype_step s;
     game_data_buffer := x;
     inputfuncs_buffer := inputfuncs_buffer s;
     nop_keep_alive := nop_keep_alive s; trace := trace s |}.

Definition set_inputfuncs_buffer (x : list inputfunc) (s : Session) : Session :=
  {| protocol_flags := protocol_flags s; ttype_step := ttype_step s;
     game_data_buffer := game_data_buffer s;
     inputfuncs_buffer := x;
     nop_keep_alive := nop_keep_alive s; trace := trace s |}.

Definition set_nop_keep_alive (x : option bool) (s : Session) : Session :=
  {| protocol_flags := protocol_flags s; ttype_step := ttype_step s;
     game_data_buffer := game_data_buffer s;
     inputfuncs_buffer := inputfuncs_buffer s;
     nop_keep_alive := x; trace := trace s |}.

Definition set_trace (x : list call) (s : Session) : Session :=
  {| protocol_flags := protocol_flags s; ttype_step := ttype_step s;
     game_data_buffer := game_data_buffer s;
     inputfuncs_buffer := inputfuncs_buffer s;
     nop_keep_alive := nop_keep_alive s; trace := x |}.

(** [self.protocol_flags[k] = v] *)
Definition set_flag (k : str) (v : val) : M unit :=
  modify_self (fun s => set_flags (<[k := v]> (protocol_flags s)) s).

(** [self.protocol_flags[k]]: a missing key is [KeyError]. *)
Definition get_flag (k : str) : M val :=
  s <- get_self ;; or_raise (protocol_flags s !! k) KeyError.

(** A call on a collaborator is appended to the trace. *)
Definition emit (c : call) : M unit :=
  modify_self (fun s => set_trace (trace s ++ [c]) s).

(** [self._write(data)]: the call and the object it is given are recorded;
    what the transport makes of an object that is no bytes object is its own
    affair. *)
Definition _write (data : val) : M unit := emit (tn_write data).

(** ** Line splitting *)

Lemma startswith_length {A} `{EqDecision A} (s p : list A) :
  startswith s p = true -> (length p <= length s)%nat.
Proof.
  revert s. induction p as [|x p IH]; intros [|y s] E; simpl in *;
    try lia; try discriminate.
  apply andb_prop in E as [_ E]. apply IH in E. lia.
Qed.

Lemma split_once_shorter {A} `{EqDecision A} (s sep l r : list A) :
  split_once s sep = Some (l, r) -> (length sep + length r <= length s)%nat.
Proof.
  revert l r. induction s as [|x s IH]; intros l r E.
  - destruct sep; simpl in E; [|discriminate].
    injection E as <- <-. simpl. lia.
  - cbn [split_once] in E.
    destruct (startswith (x :: s) sep) eqn:Hs.
    + injection E as <- <-. apply startswith_length in Hs.
      rewrite length_drop. lia.
    + destruct (split_once s sep) as [[l' r']|] eqn:E'; [|discriminate].
      injection E as <- <-. specialize (IH _ _ eq_refl). simpl. lia.
Qed.

(** The entry queued for a line of input: [('text', [cmd], dict())]. *)
Definition text_command (cmd : bytes) : inputfunc :=
  {| if_kind := u "text"; if_args := [cmd]; if_kwargs := [] |}.

(** [processTextCommands]: when the delimiter occurs in the buffer, cut the
    buffer at its first occurrence, queue the part before it as a text
    command, keep the part after it as the buffer and, when that part is not
    empty, call the method again.  The method calls itself once per line, and
    the interpreter allows only so many nested calls: [frames] is the number
    of nested calls of the method that the recursion limit leaves room for
    where it is called; the call that exceeds it raises [RecursionError], with
    the session as the calls before it left it. *)
Fixpoint processTextCommands (frames : nat) : M unit :=
  match frames with
  | O => raise RecursionError
  | S frames' =>
      s <- get_self ;;
      match split_once (game_data_buffer s) delimiter with
      | Some (cmd, remaining) =>
          modify_self (fun s =>
            set_game_data_buffer remaining
              (set_inputfuncs_buffer (inputfuncs_buffer s ++ [text_command cmd]) s)) ;;
          match remaining with
          | [] => ret tt
          | _ :: _ => processTextCommands frames'
          end
      | None => ret tt
      end
  end.

(** [applicationDataReceived], called where the recursion limit leaves room
    for [frames] nested calls of [processTextCommands]. *)
Definition applicationDataReceived (frames : nat) (data : bytes) : M unit :=
  modify_self (fun s => set_game_data_buffer (game_data_buffer s ++ data) s) ;;
  processTextCommands frames.

(** ** Methods that depend on the libraries

    [zl] gives the outputs of the zlib objects, [U] the Unicode character data
    and [renderMSDP], [renderGMCP] the two out-of-band renderers, which the
    class calls and does not define. *)

Section Engine.

Variable zl : zlib.
Variable U : unicode.
Variable renderMSDP : val -> list val -> list (str * val) -> bytes.
Variable renderGMCP : val -> list val -> list (str * val) -> bytes.

(** *** Compression *)

(** A call on the module-level compressor: the call is added to the history
    of the object and its output returned. *)
Definition compressor_call (c : zcall) : M bytes :=
  fun st =>
    let h := ZLIB_COMPRESS (g st) in
    (Ret (deflate zl h c),
     {| g := {| ZLIB_COMPRESS := h ++ [c];
                ZLIB_DECOMPRESS := ZLIB_DECOMPRESS (g st) |};
        self := self st |}).

(** A call on the module-level decompressor; corrupt input is [zlib.error]. *)
Definition decompressor_call (c : zcall) : M bytes :=
  fun st =>
    let h := ZLIB_DECOMPRESS (g st) in
    let st' := {| g := {| ZLIB_COMPRESS := ZLIB_COMPRESS (g st);
                          ZLIB_DECOMPRESS := h ++ [c] |};
                  self := self st |} in
    match inflate zl h c with
    | Some out => (Ret out, st')
    | None => (Raise ZlibError, st')
    end.

(** [begin_MCCP2] *)
Definition begin_MCCP2 : M unit :=
  _write (VBytes (IAC ++ SB ++ MCCP2 ++ IAC ++ SE)) ;;
  set_flag (u "MCCP2") (VBool true).

(** [end_MCCP2] *)
Definition end_MCCP2 : M unit :=
  _write (VInt ZLIB_FLUSH) ;;
  set_flag (u "MCCP2") (VBool false).

(** [enable_MCCP2] *)
Definition enable_MCCP2 : M unit := begin_MCCP2.

(** [disable_MCCP2] *)
Definition disable_MCCP2 : M unit :=
  f <- get_flag (u "MCCP2") ;;
  if truthy f then end_MCCP2 else ret tt.

(** [begin_MCCP3], [end_MCCP3], [negotiate_MCCP3] *)
Definition begin_MCCP3 : M unit := set_flag (u "MCCP3") (VBool true).
Definition end_MCCP3 : M unit := set_flag (u "MCCP3") (VBool false).
Definition negotiate_MCCP3 (data : list val) : M unit := begin_MCCP3.

(** [renderOutgoing] *)
Definition renderOutgoing (data : val) : M val := ret data.

(** [compressData]: the compressor takes a bytes object only. *)
Definition compressData (data : val) : M val :=
  f <- get_flag (u "MCCP2") ;;
  if truthy f then
    match data with
    | VBytes d =>
        c <- compressor_call (z_compress d) ;;
        fl <- compressor_call (z_flush ZLIB_FLUSH) ;;
        ret (VBytes (c ++ fl))
    | _ => raise TypeError
    end
  else ret data.

(** [sendText] *)
Definition sendText (data : val) : M unit :=
  data <- renderOutgoing data ;;
  data <- compressData data ;;
  _write data.

(** [sendPrompt]: [data += IAC + GA] needs [data] to be a bytes object. *)
Definition sendPrompt (data : val) : M unit :=
  data <- renderOutgoing data ;;
  data <- compressData data ;;
  match data with
  | VBytes d => _write (VBytes (d ++ IAC ++ GA))
  | _ => raise TypeError
  end.

(** [sendOOB] *)
Definition sendOOB (cmd : val) (args : list val) (kwargs : list (str * val)) : M unit :=
  let output := [] in
  msdp <- get_flag (u "MSDP") ;;
  let output := if truthy msdp then output ++ renderMSDP cmd args kwargs else output in
  gmcp <- get_flag (u "GMCP") ;;
  let output := if truthy gmcp then output ++ renderGMCP cmd args kwargs else output in
  output <- compressData (VBytes output) ;;
  _write output.

(** [send]: the keyword arguments in the order given. *)
Definition send (kwargs : list (str * val)) : M unit :=
  for_each kwargs (fun kv =>
    let '(kwarg, v) := kv in
    if bool_decide (kwarg = u "text") then sendText v
    else if bool_decide (kwarg = u "prompt") then sendPrompt v
    else sendOOB v [] []).

(** [dataReceived] *)
Definition dataReceived (data : bytes) : M unit :=
  f <- get_flag (u "MCCP3") ;;
  data <- (if truthy f then
             d <- decompressor_call (z_decompress data) ;;
             fl <- decompressor_call (z_flush ZLIB_FLUSH) ;;
             ret (d ++ fl)
           else ret data) ;;
  emit (tn_dataReceived data).

(** *** Window size *)

(** A number, for arithmetic: an int, or a bool counted as 0 or 1. *)
Definition number (x : val) : option Z :=
  match x with
  | VInt a => Some a
  | VBool a => Some (if a then 1 else 0)
  | _ => None
  end.

(** [x + y]: sequences of one kind are concatenated and numbers added; any
    other pair is a [TypeError]. *)
Definition add (x y : val) : M val :=
  match x, y with
  | VBytes a, VBytes c => ret (VBytes (a ++ c))
  | VStr a, VStr c => ret (VStr (a ++ c))
  | _, _ =>
      match number x, number y with
      | Some a, Some c => ret (VInt (a + c))
      | _, _ => raise TypeError
      end
  end.

(** [int(codecs_encode(x, "hex"), 16)] *)
Definition hex_to_int (x : val) : M Z :=
  match x with
  | VBytes a => or_raise (int16 (hex_encode a)) ValueError
  | _ => raise TypeError
  end.

(** [data[i]] *)
Definition index (data : list val) (i : nat) : M val :=
  or_raise (data !! i) IndexError.

(** [negotiate_NAWS] *)
Definition negotiate_NAWS (data : list val) : M unit :=
  if Nat.eqb (length data) 4 then
    d0 <- index data 0 ;; d1 <- index data 1 ;;
    width <- add d0 d1 ;;
    w <- hex_to_int width ;;
    set_flag (u "SCREENWIDTH") (VInt w) ;;
    d2 <- index data 2 ;; d3 <- index data 3 ;;
    height <- add d2 d3 ;;
    h <- hex_to_int height ;;
    set_flag (u "SCREENHEIGHT") (VInt h)
  else ret tt.

(** *** Terminal type *)

(** [b"".join(data)]: every item has to be a bytes object. *)
Fixpoint join (data : list val) : M bytes :=
  match data with
  | [] => ret []
  | VBytes x :: data' => rest <- join data' ;; ret (x ++ rest)
  | _ :: _ => raise TypeError
  end.

(** [self.protocol_flags.update(support)] *)
Definition update (support : list (str * val)) : M unit :=
  for_each support (fun kv => set_flag (fst kv) (snd kv)).

(** The names for which step 1 assumes 256 colours. *)
Definition xterm256_clients : list str :=
  [ u "ATLANTIS"; u "CMUD"; u "KILDCLIENT"; u "MUDLET"; u "MUSHCLIENT";
    u "PUTTY"; u "BEIP"; u "POTATO"; u "TINYFUGUE" ].

(** [negotiate_TTYPE], step 1: the name of the client. *)
Definition ttype_step1 (option : Datatypes.option str) : M unit :=
  clientname <- try_except (o <- local option ;; ret (upper U o))
                  AttributeError (ret (u "UNKNOWN")) ;;
  let xterm256 := false in
  xterm256 <- (if startswith clientname (u "MUDLET") then
                 parts <- or_raise (split_once clientname (u "MUDLET")) IndexError ;;
                 let x := str_ge (strip U (snd parts)) (u "1.1") in
                 set_flag (u "FORCEDENDLINE") (VBool false) ;;
                 ret x
               else ret xterm256) ;;
  (if startswith clientname (u "TINTIN++")
   then set_flag (u "FORCEDENDLINE") (VBool true) else ret tt) ;;
  let xterm256 :=
    if startswith clientname (u "XTERM")
       || endswith clientname (u "-256COLOR")
       || bool_decide (clientname ∈ xterm256_clients)
    then true else xterm256 in
  set_flag (u "ANSI") (VBool true) ;;
  set_flag (u "XTERM256") (VBool xterm256) ;;
  set_flag (u "CLIENTNAME") (VStr clientname) ;;
  emit (tn_requestNegotiation TTYPE SEND).

(** Step 2: the terminal descriptor. *)
Definition ttype_step2 (option : Datatypes.option str) : M unit :=
  term <- local option ;;
  let tupper := upper U term in
  let xterm256 :=
    endswith tupper (u "-256COLOR")
    || (endswith tupper (u "XTERM") && negb (endswith tupper (u "-COLOR"))) in
  (if xterm256 then
     set_flag (u "ANSI") (VBool true) ;;
     set_flag (u "XTERM256") (VBool xterm256)
   else ret tt) ;;
  set_flag (u "TERM") (VStr term) ;;
  emit (tn_requestNegotiation TTYPE SEND).

(** Step 3: the MTTS bit string. *)
Definition ttype_step3 (option : Datatypes.option str) : M unit :=
  option <- local option ;;
  (if startswith option (u "MTTS") then
     let option := strip U (drop 4 option) in
     if isdigit U option then
       option <- or_raise (int U option) ValueError ;;
       let support :=
         map (fun bc => (snd bc, VBool true))
             (filter (fun bc => Z.land option (fst bc) > 0) MTTS) in
       update support
     else set_flag (upper U option) (VBool true)
   else ret tt) ;;
  set_flag (u "TTYPE") (VBool true) ;;
  emit handshake_done.

(** [negotiate_TTYPE] *)
Definition negotiate_TTYPE (data : list val) : M unit :=
  s <- get_self ;;
  let options := protocol_flags s in
  if negb (bool_decide (options = ∅))
       && truthy (default (VBool false) (options !! u "TTYPE"))
     || (3 <? ttype_step s)
  then ret tt
  else
    option <- try_except
                (joined <- join data ;;
                 o <- or_raise (decode (lstrip_chars IS joined)) UnicodeDecodeError ;;
                 ret (Some o))
                TypeError (ret None) ;;
    s <- get_self ;;
    (if ttype_step s =? 1 then ttype_step1 option
     else if ttype_step s =? 2 then ttype_step2 option
     else if ttype_step s =? 3 then ttype_step3 option
     else ret tt) ;;
    modify_self (fun s => set_ttype_step (ttype_step s + 1) s).

(** *** Connection set-up *)

Definition willwontMap : gmap bytes (hook * hook) :=
  list_to_map
    [ (MCCP2, (enable_MCCP2_h, disable_MCCP2_h));
      (MCCP3, (enable_MCCP3_h, disable_MCCP3_h));
      (NAWS, (enable_NAWS_h, disable_NAWS_h));
      (TTYPE, (enable_TTYPE_h, disable_TTYPE_h));
      (GMCP, (enable_GMCP_h, disable_GMCP_h));
      (MSDP, (enable_MSDB_h, disable_MSDP_h));
      (MSSP, (enable_MSSP_h, disable_MSSP_h));
      (MXP, (enable_MXP_h, disable_MXP_h));
      (SGA, (enable_SGA_h, disable_SGA_h));
      (LINEMODE, (enable_LINEMODE_h, disable_LINEMODE_h)) ].

(** [toggle_nop_keepalive] *)
Definition toggle_nop_keepalive : M unit :=
  s <- get_self ;;
  match nop_keep_alive s with
  | Some true =>
      emit lc_stop ;;
      modify_self (set_nop_keep_alive (Some false))
  | _ =>
      modify_self (set_nop_keep_alive (Some true)) ;;
      emit (lc_start 30)
  end.

(** [_send_nop_keepalive] *)
Definition _send_nop_keepalive : M unit :=
  s <- get_self ;;
  if truthy (default VNone (protocol_flags s !! u "NOPKEEPALIVE"))
  then _write (VBytes (IAC ++ NOP)) else ret tt.

(** [connectionMade] *)
Definition connectionMade : M unit :=
  emit (tn_do LINEMODE) ;;
  emit (d_addErrback disable_LINEMODE_h) ;;
  for_each NEGOTIATE_ORDER (fun feature =>
    emit (tn_will feature) ;;
    match willwontMap !! feature with
    | Some (on_yes, on_no) => emit (d_addCallbacks on_yes on_no)
    | None => ret tt
    end) ;;
  emit (tr_setTcpKeepAlive 1) ;;
  modify_self (set_nop_keep_alive None) ;;
  toggle_nop_keepalive.

End Engine.

(** ** What the engine hands to the methods *)

(** A sub-negotiation payload reaches its handler as the list of its octets,
    each a bytes object of length one. *)
Definition items (payload : bytes) : list val := map (fun x => VBytes [x]) payload.

(** The chunks of application data of a connection, in arrival order, each
    delivered where the recursion limit leaves room for [frames] nested
    calls. *)
Definition feed (frames : nat) (chunks : list bytes) : M unit :=
  for_each chunks (applicationDataReceived frames).

(** The lines, each followed by the delimiter, and then the rest. *)
Definition unsplit (lines : list bytes) (rest : bytes) : bytes :=
  concat (map (fun l => l ++ delimiter) lines) ++ rest.

(** The big-endian value of two octets. *)
Definition be16 (hi lo : byte) : Z :=
  256 * Z.of_N (Byte.to_N hi) + Z.of_N (Byte.to_N lo).

(** A state with the flags of its session replaced. *)
Definition with_flags (f : gmap str val) (st : state) : state :=
  {| g := g st; self := set_flags f (self st) |}.

(** The options of the WILL requests among some calls, in the order made. *)
Definition wills (t : list call) : list bytes :=
  omap (fun c => match c with tn_will o => Some o | _ => None end) t.

(** [data.replace(IAC, IAC * 2)]: the escape octet is doubled. *)
Definition escape (data : bytes) : bytes :=
  flat_map (fun x => if bool_decide ([x] = IAC) then IAC ++ IAC else [x]) data.

(** The octets the Telnet layer puts on the wire for a call, when no
    negotiation of the option is under way (as on a new connection). *)
Definition wire (c : call) : bytes :=
  match c with
  | tn_do o => IAC ++ DO ++ o
  | tn_dont o => IAC ++ DONT ++ o
  | tn_will o => IAC ++ WILL ++ o
  | tn_wont o => IAC ++ WONT ++ o
  | tn_requestNegotiation about data => IAC ++ SB ++ about ++ escape data ++ IAC ++ SE
  | tn_write (VBytes d) => d
  | _ => []
  end.

Definition sent (t : list call) : bytes := concat (map wire t).

(** A session with calls added to its trace. *)
Definition with_calls (cs : list call) (st : state) : state :=
  {| g := g st; self := set_trace (trace (self st) ++ cs) (self st) |}.

(** A session with its queue of input commands and its line buffer replaced. *)
Definition with_lines (q : list inputfunc) (rest : bytes) (st : state) : state :=
  {| g := g st;
     self := set_game_data_buffer rest (set_inputfuncs_buffer q (self st)) |}.

(** A process that has just loaded the module, with one new session. *)
Definition fresh : state := {| g := module_init; self := init |}.

(** ** The terminal-type handshake as a whole *)

(** The handshake is marked done: the TTYPE flag is set. *)
Definition ttype_done (s : Session) : bool :=
  truthy (default (VBool false) (protocol_flags s !! u "TTYPE")).

(** The handshake-complete notification among the calls. *)
Definition is_done (c : call) : bool :=
  match c with handshake_done => true | _ => false end.

(** How often the handshake-complete notification has fired. *)
Definition notified (s : Session) : nat :=
  length (List.filter is_done (trace s)).

(** The terminal-type payloads of a session, delivered in order; a payload on
    which the handler raises leaves the session as the handler left it. *)
Fixpoint deliver (U : unicode) (payloads : list (list val)) (st : state) : state :=
  match payloads with
  | [] => st
  | data :: rest => deliver U rest (snd (negotiate_TTYPE U data st))
  end.

(** What [b"".join(data)] returns, when every item is a bytes object. *)
Fixpoint joined (data : list val) : option bytes :=
  match data with
  | [] => Some []
  | VBytes x :: data' => app x <$> joined data'
  | _ :: _ => None
  end.

(** The parts of the state the handshake is judged by. *)
Definition same_core (st st' : state) : Prop :=
  g st' = g st /\ ttype_step (self st') = ttype_step (self st) /\
  notified (self st') = notified (self st).

Definition same_handshake (st st' : state) : Prop :=
  same_core st st' /\
  protocol_flags (self st') !! u "TTYPE" = protocol_flags (self st) !! u "TTYPE".

(** The guard at the head of [negotiate_TTYPE]. *)
Definition ttype_closed (s : Session) : bool :=
  negb (bool_decide (protocol_flags s = ∅)) && ttype_done s || (3 <? ttype_step s).

(** The states a handshake goes through: open at step 1, 2 or 3 with no
    notification yet, or done at step 4 with the one notification. *)
Definition handshake_inv (s : Session) : Prop :=
  (1 <= ttype_step s <= 3 /\ ttype_done s = false /\ notified s = 0%nat) \/
  (ttype_step s = 4 /\ ttype_done s = true /\ notified s = 1%nat).

(** The flags after [update(support)]. *)
Definition insert_all (support : list (str * val)) (f : gmap str val) : gmap str val :=
  foldl (fun m kv => <[fst kv := snd kv]> m) f support.

(** The state in which step 3 ends: the flags [f] with TTYPE set, the
    notification sent and the step counter advanced. *)
Definition ttype_finished (f : gmap str val) (st : state) : state :=
  {| g := g st;
     self := set_ttype_step (ttype_step (self st) + 1)
               (set_trace (trace (self st) ++ [handshake_done])
                  (set_flags (<[u "TTYPE" := VBool true]> f) (self st))) |}.

(** A new session whose handshake has reached step 3. *)
Definition at_step3 : state := {| g := module_init; self := set_ttype_step 3 init |}.

(** A payload that cannot be joined into a bytes object, or whose octets are
    not UTF-8 text. *)
Definition malformed (data : list val) : bool :=
  match joined data with
  | None => true
  | Some x => bool_decide (decode (lstrip_chars IS x) = None)
  end.

(** ** Several sessions in one process *)

(** The module globals and the sessions of a process, by connection number. *)
Record world := {
  wg : globals;
  sessions : gmap nat Session
}.

(** A method called on session [i]: it runs on the globals of the process and
    on that session. *)
Definition on {A} (i : nat) (m : M A) (w : world) : option (outcome A * world) :=
  match sessions w !! i with
  | Some s =>
      let '(r, st') := m {| g := wg w; self := s |} in
      Some (r, {| wg := g st'; sessions := <[i := self st']> (sessions w) |})
  | None => None
  end.

(** A renderer for evaluating examples: it returns the command it is given,
    when that is a bytes object, and nothing otherwise. *)
Definition echo_render (cmd : val) (args : list val) (kwargs : list (str * val)) : bytes :=
  match cmd with
  | VBytes d => d
  | _ => []
  end.

(** A new session on which outbound compression has been switched on. *)
Definition compressing : Session :=
  set_flags (<[u "MCCP2" := VBool true]> init_flags) init.

(** A process with two sessions that both compress. *)
Definition two_sessions : world :=
  {| wg := module_init;
     sessions := <[2%nat := compressing]> {[1%nat := compressing]} |}.

(** The values the calls of a trace handed to [_write]. *)
Definition written (t : list call) : list val :=
  omap (fun c => match c with tn_write v => Some v | _ => None end) t.

(** A session on which MSDP has been switched on. *)
Definition with_msdp : state :=
  {| g := module_init; self := set_flags (<[u "MSDP" := VBool true]> init_flags) init |}.

(** A session that switched compression on and sent [hello]. *)
Definition after_hello : state :=
  snd ((begin_MCCP2 ;; sendText counting_zlib (VBytes (b "hello"))) fresh).

(** ** Methods called on their own *)

(** [enable_TTYPE] *)
Definition enable_TTYPE : M unit := emit (tn_requestNegotiation TTYPE SEND).

(** [negotiate_MCCP2], [negotiate_MSDP], [negotiate_GMCP]: [pass]. *)
Definition negotiate_MCCP2 (data : list val) : M unit := ret tt.
Definition negotiate_MSDP (data : list val) : M unit := ret tt.
Definition negotiate_GMCP (data : list val) : M unit := ret tt.

(** ** Line buffer *)

(** The state with [data] added to the line buffer of its session. *)
Definition buffered (data : bytes) (st : state) : state :=
  {| g := g st;
     self := set_game_data_buffer (game_data_buffer (self st) ++ data) (self st) |}.

(** The nested calls of [processTextCommands] that a buffer of these lines
    and this rest takes: one per line, and one more that finds no delimiter
    when something is left after the last line. *)
Definition calls_needed (lines : list bytes) (rest : bytes) : nat :=
  match lines, rest with
  | [], _ => 1
  | _ :: _, [] => length lines
  | _ :: _, _ :: _ => S (length lines)
  end.

(** The line feeds in a chunk: no more lines than that are completed by it. *)
Definition line_feeds (data : bytes) : nat := count_occ Byte.byte_eq_dec data x0a.

(** ** Terminal type: the rounds *)

(** What [negotiate_TTYPE] does once the payload is read: the step the
    counter names, on the text [option] (or on none, when the payload did not
    join), and then the counter advanced. *)
Definition ttype_round (U : unicode) (option : Datatypes.option str) : M unit :=
  s <- get_self ;;
  (if ttype_step s =? 1 then ttype_step1 U option
   else if ttype_step s =? 2 then ttype_step2 U option
   else if ttype_step s =? 3 then ttype_step3 U option
   else ret tt) ;;
  modify_self (fun s => set_ttype_step (ttype_step s + 1) s).

(** The state in which a round of the handshake ends: the flags [f], the
    call [c] made and the step counter advanced. *)
Definition ttype_advanced (f : gmap str val) (c : call) (st : state) : state :=
  {| g := g st;
     self := set_ttype_step (ttype_step (self st) + 1)
               (set_trace (trace (self st) ++ [c])
                  (set_flags f (self st))) |}.

(** Whether step 1 takes the client named [name] to show 256 colours. *)
Definition client_xterm256 (U : unicode) (name : str) : bool :=
  startswith name (u "MUDLET") && str_ge (strip U (drop 6 name)) (u "1.1")
  || startswith name (u "XTERM")
  || endswith name (u "-256COLOR")
  || bool_decide (name ∈ xterm256_clients).

(** The flags step 1 leaves for the client named [name]. *)
Definition client_flags (U : unicode) (name : str) (f : gmap str val) : gmap str val :=
  let f := if startswith name (u "MUDLET")
           then <[u "FORCEDENDLINE" := VBool false]> f else f in
  let f := if startswith name (u "TINTIN++")
           then <[u "FORCEDENDLINE" := VBool true]> f else f in
  <[u "CLIENTNAME" := VStr name]>
    (<[u "XTERM256" := VBool (client_xterm256 U name)]>
       (<[u "ANSI" := VBool true]> f)).

(** Whether step 2 takes the terminal descriptor [term] to show 256 colours. *)
Definition term_xterm256 (U : unicode) (term : str) : bool :=
  endswith (upper U term) (u "-256COLOR") || endswith (upper U term) (u "XTERM").

(** A new session whose handshake has reached step 2. *)
Definition at_step2 : state := {| g := module_init; self := set_ttype_step 2 init |}.

(** ** Compression and sending *)

(** The state after the compressor has taken [d] and a sync flush. *)
Definition compressed (d : bytes) (st : state) : state :=
  {| g := {| ZLIB_COMPRESS := ZLIB_COMPRESS (g st) ++ [z_compress d; z_flush ZLIB_FLUSH];
             ZLIB_DECOMPRESS := ZLIB_DECOMPRESS (g st) |};
     self := self st |}.

(** The block the compressor with history [h] returns for [d] and the sync
    flush after it. *)
Definition block (zl : zlib) (h : list zcall) (d : bytes) : bytes :=
  deflate zl h (z_compress d) ++ deflate zl (h ++ [z_compress d]) (z_flush ZLIB_FLUSH).

(** The blocks for messages compressed one after another. *)
Fixpoint blocks (zl : zlib) (h : list zcall) (ds : list bytes) : list bytes :=
  match ds with
  | [] => []
  | d :: ds' => block zl h d :: blocks zl (h ++ [z_compress d; z_flush ZLIB_FLUSH]) ds'
  end.

(** Texts sent one after another. *)
Definition send_texts (zl : zlib) (ds : list bytes) : M unit :=
  for_each ds (fun d => sendText zl (VBytes d)).

(** What [send] writes for a field when compression is off: [msdp] and
    [gmcp] tell whether the two out-of-band flags are set; [None] when the
    field makes [send] raise. *)
Definition field_output (rM rG : val -> list val -> list (str * val) -> bytes)
    (msdp gmcp : bool) (kv : str * val) : option val :=
  if bool_decide (fst kv = u "text") then Some (snd kv)
  else if bool_decide (fst kv = u "prompt") then
    match snd kv with
    | VBytes d => Some (VBytes (d ++ IAC ++ GA))
    | _ => None
    end
  else Some (VBytes ((if msdp then rM (snd kv) [] [] else [])
                     ++ (if gmcp then rG (snd kv) [] [] else []))).

(** A session that does not compress, with the truth values of its two
    out-of-band flags. *)
Definition plain (msdp gmcp : bool) (s : Session) : Prop :=
  exists c m gm,
    protocol_flags s !! u "MCCP2" = Some c /\ truthy c = false /\
    protocol_flags s !! u "MSDP" = Some m /\ truthy m = msdp /\
    protocol_flags s !! u "GMCP" = Some gm /\ truthy gm = gmcp.

(** The big-endian value of a run of octets. *)
Definition big_endian (bs : bytes) : Z :=
  fold_left (fun acc x => 256 * acc + Z.of_N (Byte.to_N x)) bs 0.

(** ** The keepalive timer *)




(** ** Sequences of method calls *)

(** A call of a method of the session, with its arguments. *)
Inductive method :=
| m_connectionMade
| m_applicationDataReceived (frames : nat) (data : bytes)
| m_dataReceived (data : bytes)
| m_enable_MCCP2
| m_disable_MCCP2
| m_begin_MCCP3
| m_end_MCCP3
| m_enable_TTYPE
| m_negotiate_MCCP2 (data : list val)
| m_negotiate_MCCP3 (data : list val)
| m_negotiate_MSDP (data : list val)
| m_negotiate_GMCP (data : list val)
| m_negotiate_NAWS (data : list val)
| m_negotiate_TTYPE (data : list val)
| m_sendText (data : val)
| m_sendPrompt (data : val)
| m_sendOOB (cmd : val) (args : list val) (kwargs : list (str * val))
| m_send (kwargs : list (str * val))
| m_toggle_nop_keepalive
| m_send_nop_keepalive.

Section Calls.

Variable zl : zlib.
Variable U : unicode.
Variable renderMSDP : val -> list val -> list (str * val) -> bytes.
Variable renderGMCP : val -> list val -> list (str * val) -> bytes.

Definition call_method (m : method) : M unit :=
  match m with
  | m_connectionMade => connectionMade
  | m_applicationDataReceived frames data => applicationDataReceived frames data
  | m_dataReceived data => dataReceived zl data
  | m_enable_MCCP2 => enable_MCCP2
  | m_disable_MCCP2 => disable_MCCP2
  | m_begin_MCCP3 => begin_MCCP3
  | m_end_MCCP3 => end_MCCP3
  | m_enable_TTYPE => enable_TTYPE
  | m_negotiate_MCCP2 data => negotiate_MCCP2 data
  | m_negotiate_MCCP3 data => negotiate_MCCP3 data
  | m_negotiate_MSDP data => negotiate_MSDP data
  | m_negotiate_GMCP data => negotiate_GMCP data
  | m_negotiate_NAWS data => negotiate_NAWS data
  | m_negotiate_TTYPE data => negotiate_TTYPE U data
  | m_sendText data => sendText zl data
  | m_sendPrompt data => sendPrompt zl data
  | m_sendOOB cmd args kwargs => sendOOB zl renderMSDP renderGMCP cmd args kwargs
  | m_send kwargs => send zl renderMSDP renderGMCP kwargs
  | m_toggle_nop_keepalive => toggle_nop_keepalive
  | m_send_nop_keepalive => _send_nop_keepalive
  end.

(** The state after a sequence of calls; a call that raises leaves the state
    as it was when it raised, and the next call goes on from there. *)
Fixpoint run (ms : list method) (st : state) : state :=
  match ms with
  | [] => st
  | m :: ms' => run ms' (snd (call_method m st))
  end.

End Calls.

(** The flags that the methods read with a subscript are bound. *)
Definition flags_bound (s : Session) : Prop :=
  forall k, k ∈ [u "MCCP2"; u "MCCP3"; u "MSDP"; u "GMCP"] ->
            is_Some (protocol_flags s !! k).

Definition bound (st : state) : Prop := flags_bound (self st).

Definition is_KeyError (e : exn) : Prop := e = KeyError.

(** No exception is excluded. *)
Definition never (e : exn) : Prop := False.

Definition in_handshake (st : state) : Prop := handshake_inv (self st).

(** The histories of the two zlib objects begin with [h0] and [d0]. *)
Definition extends (h0 d0 : list zcall) (st : state) : Prop :=
  h0 `prefix_of` ZLIB_COMPRESS (g st) /\ d0 `prefix_of` ZLIB_DECOMPRESS (g st).

(** * Properties *)

(** ** The monad *)

Lemma bind_ret_l {A B} (a : A) (k : A -> M B) st : (x <- ret a ;; k x) st = k a st.
Proof. reflexivity. Qed.

Lemma bind_run {A B} (m : M A) (k : A -> M B) st a st' :
  m st = (Ret a, st') -> (x <- m ;; k x) st = k a st'.
Proof. intros E. unfold bind. now rewrite E. Qed.

Lemma bind_raise {A B} (m : M A) (k : A -> M B) st e st' :
  m st = (Raise e, st') -> (x <- m ;; k x) st = (Raise e, st').
Proof. intros E. unfold bind. now rewrite E. Qed.

(** ** Sequences *)

Section SeqFacts.
Context {A : Type} `{EqDecision A}.
Implicit Types s p sep l r : list A.

Lemma startswith_app s p : startswith (p ++ s) p = true.
Proof.
  induction p as [|x p IH]; simpl; [reflexivity|].
  rewrite bool_decide_eq_true_2 by reflexivity. exact IH.
Qed.

Lemma startswith_inv s p : startswith s p = true -> s = p ++ drop (length p) s.
Proof.
  revert s. induction p as [|x p IH]; intros [|y s] E; simpl in *;
    try reflexivity; try discriminate.
  apply andb_prop in E as [E1 E2]. apply bool_decide_eq_true_1 in E1 as ->.
  f_equal. now apply IH.
Qed.

Lemma startswith_extend s p t : startswith s p = true -> startswith (s ++ t) p = true.
Proof.
  intros E. apply startswith_inv in E. rewrite E, <- app_assoc.
  apply startswith_app.
Qed.

Lemma split_once_app s sep l r :
  split_once s sep = Some (l, r) -> s = l ++ sep ++ r.
Proof.
  revert l r. induction s as [|x s IH]; intros l r E.
  - destruct sep; simpl in E; [|discriminate]. injection E as <- <-. reflexivity.
  - cbn [split_once] in E. destruct (startswith (x :: s) sep) eqn:Hs.
    + injection E as <- <-. now apply startswith_inv in Hs.
    + destruct (split_once s sep) as [[l' r']|] eqn:E'; [|discriminate].
      injection E as <- <-. simpl. f_equal. now apply IH.
Qed.

Lemma split_once_first s sep l r :
  sep <> [] -> split_once s sep = Some (l, r) -> contains l sep = false.
Proof.
  intros Hsep. revert l r. induction s as [|x s IH]; intros l r E.
  - destruct sep; [congruence|discriminate].
  - cbn [split_once] in E. destruct (startswith (x :: s) sep) eqn:Hs.
    + injection E as <- <-. destruct sep; [congruence|reflexivity].
    + destruct (split_once s sep) as [[l' r']|] eqn:E'; [|discriminate].
      injection E as <- <-. cbn [contains]. rewrite (IH _ _ eq_refl).
      rewrite orb_false_r. destruct (startswith (x :: l') sep) eqn:Hl; [|reflexivity].
      apply split_once_app in E'. subst s.
      apply (startswith_extend _ _ (sep ++ r')) in Hl. simpl in Hl, Hs. congruence.
Qed.

Lemma split_once_None s sep : split_once s sep = None -> contains s sep = false.
Proof.
  induction s as [|x s IH]; intros E.
  - simpl in *. destruct (startswith [] sep); [discriminate|reflexivity].
  - cbn [split_once] in E. cbn [contains].
    destruct (startswith (x :: s) sep); [discriminate|].
    destruct (split_once s sep) as [[l' r']|]; [discriminate|]. now apply IH.
Qed.

Lemma contains_split_once s sep :
  contains s sep = true <-> is_Some (split_once s sep).
Proof.
  split.
  - intros E. destruct (split_once s sep) eqn:E'; [eauto|].
    apply split_once_None in E'. congruence.
  - intros [[l r] E]. induction s as [|x s IH] in l, r, E |- *.
    + destruct sep; simpl in E; [reflexivity|discriminate].
    + cbn [split_once] in E. cbn [contains].
      destruct (startswith (x :: s) sep); [reflexivity|].
      destruct (split_once s sep) as [[l' r']|]; [|discriminate].
      simpl. eapply IH. reflexivity.
Qed.

End SeqFacts.

(** ** Line splitting *)

Lemma delimiter_nonempty : delimiter <> [].
Proof. discriminate. Qed.

(** A line without delimiter, followed by the delimiter, is cut off whole:
    the delimiter does not overlap itself. *)
Lemma split_once_line (l X : bytes) :
  contains l delimiter = false ->
  split_once (l ++ delimiter ++ X) delimiter = Some (l, X).
Proof.
  induction l as [|x l IH]; intros H; [reflexivity|].
  cbn [contains] in H. apply orb_false_elim in H as [H1 H2].
  specialize (IH H2).
  change ((x :: l) ++ delimiter ++ X) with (x :: (l ++ delimiter ++ X)).
  cbn [split_once]. rewrite IH.
  assert (E : startswith (x :: l ++ delimiter ++ X) delimiter = false).
  { unfold delimiter in *. cbn [startswith] in *.
    destruct (bool_decide (x0d = x)); [|reflexivity]. cbn [andb] in *.
    destruct l as [|y l]; [reflexivity|]. cbn [app]. 
    destruct (bool_decide (x0a = y)); [discriminate H1|reflexivity]. }
  rewrite E. reflexivity.
Qed.

Lemma unsplit_cons l lines rest :
  unsplit (l :: lines) rest = l ++ delimiter ++ unsplit lines rest.
Proof. unfold unsplit. cbn [map concat]. now rewrite <- !app_assoc. Qed.

Lemma split_once_nodelim rest :
  contains rest delimiter = false -> split_once rest delimiter = None.
Proof.
  intros H. destruct (split_once rest delimiter) as [[l r]|] eqn:E; [|reflexivity].
  assert (contains rest delimiter = true) by (apply contains_split_once; eauto).
  congruence.
Qed.

Lemma with_lines_same st :
  with_lines (inputfuncs_buffer (self st) ++ []) (game_data_buffer (self st)) st = st.
Proof. destruct st as [gl []]. unfold with_lines. cbn. now rewrite app_nil_r. Qed.

(** What a call does on a buffer of given lines and rest: with room for the
    calls it takes, every line is queued and the rest kept; with less, the
    lines the calls made have reached are queued, the others stay in the
    buffer, and RecursionError is raised. *)
Lemma processTextCommands_unsplit frames lines rest st :
  game_data_buffer (self st) = unsplit lines rest ->
  Forall (fun l => contains l delimiter = false) lines ->
  contains rest delimiter = false ->
  processTextCommands frames st
  = if (calls_needed lines rest <=? frames)%nat
    then (Ret tt, with_lines (inputfuncs_buffer (self st) ++ map text_command lines) rest st)
    else (Raise RecursionError,
          with_lines (inputfuncs_buffer (self st) ++ map text_command (take frames lines))
            (unsplit (drop frames lines) rest) st).
Proof.
  revert lines st. induction frames as [|f IH]; intros lines st Hb Hl Hr.
  - replace (calls_needed lines rest <=? 0)%nat with false
      by (destruct lines, rest; reflexivity).
    cbn [processTextCommands]. rewrite take_0, drop_0. cbn [map].
    rewrite <- Hb, with_lines_same. reflexivity.
  - cbn [processTextCommands]. unfold bind at 1. cbn [get_self].
    destruct lines as [|l lines].
    + change (unsplit [] rest) with rest in Hb. rewrite Hb, (split_once_nodelim _ Hr).
      cbn [calls_needed Nat.leb map]. rewrite <- Hb, with_lines_same. reflexivity.
    + apply Forall_cons in Hl as [Hl1 Hl].
      rewrite Hb, unsplit_cons, (split_once_line _ _ Hl1).
      unfold bind at 1. unfold modify_self at 1. unfold bind at 1, get_self, put_self.
      cbn [self g].
      destruct (unsplit lines rest) as [|x rem] eqn:Er.
      * assert (lines = [] /\ rest = []) as [-> ->].
        { destruct lines as [|l' lines]; [now split|].
          rewrite unsplit_cons in Er. destruct l'; discriminate. }
        cbn [calls_needed length Nat.leb map]. reflexivity.
      * rewrite (IH lines); [|cbn; now rewrite Er|exact Hl|exact Hr].
        assert (E : (calls_needed (l :: lines) rest <=? S f)%nat
                    = (calls_needed lines rest <=? f)%nat).
        { destruct lines as [|l' lines], rest as [|y rest]; try reflexivity.
          discriminate Er. }
        rewrite E. cbn [firstn skipn map self inputfuncs_buffer set_game_data_buffer
                        set_inputfuncs_buffer].
        unfold with_lines. cbn [self g]. rewrite <- !app_assoc.
        destruct (calls_needed lines rest <=? f)%nat; reflexivity.
Qed.

Lemma applicationDataReceived_run frames data st :
  applicationDataReceived frames data st = processTextCommands frames (buffered data st).
Proof. reflexivity. Qed.

(** Every buffer is some lines, each followed by the delimiter, and a rest
    without delimiter. *)
Lemma unsplit_exists (buf : bytes) :
  exists lines rest,
    unsplit lines rest = buf /\
    Forall (fun l => contains l delimiter = false) lines /\
    contains rest delimiter = false.
Proof.
  remember (length buf) as n eqn:Hn.
  assert (Hle : (length buf <= n)%nat) by lia. clear Hn.
  revert buf Hle. induction n as [|n IH]; intros buf Hle.
  - destruct buf; [|simpl in Hle; lia]. exists [], []. repeat split. constructor.
  - destruct (split_once buf delimiter) as [[l r]|] eqn:E.
    + pose proof (split_once_app _ _ _ _ E) as Hbuf.
      pose proof (split_once_first _ _ _ _ delimiter_nonempty E) as Hl.
      pose proof (split_once_shorter _ _ _ _ E) as Hlen. simpl in Hlen.
      destruct (IH r) as (lines & rest & Hu & Hls & Hr); [lia|].
      exists (l :: lines), rest. rewrite unsplit_cons, Hu. auto.
    + exists [], buf. repeat split; [constructor|now apply split_once_None].
Qed.

Lemma contains_mid (a c : bytes) : contains (a ++ delimiter ++ c) delimiter = true.
Proof.
  induction a as [|x a IH].
  - cbn [app]. destruct c; reflexivity.
  - change ((x :: a) ++ delimiter ++ c) with (x :: (a ++ delimiter ++ c)).
    cbn [contains]. rewrite IH. apply orb_true_r.
Qed.

Lemma line_feeds_app a c : line_feeds (a ++ c) = (line_feeds a + line_feeds c)%nat.
Proof. unfold line_feeds. apply count_occ_app. Qed.

Lemma line_feeds_unsplit lines rest : (length lines <= line_feeds (unsplit lines rest))%nat.
Proof.
  induction lines as [|l lines IH]; [simpl; lia|].
  rewrite unsplit_cons, !line_feeds_app. cbn [length].
  change (line_feeds delimiter) with 1%nat. lia.
Qed.

(** A chunk added to a buffer without delimiter completes no more lines than
    it holds line feeds. *)
Lemma lines_bound (r c : bytes) lines rest :
  contains r delimiter = false ->
  r ++ c = unsplit lines rest ->
  (length lines <= line_feeds c)%nat.
Proof.
  intros Hr E. destruct lines as [|l lines]; [simpl; lia|].
  rewrite unsplit_cons in E.
  assert (Hlen : (length r <= length l + 1)%nat).
  { destruct (decide (length r <= length l + 1)%nat) as [H|H]; [exact H|exfalso].
    assert (Er : r = (l ++ delimiter) ++ drop (length (l ++ delimiter)) r).
    { rewrite <- (take_drop (length (l ++ delimiter)) r) at 1. f_equal.
      assert (E' : take (length (l ++ delimiter)) (r ++ c)
                   = take (length (l ++ delimiter))
                       ((l ++ delimiter) ++ unsplit lines rest))
        by (rewrite E, <- app_assoc; reflexivity).
      rewrite take_app_le in E' by (rewrite length_app; simpl; lia).
      rewrite take_app_length in E'. exact E'. }
    rewrite Er, <- app_assoc, contains_mid in Hr. discriminate. }
  set (n := length r).
  assert (E1 : c = drop n ((l ++ [x0d]) ++ [x0a]) ++ unsplit lines rest).
  { assert (E' : drop n (r ++ c) = drop n (((l ++ [x0d]) ++ [x0a]) ++ unsplit lines rest)).
    { rewrite E. unfold delimiter. now rewrite <- !app_assoc. }
    unfold n in E' at 1. rewrite drop_app_length in E'. rewrite E'.
    apply drop_app_le. rewrite !length_app. simpl. lia. }
  rewrite E1, drop_app_le by (rewrite length_app; simpl; lia).
  rewrite !line_feeds_app. pose proof (line_feeds_unsplit lines rest).
  change (line_feeds [x0a]) with 1%nat. cbn [length]. lia.
Qed.

Lemma with_lines_buffered q rest data st :
  with_lines q rest (buffered data st) = with_lines q rest st.
Proof. reflexivity. Qed.

Lemma with_lines_with_lines q rest q' rest' st :
  with_lines q' rest' (with_lines q rest st) = with_lines q' rest' st.
Proof. reflexivity. Qed.

(** C10, at the code: a delivery is split by one nested call per line, so
    every line is queued only while the recursion limit leaves room for the
    calls.  When every chunk holds fewer line feeds than there is room for calls,
    one entry ('text', [line], {}) is queued per complete line, in arrival
    order and without its delimiter, the bytes after the last delimiter stay
    in the line buffer, and the lines, each followed by the delimiter, and
    then the buffer, are the bytes received.  When a delivery completes more
    lines than there is room for calls, [applicationDataReceived] raises
    RecursionError: only the first lines are queued, as many as calls were
    made, and the other lines stay in the buffer with their delimiters. *)
Theorem feed_lines frames chunks st :
  contains (game_data_buffer (self st)) delimiter = false ->
  let entry := fun l => {| if_kind := u "text"; if_args := [l]; if_kwargs := [] |} in
  (Forall (fun c => (line_feeds c < frames)%nat) chunks ->
   exists lines rest,
     feed frames chunks st
     = (Ret tt, with_lines (inputfuncs_buffer (self st) ++ map entry lines) rest st) /\
     unsplit lines rest = game_data_buffer (self st) ++ concat chunks /\
     Forall (fun l => contains l delimiter = false) lines /\
     contains rest delimiter = false) /\
  (forall data lines rest,
     game_data_buffer (self st) ++ data = unsplit lines rest ->
     Forall (fun l => contains l delimiter = false) lines ->
     contains rest delimiter = false ->
     (frames < calls_needed lines rest)%nat ->
     applicationDataReceived frames data st
     = (Raise RecursionError,
        with_lines (inputfuncs_buffer (self st) ++ map entry (take frames lines))
          (unsplit (drop frames lines) rest) st)).
Proof.
  intros Hinv entry. split.
  - revert st Hinv. induction chunks as [|c chunks IH]; intros st Hinv Hc.
    + exists [], (game_data_buffer (self st)). repeat split; auto.
      * cbn [map]. rewrite with_lines_same. reflexivity.
      * unfold unsplit. simpl. now rewrite app_nil_r.
    + apply Forall_cons in Hc as [Hc1 Hc].
      destruct (unsplit_exists (game_data_buffer (self st) ++ c))
        as (l1 & r1 & Hu & Hl & Hr).
      pose proof (lines_bound _ _ _ _ Hinv (eq_sym Hu)) as Hb.
      assert (E : applicationDataReceived frames c st
                  = (Ret tt, with_lines (inputfuncs_buffer (self st) ++ map entry l1) r1 st)).
      { rewrite applicationDataReceived_run.
        rewrite (processTextCommands_unsplit frames l1 r1); [|now rewrite Hu|exact Hl|exact Hr].
        replace (calls_needed l1 r1 <=? frames)%nat with true; [reflexivity|].
        symmetry. apply Nat.leb_le. destruct l1, r1; simpl in *; lia. }
      destruct (IH (with_lines (inputfuncs_buffer (self st) ++ map entry l1) r1 st))
        as (l2 & r2 & Hp2 & Hu2 & Hl2 & Hr2); [exact Hr|exact Hc|].
      exists (l1 ++ l2), r2. repeat split; auto.
      * unfold feed in *. cbn [for_each]. rewrite (bind_run _ _ _ _ _ E), Hp2.
        rewrite with_lines_with_lines. cbn [with_lines self inputfuncs_buffer
          set_game_data_buffer set_inputfuncs_buffer].
        now rewrite map_app, app_assoc.
      * unfold unsplit in *.
        rewrite map_app, concat_app, <- app_assoc. rewrite Hu2.
        cbn [with_lines self game_data_buffer set_game_data_buffer concat].
        now rewrite app_assoc, Hu, <- app_assoc.
      * apply Forall_app. auto.
  - intros data lines rest Hu Hl Hr Hf.
    rewrite applicationDataReceived_run.
    rewrite (processTextCommands_unsplit frames lines rest); [|exact Hu|exact Hl|exact Hr].
    replace (calls_needed lines rest <=? frames)%nat with false
      by (symmetry; apply Nat.leb_gt; exact Hf).
    reflexivity.
Qed.

Lemma feed_lines_witness :
  let entry := fun l => {| if_kind := u "text"; if_args := [l]; if_kwargs := [] |} in
  let chunks := [b "look" ++ [x0d]; [x0a] ++ b "north" ++ delimiter ++ b "sa"] in
  let data := concat (replicate 1000 delimiter) in
  contains (game_data_buffer (self fresh)) delimiter = false /\
  Forall (fun c => (line_feeds c < 997)%nat) chunks /\
  game_data_buffer (self fresh) ++ data = unsplit (replicate 1000 []) [] /\
  Forall (fun l => contains l delimiter = false) (replicate 1000 ([] : bytes)) /\
  calls_needed (replicate 1000 []) [] = 1000%nat /\
  (exists lines rest,
     feed 997 chunks fresh
     = (Ret tt, with_lines (inputfuncs_buffer (self fresh) ++ map entry lines) rest fresh) /\
     unsplit lines rest = game_data_buffer (self fresh) ++ concat chunks /\
     Forall (fun l => contains l delimiter = false) lines /\
     contains rest delimiter = false) /\
  applicationDataReceived 997 data fresh
  = (Raise RecursionError,
     with_lines (inputfuncs_buffer (self fresh) ++ map entry (take 997 (replicate 1000 [])))
       (unsplit (drop 997 (replicate 1000 [])) []) fresh).
Proof.
  assert (Hl : Forall (fun l => contains l delimiter = false) (replicate 1000 ([] : bytes))).
  { apply Forall_forall. intros l Hin. apply elem_of_replicate in Hin as [-> _]. reflexivity. }
  assert (Hc : Forall (fun c => (line_feeds c < 997)%nat)
                 [b "look" ++ [x0d]; [x0a] ++ b "north" ++ delimiter ++ b "sa"]).
  { repeat constructor; apply Nat.ltb_lt; vm_compute; reflexivity. }
  split; [reflexivity|]. split; [exact Hc|]. split; [vm_compute; reflexivity|].
  split; [exact Hl|]. split; [vm_compute; reflexivity|].
  split.
  - apply (proj1 (feed_lines 997 _ fresh eq_refl) Hc).
  - apply (proj2 (feed_lines 997 [] fresh eq_refl)
             (concat (replicate 1000 delimiter)) (replicate 1000 []) []);
      [vm_compute; reflexivity|exact Hl|reflexivity|apply Nat.ltb_lt; vm_compute; reflexivity].
Defined.

Example feed_two_lines :
  feed 3 [b "look" ++ [x0d]; [x0a] ++ b "north" ++ delimiter ++ b "sa"] fresh
  = (Ret tt,
     with_lines [ {| if_kind := u "text"; if_args := [b "look"]; if_kwargs := [] |};
                  {| if_kind := u "text"; if_args := [b "north"]; if_kwargs := [] |} ]
       (b "sa") fresh).
Proof. vm_compute. reflexivity. Qed.

(** One chunk of a thousand empty lines, delivered where the recursion limit
    leaves room for 997 calls: 997 entries are queued, three delimiters stay
    in the buffer and RecursionError is raised. *)
Example feed_thousand_lines :
  let '(r, st') := applicationDataReceived 997 (concat (replicate 1000 delimiter)) fresh in
  r = Raise RecursionError /\
  length (inputfuncs_buffer (self st')) = 997%nat /\
  game_data_buffer (self st') = delimiter ++ delimiter ++ delimiter.
Proof. vm_compute. repeat split. Qed.

(** ** Window size *)

Lemma int16_from_hex_encode (x : byte) (acc : Z) (rest : bytes) :
  int16_from acc (hex_encode [x] ++ rest)
  = int16_from (256 * acc + Z.of_N (Byte.to_N x)) rest.
Proof.
  assert (H : exists d1 d0,
             hex_value (hex_digit (Byte.to_N x / 16)) = Some d1 /\
             hex_value (hex_digit (Byte.to_N x mod 16)) = Some d0 /\
             16 * d1 + d0 = Z.of_N (Byte.to_N x)).
  { destruct x; vm_compute; eexists _, _; repeat split. }
  destruct H as (d1 & d0 & H1 & H0 & Hv).
  cbn [hex_encode flat_map app int16_from]. rewrite H1, H0.
  f_equal. lia.
Qed.

Lemma int16_hex_encode_pair (hi lo : byte) :
  int16 (hex_encode [hi; lo]) = Some (be16 hi lo).
Proof.
  change (hex_encode [hi; lo]) with (hex_encode [hi] ++ hex_encode [lo] ++ []).
  assert (E : int16 (hex_encode [hi] ++ hex_encode [lo] ++ [])
              = int16_from 0 (hex_encode [hi] ++ hex_encode [lo] ++ [])) by reflexivity.
  rewrite E, !int16_from_hex_encode. unfold be16. simpl int16_from. f_equal.
Qed.

(** C3: a payload of exactly four octets sets SCREENWIDTH and SCREENHEIGHT to
    the big-endian values of its first and second pair of octets; a payload
    of any other length leaves the whole state as it is; in both cases the
    handler returns without raising. *)
Theorem negotiate_NAWS_payload (payload : bytes) (st : state) :
  negotiate_NAWS (items payload) st
  = (Ret tt,
     match payload with
     | [w1; w0; h1; h0] =>
         with_flags (<[u "SCREENHEIGHT" := VInt (be16 h1 h0)]>
                       (<[u "SCREENWIDTH" := VInt (be16 w1 w0)]>
                          (protocol_flags (self st)))) st
     | _ => st
     end).
Proof.
  destruct payload as [|w1 [|w0 [|h1 [|h0 [|x payload]]]]]; try reflexivity.
  unfold negotiate_NAWS. cbn [items map length Nat.eqb].
  unfold bind, index, add, hex_to_int, or_raise, ret. cbn [lookup list_lookup app].
  rewrite !int16_hex_encode_pair. reflexivity.
Qed.

Example negotiate_NAWS_80x24 :
  let st := snd (negotiate_NAWS (items [x00; x50; x00; x18]) fresh) in
  protocol_flags (self st) !! u "SCREENWIDTH" = Some (VInt 80) /\
  protocol_flags (self st) !! u "SCREENHEIGHT" = Some (VInt 24).
Proof. vm_compute. split; reflexivity. Qed.

Example negotiate_NAWS_three_octets :
  negotiate_NAWS (items [x00; x50; x00]) fresh = (Ret tt, fresh).
Proof. reflexivity. Qed.

(** ** Connection set-up *)

Lemma emit_run c st : emit c st = (Ret tt, with_calls [c] st).
Proof. reflexivity. Qed.

Lemma with_calls_app cs cs' st :
  with_calls cs' (with_calls cs st) = with_calls (cs ++ cs') st.
Proof. unfold with_calls. simpl. now rewrite app_assoc. Qed.

(** The calls the loop of [connectionMade] makes for some features. *)
Definition will_calls (features : list bytes) : list call :=
  flat_map (fun feature =>
              tn_will feature ::
              match willwontMap !! feature with
              | Some (on_yes, on_no) => [d_addCallbacks on_yes on_no]
              | None => []
              end) features.

Lemma for_each_will features st :
  for_each features (fun feature =>
    emit (tn_will feature) ;;
    match willwontMap !! feature with
    | Some (on_yes, on_no) => emit (d_addCallbacks on_yes on_no)
    | None => ret tt
    end) st
  = (Ret tt, with_calls (will_calls features) st).
Proof.
  revert st. induction features as [|f features IH]; intros st.
  - destruct st as [gl s]; destruct s. unfold with_calls. simpl.
    now rewrite app_nil_r.
  - cbn [for_each will_calls flat_map]. unfold bind at 1.
    unfold bind at 1. rewrite emit_run.
    destruct (willwontMap !! f) as [[on_yes on_no]|].
    + rewrite emit_run, IH, !with_calls_app. reflexivity.
    + unfold ret. rewrite IH, !with_calls_app. reflexivity.
Qed.

Lemma connectionMade_run st :
  connectionMade st
  = (Ret tt,
     {| g := g st;
        self := set_nop_keep_alive (Some true)
                  (self (with_calls ([tn_do LINEMODE; d_addErrback disable_LINEMODE_h]
                                     ++ will_calls NEGOTIATE_ORDER
                                     ++ [tr_setTcpKeepAlive 1; lc_start 30]) st)) |}).
Proof.
  unfold connectionMade.
  rewrite (bind_run _ _ _ _ _ (emit_run _ _)).
  rewrite (bind_run _ _ _ _ _ (emit_run _ _)).
  rewrite (bind_run _ _ _ _ _ (for_each_will _ _)).
  rewrite (bind_run _ _ _ _ _ (emit_run _ _)).
  rewrite !with_calls_app.
  generalize (will_calls NEGOTIATE_ORDER) as w; intros w.
  unfold with_calls, toggle_nop_keepalive, emit.
  repeat (unfold modify_self, bind, get_self, put_self; simpl).
  unfold set_trace, set_nop_keep_alive. simpl.
  do 3 f_equal. rewrite <- !app_assoc. f_equal. simpl. do 2 f_equal.
  now rewrite <- app_assoc.
Qed.

Lemma will_calls_order :
  will_calls NEGOTIATE_ORDER
  = [ tn_will SGA; d_addCallbacks enable_SGA_h disable_SGA_h;
      tn_will NAWS; d_addCallbacks enable_NAWS_h disable_NAWS_h;
      tn_will TTYPE; d_addCallbacks enable_TTYPE_h disable_TTYPE_h;
      tn_will MCCP2; d_addCallbacks enable_MCCP2_h disable_MCCP2_h;
      tn_will MCCP3; d_addCallbacks enable_MCCP3_h disable_MCCP3_h;
      tn_will MSSP; d_addCallbacks enable_MSSP_h disable_MSSP_h;
      tn_will MSDP; d_addCallbacks enable_MSDB_h disable_MSDP_h;
      tn_will GMCP; d_addCallbacks enable_GMCP_h disable_GMCP_h;
      tn_will MXP; d_addCallbacks enable_MXP_h disable_MXP_h ].
Proof. vm_compute. reflexivity. Qed.

Lemma supported_in_order (o : bytes) :
  enableLocal o = true -> o ∈ NEGOTIATE_ORDER.
Proof.
  unfold enableLocal. intros E.
  destruct (SUPPORTED_FEATURES !! o) as [[|]|] eqn:L; try discriminate.
  apply elem_of_list_to_map_2 in L.
  unfold NEGOTIATE_ORDER.
  repeat (rewrite elem_of_cons in L; destruct L as [L|L];
          [inversion L; subst; set_solver|]).
  now apply elem_of_nil in L.
Qed.

(** C9: at connection start WILL is requested for each of the nine extension
    options exactly once, in the order suppress-go-ahead (3), window size
    (31), terminal type (24), outbound compression (86), inbound compression
    (87), server status (70), structured data (69), generic communication
    (201), markup (91); every option the engine supports is among them. *)
Theorem connectionMade_wills (st : state) :
  exists st' new,
    connectionMade st = (Ret tt, st') /\
    trace (self st') = trace (self st) ++ new /\
    wills new
    = [chr 3; chr 31; chr 24; chr 86; chr 87; chr 70; chr 69; chr 201; chr 91] /\
    NoDup (wills new) /\
    (forall o, enableLocal o = true -> o ∈ wills new) /\
    sent (map tn_will (wills new))
    = [ xff; xfb; x03; xff; xfb; x1f; xff; xfb; x18; xff; xfb; x56; xff; xfb; x57;
        xff; xfb; x46; xff; xfb; x45; xff; xfb; xc9; xff; xfb; x5b ].
Proof.
  eexists _, _. split; [apply connectionMade_run|].
  split; [reflexivity|]. rewrite will_calls_order.
  assert (W : wills ([tn_do LINEMODE; d_addErrback disable_LINEMODE_h] ++
                     [ tn_will SGA; d_addCallbacks enable_SGA_h disable_SGA_h;
                       tn_will NAWS; d_addCallbacks enable_NAWS_h disable_NAWS_h;
                       tn_will TTYPE; d_addCallbacks enable_TTYPE_h disable_TTYPE_h;
                       tn_will MCCP2; d_addCallbacks enable_MCCP2_h disable_MCCP2_h;
                       tn_will MCCP3; d_addCallbacks enable_MCCP3_h disable_MCCP3_h;
                       tn_will MSSP; d_addCallbacks enable_MSSP_h disable_MSSP_h;
                       tn_will MSDP; d_addCallbacks enable_MSDB_h disable_MSDP_h;
                       tn_will GMCP; d_addCallbacks enable_GMCP_h disable_GMCP_h;
                       tn_will MXP; d_addCallbacks enable_MXP_h disable_MXP_h ] ++
                     [tr_setTcpKeepAlive 1; lc_start 30])
              = NEGOTIATE_ORDER) by reflexivity.
  rewrite W. repeat split.
  - apply (bool_decide_unpack (NoDup NEGOTIATE_ORDER)). vm_compute. exact I.
  - apply supported_in_order.
Qed.

(** C5, as the code has it: at connection start the engine asks the client to
    enable line mode: its first call, made for every connection and whatever
    the state of the session, is a DO request for LINEMODE (the octets IAC DO
    LINEMODE); no DONT request for LINEMODE follows. *)
Theorem connectionMade_linemode (st : state) :
  exists st' rest,
    connectionMade st = (Ret tt, st') /\
    trace (self st') = trace (self st) ++ tn_do LINEMODE :: rest /\
    wire (tn_do LINEMODE) = [xff; xfd; x22] /\
    tn_dont LINEMODE ∉ rest.
Proof.
  eexists _, _. split; [apply connectionMade_run|].
  split; [reflexivity|]. split; [reflexivity|].
  rewrite will_calls_order. intros H.
  apply (bool_decide_pack _) in H. vm_compute in H. exact H.
Qed.

(** On a new connection the first request is DO LINEMODE, and the octets IAC
    DONT LINEMODE are not sent at all. *)
Lemma connectionMade_sends_do_not_dont :
  trace (self (snd (connectionMade fresh))) !! 0%nat = Some (tn_do LINEMODE) /\
  bool_decide (tn_dont LINEMODE ∈ trace (self (snd (connectionMade fresh)))) = false /\
  startswith (sent (trace (self (snd (connectionMade fresh))))) (IAC ++ DO ++ LINEMODE)
  = true /\
  contains (sent (trace (self (snd (connectionMade fresh))))) (IAC ++ DONT ++ LINEMODE)
  = false.
Proof. vm_compute. repeat split. Qed.

(** ** Terminal type: the handshake *)


(** ** A small program logic *)

Section Logic.
Variable R : state -> state -> Prop.
Hypothesis R_refl : forall st, R st st.
Hypothesis R_trans : forall a b c, R a b -> R b c -> R a c.

(** [m] does not touch the state: it returns or raises in the state it got. *)
Definition stateless {A} (m : M A) : Prop :=
  forall st, snd (m st) = st.

(** [m] returns, in a state related to the one it got. *)
Definition safe {A} (m : M A) : Prop :=
  forall st, exists a st', m st = (Ret a, st') /\ R st st'.

(** [m] returns in a related state, or raises in the state it got. *)
Definition atomic {A} (m : M A) : Prop :=
  forall st, match m st with
             | (Ret _, st') => R st st'
             | (Raise _, st') => st' = st
             end.

Lemma stateless_ret {A} (a : A) : stateless (ret a).
Proof. intros st. reflexivity. Qed.

Lemma stateless_raise {A} e : stateless (@raise A e).
Proof. intros st. reflexivity. Qed.

Lemma stateless_or_raise {A} (o : option A) e : stateless (or_raise o e).
Proof. destruct o; intros st; reflexivity. Qed.

Lemma stateless_get_self : stateless get_self.
Proof. intros st. reflexivity. Qed.

Lemma stateless_bind {A B} (m : M A) (k : A -> M B) :
  stateless m -> (forall a, stateless (k a)) -> stateless (x <- m ;; k x).
Proof.
  intros Hm Hk st. unfold bind. specialize (Hm st).
  destruct (m st) as [[a|e] st']; simpl in *; subst; [apply Hk|reflexivity].
Qed.

Lemma stateless_try_except {A} (m : M A) e (h : M A) :
  stateless m -> stateless h -> stateless (try_except m e h).
Proof.
  intros Hm Hh st. unfold try_except. specialize (Hm st).
  destruct (m st) as [[a|e'] st']; simpl in *; subst; [reflexivity|].
  destruct (bool_decide (e' = e)); [apply Hh|reflexivity].
Qed.

Lemma safe_ret {A} (a : A) : safe (ret a).
Proof. intros st. eauto. Qed.

Lemma safe_bind {A B} (m : M A) (k : A -> M B) :
  safe m -> (forall a, safe (k a)) -> safe (x <- m ;; k x).
Proof.
  intros Hm Hk st. destruct (Hm st) as (a & st1 & E & H1).
  destruct (Hk a st1) as (c & st2 & E2 & H2).
  exists c, st2. split; [|eauto]. unfold bind. now rewrite E.
Qed.

Lemma safe_if {A} (c : bool) (m1 m2 : M A) : safe m1 -> safe m2 -> safe (if c then m1 else m2).
Proof. now destruct c. Qed.

Lemma safe_for_each {A} (l : list A) (body : A -> M unit) :
  (forall x, x ∈ l -> safe (body x)) -> safe (for_each l body).
Proof.
  induction l as [|x l IH]; intros H; simpl; [apply safe_ret|].
  apply safe_bind; [apply H; left|]. intros _. apply IH. intros y Hy. apply H. now right.
Qed.

Lemma atomic_safe {A} (m : M A) : safe m -> atomic m.
Proof. intros H st. destruct (H st) as (a & st' & -> & HR). exact HR. Qed.

Lemma atomic_stateless {A} (m : M A) : stateless m -> atomic m.
Proof.
  intros H st. specialize (H st). destruct (m st) as [[a|e] st']; simpl in *; subst; auto.
Qed.

Lemma atomic_stateless_bind {A B} (m : M A) (k : A -> M B) :
  stateless m -> (forall a, atomic (k a)) -> atomic (x <- m ;; k x).
Proof.
  intros Hm Hk st. unfold bind. specialize (Hm st).
  destruct (m st) as [[a|e] st']; simpl in *; subst; [apply Hk|reflexivity].
Qed.

Lemma atomic_bind_safe {A B} (m : M A) (k : A -> M B) :
  atomic m -> (forall a, safe (k a)) -> atomic (x <- m ;; k x).
Proof.
  intros Hm Hk st. unfold bind. specialize (Hm st).
  destruct (m st) as [[a|e] st']; [|now subst].
  destruct (Hk a st') as (c & st2 & -> & H2). eauto.
Qed.

Lemma atomic_if {A} (c : bool) (m1 m2 : M A) :
  atomic m1 -> atomic m2 -> atomic (if c then m1 else m2).
Proof. now destruct c. Qed.

End Logic.


Lemma same_core_refl st : same_core st st.
Proof. repeat split. Qed.

Lemma same_core_trans a b c : same_core a b -> same_core b c -> same_core a c.
Proof. unfold same_core. intuition congruence. Qed.

Lemma same_handshake_refl st : same_handshake st st.
Proof. repeat split. Qed.

Lemma same_handshake_trans a b c :
  same_handshake a b -> same_handshake b c -> same_handshake a c.
Proof. unfold same_handshake, same_core. intuition congruence. Qed.

Lemma set_flag_core k v : safe same_core (set_flag k v).
Proof. intros st. eexists _, _. split; [reflexivity|]. repeat split. Qed.

Lemma set_flag_handshake k v : k <> u "TTYPE" -> safe same_handshake (set_flag k v).
Proof.
  intros Hk st. eexists _, _. split; [reflexivity|]. repeat split. simpl.
  now rewrite lookup_insert_ne.
Qed.

Lemma notified_emit c st :
  notified (self (snd (emit c st)))
  = (notified (self st) + if is_done c then 1 else 0)%nat.
Proof.
  unfold notified. simpl. rewrite List.filter_app, length_app. simpl.
  destruct (is_done c); reflexivity.
Qed.

Lemma emit_handshake c : is_done c = false -> safe same_handshake (emit c).
Proof.
  intros Hc st. eexists _, _. split; [reflexivity|]. repeat split.
  unfold notified. simpl. rewrite List.filter_app, length_app. simpl.
  rewrite Hc. simpl. lia.
Qed.

Ltac flag_ne := vm_compute; discriminate.

Ltac handshake_safe :=
  repeat first
    [ apply (safe_ret _ same_handshake_refl)
    | apply set_flag_handshake; flag_ne
    | apply emit_handshake; reflexivity
    | apply safe_if
    | apply (safe_bind _ same_handshake_trans); [|intros ?] ].

Lemma ttype_step1_atomic U o : atomic same_handshake (ttype_step1 U o).
Proof.
  unfold ttype_step1.
  apply atomic_stateless_bind.
  { apply stateless_try_except; [|apply stateless_ret].
    apply stateless_bind; [apply stateless_or_raise|intros; apply stateless_ret]. }
  intros clientname.
  apply (atomic_bind_safe _ same_handshake_trans); [|intros; handshake_safe].
  apply atomic_if; [|apply atomic_safe; handshake_safe].
  apply atomic_stateless_bind; [apply stateless_or_raise|]. intros parts.
  apply atomic_safe. handshake_safe.
Qed.

Lemma ttype_step2_atomic U o : atomic same_handshake (ttype_step2 U o).
Proof.
  unfold ttype_step2.
  apply atomic_stateless_bind; [apply stateless_or_raise|]. intros term.
  apply atomic_safe. handshake_safe.
Qed.

Lemma update_core support : safe same_core (update support).
Proof.
  apply (safe_for_each _ same_core_refl same_core_trans).
  intros kv _. apply set_flag_core.
Qed.

Lemma ttype_step3_effect U o st :
  match ttype_step3 U o st with
  | (Ret _, st') =>
      g st' = g st /\ ttype_step (self st') = ttype_step (self st) /\
      notified (self st') = S (notified (self st)) /\ ttype_done (self st') = true
  | (Raise _, st') => st' = st
  end.
Proof.
  unfold ttype_step3. destruct o as [o|]; [|reflexivity].
  unfold local, or_raise. rewrite bind_ret_l.
  match goal with
  | |- context [bind ?m _] =>
      assert (H : atomic same_core m);
      [|specialize (H st); unfold bind at 1; destruct (m st) as [[[]|e] st1]]
  end.
  - apply atomic_if; [|apply atomic_safe, (safe_ret _ same_core_refl)].
    apply atomic_if; [|apply atomic_safe, set_flag_core].
    apply atomic_stateless_bind; [apply stateless_or_raise|]. intros n.
    apply atomic_safe, update_core.
  - destruct H as (Hg & Hs & Hn). cbn. repeat split; auto.
    + unfold notified in *. simpl. rewrite List.filter_app, length_app. simpl. lia.
    + unfold ttype_done. simpl. now rewrite lookup_insert_eq.
  - exact H.
Qed.

Lemma same_handshake_done st st' :
  same_handshake st st' -> ttype_done (self st') = ttype_done (self st).
Proof. intros [_ H]. unfold ttype_done. now rewrite H. Qed.


Lemma negotiate_TTYPE_closed U data st :
  ttype_closed (self st) = true -> negotiate_TTYPE U data st = (Ret tt, st).
Proof.
  intros H. unfold negotiate_TTYPE, bind, get_self. cbn [fst snd].
  unfold ttype_closed, ttype_done in H. now rewrite H.
Qed.

Lemma ttype_closed_iff s :
  ttype_closed s = true <-> ttype_done s = true \/ 3 < ttype_step s.
Proof.
  unfold ttype_closed. rewrite orb_true_iff, andb_true_iff, Z.ltb_lt, negb_true_iff.
  split; [tauto|]. intros [H|H]; [|tauto]. left. split; [|exact H].
  apply bool_decide_eq_false_2. intros E. unfold ttype_done in H.
  rewrite E, lookup_empty in H. discriminate.
Qed.

Lemma option_stateless data :
  stateless (try_except
               (joined <- join data ;;
                o <- or_raise (decode (lstrip_chars IS joined)) UnicodeDecodeError ;;
                ret (Some o))
               TypeError (ret None)).
Proof.
  apply stateless_try_except; [|apply stateless_ret].
  apply stateless_bind.
  - induction data as [|[] data IH]; try apply stateless_raise; [apply stateless_ret|].
    cbn [join]. apply stateless_bind; [exact IH|intros; apply stateless_ret].
  - intros. apply stateless_bind; [apply stateless_or_raise|intros; apply stateless_ret].
Qed.

Lemma negotiate_TTYPE_effect U data st :
  ttype_closed (self st) = false ->
  match negotiate_TTYPE U data st with
  | (Ret _, st') =>
      g st' = g st /\ ttype_step (self st') = ttype_step (self st) + 1 /\
      if ttype_step (self st) =? 3
      then notified (self st') = S (notified (self st)) /\ ttype_done (self st') = true
      else notified (self st') = notified (self st)
           /\ ttype_done (self st') = ttype_done (self st)
  | (Raise _, st') => st' = st
  end.
Proof.
  intros Hc. unfold negotiate_TTYPE. unfold bind at 1. cbn [get_self].
  unfold ttype_closed, ttype_done in Hc. rewrite Hc. clear Hc.
  unfold bind at 1.
  pose proof (option_stateless data st) as Ho.
  match goal with |- context [try_except ?m ?e ?h st] =>
    destruct (try_except m e h st) as [[o|e'] st1] end; simpl in Ho; subst st1;
    [|reflexivity].
  unfold bind at 1. cbn [get_self]. unfold bind at 1.
  match goal with |- context [(if ?c then ?a else ?r) st] =>
    assert (H : match (if c then a else r) st with
                | (Ret _, st') =>
                    g st' = g st /\ ttype_step (self st') = ttype_step (self st) /\
                    if ttype_step (self st) =? 3
                    then notified (self st') = S (notified (self st))
                         /\ ttype_done (self st') = true
                    else notified (self st') = notified (self st)
                         /\ ttype_done (self st') = ttype_done (self st)
                | (Raise _, st') => st' = st
                end);
    [|destruct ((if c then a else r) st) as [[[]|e] st1]; [|exact H]]
  end.
  - destruct (ttype_step (self st) =? 1) eqn:E1.
    { apply Z.eqb_eq in E1. rewrite E1. cbn [Z.eqb Pos.eqb].
      pose proof (ttype_step1_atomic U o st) as H.
      destruct (ttype_step1 U o st) as [[[]|e] st1]; [|exact H].
      pose proof (same_handshake_done _ _ H). destruct H as [(? & ? & ?) _].
      repeat split; congruence. }
    destruct (ttype_step (self st) =? 2) eqn:E2.
    { apply Z.eqb_eq in E2. rewrite E2. cbn [Z.eqb Pos.eqb].
      pose proof (ttype_step2_atomic U o st) as H.
      destruct (ttype_step2 U o st) as [[[]|e] st1]; [|exact H].
      pose proof (same_handshake_done _ _ H). destruct H as [(? & ? & ?) _].
      repeat split; congruence. }
    destruct (ttype_step (self st) =? 3) eqn:E3.
    { pose proof (ttype_step3_effect U o st) as H.
      destruct (ttype_step3 U o st) as [[[]|e] st1]; [|exact H]. tauto. }
    repeat split.
  - destruct H as (Hg & Hs & H). cbn. rewrite Hs. repeat split; auto.
Qed.


Lemma ttype_closed_false s :
  ttype_closed s = false <-> ttype_done s = false /\ ttype_step s <= 3.
Proof.
  rewrite <- not_true_iff_false, ttype_closed_iff.
  destruct (ttype_done s); split; intros H; try lia; try tauto.
Qed.

Lemma negotiate_TTYPE_inv U data st :
  handshake_inv (self st) -> handshake_inv (self (snd (negotiate_TTYPE U data st))).
Proof.
  intros [(Hs & Hd & Hn)|(Hs & Hd & Hn)].
  - pose proof (negotiate_TTYPE_effect U data st) as H.
    destruct (negotiate_TTYPE U data st) as [[[]|e] st'].
    + destruct H as (_ & Hs' & H); [apply ttype_closed_false; split; [auto|lia]|].
      cbn [snd]. destruct (ttype_step (self st) =? 3) eqn:E.
      * apply Z.eqb_eq in E. right. destruct H. repeat split; [lia|auto|lia].
      * apply Z.eqb_neq in E. left. destruct H. repeat split; [lia|lia|congruence|lia].
    + rewrite H; [|apply ttype_closed_false; split; [auto|lia]].
      left. auto.
  - rewrite negotiate_TTYPE_closed; [right; auto|].
    apply ttype_closed_iff. auto.
Qed.

Lemma deliver_inv U payloads st :
  handshake_inv (self st) -> handshake_inv (self (deliver U payloads st)).
Proof.
  revert st. induction payloads as [|d payloads IH]; intros st H; [exact H|].
  cbn [deliver]. apply IH, negotiate_TTYPE_inv, H.
Qed.

(** C2: from a new session, whatever payloads are delivered, the step counter
    stays between 1 and 4, each delivery either leaves the state as it is or
    advances the counter by one (so at most three payloads are processed),
    and the handshake is done exactly when the counter is 4, the notification
    having fired once then and never before; after three payloads processed
    the handshake is done and every later payload is ignored; and in any
    state, a payload delivered once the TTYPE flag is set or the counter
    exceeds 3 leaves the whole state unchanged. *)
Theorem ttype_handshake_three_rounds U st :
  ttype_step (self st) = 1 ->
  ttype_done (self st) = false ->
  notified (self st) = 0%nat ->
  (forall payloads,
     let st' := deliver U payloads st in
     1 <= ttype_step (self st') <= 4 /\
     (ttype_step (self st') = 4 <-> ttype_done (self st') = true) /\
     notified (self st') = (if ttype_step (self st') =? 4 then 1%nat else 0%nat) /\
     (forall data,
        snd (negotiate_TTYPE U data st') = st' \/
        (ttype_step (self st') <= 3 /\
         fst (negotiate_TTYPE U data st') = Ret tt /\
         ttype_step (self (snd (negotiate_TTYPE U data st')))
         = ttype_step (self st') + 1))) /\
  (forall d1 d2 d3 s1 s2 s3,
     negotiate_TTYPE U d1 st = (Ret tt, s1) ->
     negotiate_TTYPE U d2 s1 = (Ret tt, s2) ->
     negotiate_TTYPE U d3 s2 = (Ret tt, s3) ->
     ttype_step (self s3) = 4 /\ ttype_done (self s3) = true /\
     notified (self s3) = 1%nat /\
     forall payloads, deliver U payloads s3 = s3) /\
  (forall (s : state) data,
     ttype_done (self s) = true \/ 3 < ttype_step (self s) ->
     negotiate_TTYPE U data s = (Ret tt, s)).
Proof.
  intros Hs Hd Hn.
  assert (Hinv : handshake_inv (self st)) by (left; repeat split; auto; lia).
  assert (Hclosed : forall (s : state) data,
            ttype_done (self s) = true \/ 3 < ttype_step (self s) ->
            negotiate_TTYPE U data s = (Ret tt, s)).
  { intros s data H. apply negotiate_TTYPE_closed, ttype_closed_iff, H. }
  split; [|split; [|exact Hclosed]].
  - intros payloads st'. pose proof (deliver_inv U payloads st Hinv) as H.
    fold st' in H. clearbody st'.
    destruct H as [(Hs' & Hd' & Hn')|(Hs' & Hd' & Hn')].
    + split; [lia|]. split; [split; [lia|congruence]|]. split.
      * destruct (ttype_step (self st') =? 4) eqn:E; [apply Z.eqb_eq in E; lia|auto].
      * intros data. pose proof (negotiate_TTYPE_effect U data st') as H.
        destruct (negotiate_TTYPE U data st') as [[[]|e] st''].
        -- right. destruct H as (_ & H & _); [apply ttype_closed_false; split; [auto|lia]|].
           repeat split; auto. lia.
        -- left. apply H, ttype_closed_false. split; [auto|lia].
    + split; [lia|]. split; [tauto|]. split.
      * rewrite Hs'. exact Hn'.
      * intros data. left. rewrite Hclosed; auto.
  - intros d1 d2 d3 s1 s2 s3 E1 E2 E3.
    pose proof (negotiate_TTYPE_effect U d1 st) as H1. rewrite E1 in H1.
    destruct H1 as (_ & Hs1 & H1); [apply ttype_closed_false; split; [auto|lia]|].
    rewrite Hs in *. cbn in H1. destruct H1 as [Hn1 Hd1].
    pose proof (negotiate_TTYPE_effect U d2 s1) as H2. rewrite E2 in H2.
    destruct H2 as (_ & Hs2 & H2); [apply ttype_closed_false; split; [congruence|lia]|].
    rewrite Hs1 in *. cbn in H2. destruct H2 as [Hn2 Hd2].
    pose proof (negotiate_TTYPE_effect U d3 s2) as H3. rewrite E3 in H3.
    destruct H3 as (_ & Hs3 & H3); [apply ttype_closed_false; split; [congruence|lia]|].
    rewrite Hs2 in *. cbn in H3. destruct H3 as [Hn3 Hd3].
    repeat split; auto; try lia.
    induction payloads as [|d payloads IH]; [reflexivity|].
    cbn [deliver]. rewrite Hclosed; auto.
Qed.

Lemma ttype_handshake_three_rounds_witness :
  ttype_step (self fresh) = 1 /\
  ttype_done (self fresh) = false /\
  notified (self fresh) = 0%nat /\
  negotiate_TTYPE ascii_only (items (x00 :: b "MUDLET 2.0")) fresh
  = (Ret tt, deliver ascii_only [items (x00 :: b "MUDLET 2.0")] fresh) /\
  negotiate_TTYPE ascii_only (items (x00 :: b "ansi-256color"))
    (deliver ascii_only [items (x00 :: b "MUDLET 2.0")] fresh)
  = (Ret tt, deliver ascii_only [items (x00 :: b "MUDLET 2.0");
                                 items (x00 :: b "ansi-256color")] fresh) /\
  negotiate_TTYPE ascii_only (items (x00 :: b "MTTS 13"))
    (deliver ascii_only [items (x00 :: b "MUDLET 2.0");
                         items (x00 :: b "ansi-256color")] fresh)
  = (Ret tt, deliver ascii_only [items (x00 :: b "MUDLET 2.0");
                                 items (x00 :: b "ansi-256color");
                                 items (x00 :: b "MTTS 13")] fresh) /\
  let s3 := deliver ascii_only [items (x00 :: b "MUDLET 2.0");
                                items (x00 :: b "ansi-256color");
                                items (x00 :: b "MTTS 13")] fresh in
  ttype_step (self s3) = 4 /\ ttype_done (self s3) = true /\
  notified (self s3) = 1%nat /\
  forall payloads, deliver ascii_only payloads s3 = s3.
Proof.
  do 6 (split; [vm_compute; reflexivity|]).
  refine (proj1 (proj2 (ttype_handshake_three_rounds ascii_only fresh _ _ _))
            (items (x00 :: b "MUDLET 2.0")) (items (x00 :: b "ansi-256color"))
            (items (x00 :: b "MTTS 13")) _ _ _ _ _ _);
    vm_compute; reflexivity.
Defined.

(** A Mudlet client: MUDLET 2.0, ansi-256color, MTTS 13, and a fourth
    payload that is ignored. *)
Example mudlet_handshake :
  let s3 := deliver ascii_only [items (x00 :: b "MUDLET 2.0");
                                items (x00 :: b "ansi-256color");
                                items (x00 :: b "MTTS 13")] fresh in
  protocol_flags (self s3) !! u "ANSI" = Some (VBool true) /\
  protocol_flags (self s3) !! u "XTERM256" = Some (VBool true) /\
  protocol_flags (self s3) !! u "UTF-8" = Some (VBool true) /\
  protocol_flags (self s3) !! u "CLIENTNAME" = Some (VStr (u "MUDLET 2.0")) /\
  protocol_flags (self s3) !! u "TERM" = Some (VStr (u "ansi-256color")) /\
  protocol_flags (self s3) !! u "TTYPE" = Some (VBool true) /\
  ttype_step (self s3) = 4 /\
  trace (self s3)
  = [tn_requestNegotiation TTYPE SEND; tn_requestNegotiation TTYPE SEND; handshake_done] /\
  negotiate_TTYPE ascii_only (items (x00 :: b "zmud")) s3 = (Ret tt, s3).
Proof. vm_compute. repeat split. Qed.

(** ** Terminal type: step 3 *)

Lemma join_run data st :
  join data st = match joined data with
                 | Some x => (Ret x, st)
                 | None => (Raise TypeError, st)
                 end.
Proof.
  induction data as [|[] data IH]; try reflexivity.
  cbn [join joined]. unfold bind. rewrite IH.
  destruct (joined data); reflexivity.
Qed.

Lemma joined_items payload : joined (items payload) = Some payload.
Proof.
  induction payload as [|x payload IH]; [reflexivity|].
  cbn [items map joined]. fold (items payload). now rewrite IH.
Qed.

(** The handler on a payload of text, while the handshake is open. *)
Lemma negotiate_TTYPE_text U payload t st :
  ttype_closed (self st) = false ->
  decode (lstrip_chars IS payload) = Some t ->
  negotiate_TTYPE U (items payload) st
  = (((if ttype_step (self st) =? 1 then ttype_step1 U (Some t)
       else if ttype_step (self st) =? 2 then ttype_step2 U (Some t)
       else if ttype_step (self st) =? 3 then ttype_step3 U (Some t)
       else ret tt) ;;
      modify_self (fun s => set_ttype_step (ttype_step s + 1) s)) st).
Proof.
  intros Hc Hd. unfold negotiate_TTYPE. unfold bind at 1. cbn [get_self].
  unfold ttype_closed, ttype_done in Hc. rewrite Hc.
  unfold bind at 1, try_except, bind at 1.
  rewrite join_run, joined_items. unfold bind at 1. rewrite Hd. reflexivity.
Qed.


Lemma update_run support st :
  update support st = (Ret tt, with_flags (insert_all support (protocol_flags (self st))) st).
Proof.
  revert st. unfold update. induction support as [|kv support IH]; intros st.
  - destruct st as [gl s]; destruct s; reflexivity.
  - cbn [for_each]. unfold bind. cbn [set_flag modify_self bind get_self put_self].
    unfold set_flag, modify_self, bind, get_self, put_self. rewrite IH. reflexivity.
Qed.

Lemma insert_all_cons kv support f :
  insert_all (kv :: support) f = insert_all support (<[fst kv := snd kv]> f).
Proof. reflexivity. Qed.

Lemma insert_all_true (names : list str) (f : gmap str val) (k : str) :
  insert_all (map (fun c => (c, VBool true)) names) f !! k
  = if bool_decide (k ∈ names) then Some (VBool true) else f !! k.
Proof.
  revert f. induction names as [|c names IH]; intros f; [reflexivity|].
  cbn [map]. rewrite insert_all_cons, IH. cbn [fst snd].
  destruct (decide (k ∈ names)) as [Hk|Hk].
  - rewrite !bool_decide_eq_true_2; [reflexivity|now right|exact Hk].
  - rewrite (bool_decide_eq_false_2 _ Hk). destruct (decide (k = c)) as [->|Hc].
    + rewrite lookup_insert_eq, bool_decide_eq_true_2; [reflexivity|now left].
    + rewrite lookup_insert_ne by congruence.
      rewrite bool_decide_eq_false_2; [reflexivity|].
      intros H. apply elem_of_cons in H as [?|?]; tauto.
Qed.

Lemma snd_unique {A B} (l : list (A * B)) a a' c :
  NoDup (map snd l) -> (a, c) ∈ l -> (a', c) ∈ l -> a = a'.
Proof.
  induction l as [|[x y] l IH]; intros Hn H1 H2; [now apply elem_of_nil in H1|].
  cbn [map snd] in Hn. apply NoDup_cons in Hn as [Hy Hn].
  apply elem_of_cons in H1 as [H1|H1]; apply elem_of_cons in H2 as [H2|H2].
  - congruence.
  - injection H1 as -> ->. exfalso. apply Hy.
    apply list_elem_of_In, in_map_iff. exists (a', y). split; [reflexivity|].
    now apply list_elem_of_In.
  - injection H2 as -> ->. exfalso. apply Hy.
    apply list_elem_of_In, in_map_iff. exists (a, y). split; [reflexivity|].
    now apply list_elem_of_In.
  - eauto.
Qed.

Lemma MTTS_names_NoDup : NoDup (map snd MTTS).
Proof. apply (bool_decide_unpack (NoDup (map snd MTTS))). vm_compute. exact I. Qed.

Lemma ascii_digits_forall U tok :
  forallb ascii_isdigit tok = true -> forallb (isdigit_char U) tok = true.
Proof.
  intros Hd. apply forallb_forall. intros x Hx.
  pose proof (proj1 (forallb_forall _ _) Hd x Hx) as Hx'.
  unfold isdigit_char. unfold ascii_isdigit in Hx' |- *.
  apply andb_prop in Hx' as [H1 H2]. apply N.leb_le in H1, H2.
  rewrite (proj2 (N.ltb_lt x 128)) by lia.
  apply andb_true_intro. split; apply N.leb_le; lia.
Qed.

Lemma ascii_digits_isdigit U tok :
  tok <> [] -> forallb ascii_isdigit tok = true ->
  Z.of_nat (length tok) <= int_max_str_digits ->
  isdigit U tok = true /\ int U tok = Some (decimal tok).
Proof.
  intros Hne Hd Hlen. unfold isdigit, int.
  rewrite Hd, (ascii_digits_forall U tok Hd), (proj2 (Z.leb_le _ _) Hlen).
  destruct tok as [|c tok]; [congruence|]. split; reflexivity.
Qed.

(** A run of ASCII digits that is longer than the interpreter converts. *)
Lemma ascii_digits_too_long U tok :
  forallb ascii_isdigit tok = true ->
  int_max_str_digits < Z.of_nat (length tok) ->
  isdigit U tok = true /\ int U tok = None.
Proof.
  intros Hd Hlen. unfold isdigit, int.
  rewrite Hd, (ascii_digits_forall U tok Hd), (proj2 (Z.leb_gt _ _) Hlen).
  destruct tok as [|c tok]; [simpl in Hlen; unfold int_max_str_digits in Hlen; lia|].
  split; reflexivity.
Qed.


Lemma negotiate_TTYPE_step3 U payload t st :
  ttype_step (self st) = 3 ->
  ttype_done (self st) = false ->
  decode (lstrip_chars IS payload) = Some t ->
  startswith t (u "MTTS") = true ->
  negotiate_TTYPE U (items payload) st
  = let tok := strip U (drop 4 t) in
    if isdigit U tok then
      match int U tok with
      | Some n =>
          (Ret tt,
           ttype_finished
             (insert_all (map (fun bc => (snd bc, VBool true))
                            (filter (fun bc => Z.land n (fst bc) > 0) MTTS))
                         (protocol_flags (self st))) st)
      | None => (Raise ValueError, st)
      end
    else (Ret tt, ttype_finished (<[upper U tok := VBool true]> (protocol_flags (self st))) st).
Proof.
  intros Hs Hd Ht Hm.
  rewrite (negotiate_TTYPE_text U payload t st); [|apply ttype_closed_false; split; [auto|lia]|auto].
  rewrite Hs. cbn [Z.eqb Pos.eqb]. unfold ttype_step3, local, or_raise.
  unfold bind at 1. rewrite bind_ret_l, Hm. cbn zeta.
  destruct (isdigit U (strip U (drop 4 t))).
  - unfold bind at 1. unfold bind at 1.
    destruct (int U (strip U (drop 4 t))) as [n|]; [|reflexivity].
    cbn [ret]. rewrite update_run. reflexivity.
  - reflexivity.
Qed.

Lemma mtts_lookup (n : Z) (f : gmap str val) bit cap :
  (bit, cap) ∈ MTTS ->
  insert_all (map (fun bc => (snd bc, VBool true))
                (filter (fun bc => Z.land n (fst bc) > 0) MTTS)) f !! cap
  = if 0 <? Z.land n bit then Some (VBool true) else f !! cap.
Proof.
  intros Hin.
  rewrite <- (map_map snd (fun c => (c, VBool true))), insert_all_true.
  destruct (0 <? Z.land n bit) eqn:E.
  - apply Z.ltb_lt in E. rewrite bool_decide_eq_true_2; [reflexivity|].
    apply list_elem_of_In, in_map_iff. exists (bit, cap). split; [reflexivity|].
    apply list_elem_of_In, list_elem_of_filter. split; [simpl; lia|exact Hin].
  - apply Z.ltb_ge in E. rewrite bool_decide_eq_false_2; [reflexivity|].
    intros H. apply list_elem_of_In, in_map_iff in H as ([bit' cap'] & Hc & H).
    simpl in Hc. subst cap'. apply list_elem_of_In, list_elem_of_filter in H as [Hb H].
    assert (bit' = bit) by (eapply snd_unique; eauto using MTTS_names_NoDup).
    subst. simpl in Hb. lia.
Qed.

Lemma mtts_lookup_other (n : Z) (f : gmap str val) k :
  k ∉ map snd MTTS ->
  insert_all (map (fun bc => (snd bc, VBool true))
                (filter (fun bc => Z.land n (fst bc) > 0) MTTS)) f !! k
  = f !! k.
Proof.
  intros Hk.
  rewrite <- (map_map snd (fun c => (c, VBool true))), insert_all_true.
  rewrite bool_decide_eq_false_2; [reflexivity|].
  intros H. apply Hk. apply list_elem_of_In, in_map_iff in H as (bc & Hc & H).
  apply list_elem_of_In, list_elem_of_filter in H as [_ H].
  apply list_elem_of_In, in_map_iff. exists bc. split; [exact Hc|now apply list_elem_of_In].
Qed.

Lemma TTYPE_not_capability : u "TTYPE" ∉ map snd MTTS.
Proof. apply (bool_decide_eq_false_1 _). vm_compute. reflexivity. Qed.

(** C1, as the code has it: at step 3, for a payload whose text starts with
    MTTS: if the rest, stripped, is a decimal number of at most 4300 digits
    (the longest the interpreter converts), each capability of the table
    128 PROXY, 64 SCREENREADER, 32 OSC_COLOR_PALETTE, 16 MOUSE_TRACKING,
    8 XTERM256, 4 UTF-8, 2 VT100, 1 ANSI is set to true exactly when its bit
    is set in the number and is left as it was otherwise, the TTYPE flag is
    set to true as well, and every other flag is left as it was; if the rest
    is not numeric, the flag named by the upper-cased rest is set to true,
    with the TTYPE flag, and every other flag is left as it was; in
    particular the payload MTTS 13 sets ANSI, UTF-8 and XTERM256 to true and
    leaves the five other capabilities as they were. *)
Theorem negotiate_TTYPE_mtts U st payload t :
  ttype_step (self st) = 3 ->
  ttype_done (self st) = false ->
  decode (lstrip_chars IS payload) = Some t ->
  startswith t (u "MTTS") = true ->
  let tok := strip U (drop 4 t) in
  let flags := protocol_flags (self st) in
  let table := [ (128, u "PROXY"); (64, u "SCREENREADER"); (32, u "OSC_COLOR_PALETTE");
                 (16, u "MOUSE_TRACKING"); (8, u "XTERM256"); (4, u "UTF-8");
                 (2, u "VT100"); (1, u "ANSI") ] in
  (tok <> [] -> forallb ascii_isdigit tok = true -> Z.of_nat (length tok) <= 4300 ->
   exists st',
     negotiate_TTYPE U (items payload) st = (Ret tt, st') /\
     (forall bit cap, (bit, cap) ∈ table ->
        protocol_flags (self st') !! cap
        = if 0 <? Z.land (decimal tok) bit then Some (VBool true) else flags !! cap) /\
     protocol_flags (self st') !! u "TTYPE" = Some (VBool true) /\
     (forall k, k ∉ map snd table -> k <> u "TTYPE" ->
        protocol_flags (self st') !! k = flags !! k)) /\
  (isdigit U tok = false ->
   exists st',
     negotiate_TTYPE U (items payload) st = (Ret tt, st') /\
     protocol_flags (self st') !! upper U tok = Some (VBool true) /\
     protocol_flags (self st') !! u "TTYPE" = Some (VBool true) /\
     (forall k, k <> upper U tok -> k <> u "TTYPE" ->
        protocol_flags (self st') !! k = flags !! k)) /\
  (t = u "MTTS 13" ->
   exists st',
     negotiate_TTYPE U (items payload) st = (Ret tt, st') /\
     protocol_flags (self st') !! u "ANSI" = Some (VBool true) /\
     protocol_flags (self st') !! u "UTF-8" = Some (VBool true) /\
     protocol_flags (self st') !! u "XTERM256" = Some (VBool true) /\
     protocol_flags (self st') !! u "VT100" = flags !! u "VT100" /\
     protocol_flags (self st') !! u "MOUSE_TRACKING" = flags !! u "MOUSE_TRACKING" /\
     protocol_flags (self st') !! u "OSC_COLOR_PALETTE" = flags !! u "OSC_COLOR_PALETTE" /\
     protocol_flags (self st') !! u "SCREENREADER" = flags !! u "SCREENREADER" /\
     protocol_flags (self st') !! u "PROXY" = flags !! u "PROXY").
Proof.
  intros Hs Hd Ht Hm tok flags table.
  change table with MTTS.
  pose proof (negotiate_TTYPE_step3 U payload t st Hs Hd Ht Hm) as E.
  cbn zeta in E. fold tok in E.
  assert (Hnum : tok <> [] -> forallb ascii_isdigit tok = true ->
            Z.of_nat (length tok) <= 4300 ->
            exists st',
              negotiate_TTYPE U (items payload) st = (Ret tt, st') /\
              (forall bit cap, (bit, cap) ∈ MTTS ->
                 protocol_flags (self st') !! cap
                 = if 0 <? Z.land (decimal tok) bit then Some (VBool true) else flags !! cap) /\
              protocol_flags (self st') !! u "TTYPE" = Some (VBool true) /\
              (forall k, k ∉ map snd MTTS -> k <> u "TTYPE" ->
                 protocol_flags (self st') !! k = flags !! k)).
  { intros Hne Hdig Hlen. destruct (ascii_digits_isdigit U tok Hne Hdig Hlen) as [E1 E2].
    rewrite E1, E2 in E. eexists. split; [exact E|].
    cbn [ttype_finished self protocol_flags set_ttype_step set_trace set_flags].
    repeat split.
    + intros bit cap Hin.
      assert (cap <> u "TTYPE").
      { intros ->. apply TTYPE_not_capability.
        apply list_elem_of_In, in_map_iff. exists (bit, u "TTYPE").
        split; [reflexivity|now apply list_elem_of_In]. }
      rewrite lookup_insert_ne by congruence. now apply mtts_lookup.
    + apply lookup_insert_eq.
    + intros k Hk Hk'. rewrite lookup_insert_ne by congruence. now apply mtts_lookup_other. }
  split; [exact Hnum|]. split.
  - intros Hdig. rewrite Hdig in E. eexists. split; [exact E|].
    cbn [ttype_finished self protocol_flags set_ttype_step set_trace set_flags].
    repeat split.
    + destruct (decide (u "TTYPE" = upper U tok)) as [<-|Hne].
      * apply lookup_insert_eq.
      * rewrite lookup_insert_ne by congruence. apply lookup_insert_eq.
    + apply lookup_insert_eq.
    + intros k Hk Hk'. rewrite !lookup_insert_ne by congruence. reflexivity.
  - intros ->.
    assert (Etok : tok = u "13") by (vm_compute; reflexivity).
    destruct Hnum as (st' & E' & Hcap & _ & _).
    { rewrite Etok. discriminate. }
    { rewrite Etok. reflexivity. }
    { rewrite Etok. vm_compute. discriminate. }
    exists st'. split; [exact E'|]. rewrite Etok in Hcap.
    assert (Hin : forall bc, bool_decide (bc ∈ MTTS) = true -> bc ∈ MTTS)
      by (intros bc; apply bool_decide_eq_true_1).
    rewrite (Hcap 1 (u "ANSI")), (Hcap 4 (u "UTF-8")), (Hcap 8 (u "XTERM256")),
      (Hcap 2 (u "VT100")), (Hcap 16 (u "MOUSE_TRACKING")),
      (Hcap 32 (u "OSC_COLOR_PALETTE")), (Hcap 64 (u "SCREENREADER")),
      (Hcap 128 (u "PROXY")) by (apply Hin; vm_compute; reflexivity).
    repeat split.
Qed.

Lemma negotiate_TTYPE_mtts_witness :
  let flags := protocol_flags (self at_step3) in
  ttype_step (self at_step3) = 3 /\
  ttype_done (self at_step3) = false /\
  decode (lstrip_chars IS (x00 :: b "MTTS 13")) = Some (u "MTTS 13") /\
  startswith (u "MTTS 13") (u "MTTS") = true /\
  flags !! u "ANSI" = Some (VBool true) /\
  flags !! u "XTERM256" = Some (VBool false) /\
  flags !! u "UTF-8" = None /\
  exists st',
    negotiate_TTYPE ascii_only (items (x00 :: b "MTTS 13")) at_step3 = (Ret tt, st') /\
    protocol_flags (self st') !! u "ANSI" = Some (VBool true) /\
    protocol_flags (self st') !! u "UTF-8" = Some (VBool true) /\
    protocol_flags (self st') !! u "XTERM256" = Some (VBool true) /\
    protocol_flags (self st') !! u "VT100" = flags !! u "VT100" /\
    protocol_flags (self st') !! u "MOUSE_TRACKING" = flags !! u "MOUSE_TRACKING" /\
    protocol_flags (self st') !! u "OSC_COLOR_PALETTE" = flags !! u "OSC_COLOR_PALETTE" /\
    protocol_flags (self st') !! u "SCREENREADER" = flags !! u "SCREENREADER" /\
    protocol_flags (self st') !! u "PROXY" = flags !! u "PROXY".
Proof.
  do 7 (split; [vm_compute; reflexivity|]).
  refine (proj2 (proj2 (negotiate_TTYPE_mtts ascii_only at_step3 (x00 :: b "MTTS 13")
                          (u "MTTS 13") _ _ _ _)) eq_refl);
    vm_compute; reflexivity.
Defined.

(** The payload MTTS 13 changes a flag that is no capability of the table:
    TTYPE, unbound before, is true after.  And not every decimal number sets
    the capabilities: for a number of 4301 digits the handler raises
    ValueError and sets nothing. *)
Lemma negotiate_TTYPE_mtts_sets_TTYPE_and_refuses_long_numbers :
  let st' := snd (negotiate_TTYPE ascii_only (items (x00 :: b "MTTS 13")) at_step3) in
  let long := b "MTTS " ++ replicate 4301 x31 in
  bool_decide (u "TTYPE" ∈ map snd MTTS) = false /\
  protocol_flags (self at_step3) !! u "TTYPE" = None /\
  protocol_flags (self st') !! u "TTYPE" = Some (VBool true) /\
  (forallb ascii_isdigit (strip ascii_only (drop 4 (map Byte.to_N long))) = true /\
   length (strip ascii_only (drop 4 (map Byte.to_N long))) = 4301%nat) /\
  negotiate_TTYPE ascii_only (items (x00 :: long)) at_step3 = (Raise ValueError, at_step3).
Proof. vm_compute. repeat split. Qed.

(** The payload MTTS 13 sets ANSI, UTF-8 and XTERM256, and leaves VT100 unset. *)
Example negotiate_TTYPE_mtts_13 :
  let st' := snd (negotiate_TTYPE ascii_only (items (x00 :: b "MTTS 13")) at_step3) in
  protocol_flags (self st') !! u "ANSI" = Some (VBool true) /\
  protocol_flags (self st') !! u "UTF-8" = Some (VBool true) /\
  protocol_flags (self st') !! u "XTERM256" = Some (VBool true) /\
  protocol_flags (self st') !! u "VT100" = None /\
  protocol_flags (self st') !! u "TTYPE" = Some (VBool true).
Proof. vm_compute. repeat split. Qed.

(** A token that is not a number becomes a flag of its own. *)
Example negotiate_TTYPE_mtts_token :
  let st' := snd (negotiate_TTYPE ascii_only (items (x00 :: b "MTTS vt100")) at_step3) in
  protocol_flags (self st') !! u "VT100" = Some (VBool true) /\
  protocol_flags (self st') !! u "ANSI" = protocol_flags (self at_step3) !! u "ANSI".
Proof. vm_compute. repeat split. Qed.

(** ** Terminal type: malformed payloads *)


(** C6, at the code: a malformed payload at step 1 makes the handler raise
    (UnboundLocalError when the items do not join, UnicodeDecodeError when
    the octets are not text) with the session untouched: no client name is
    recorded and the step counter does not advance. *)
Theorem negotiate_TTYPE_malformed U st data :
  ttype_step (self st) = 1 ->
  ttype_done (self st) = false ->
  malformed data = true ->
  exists e,
    negotiate_TTYPE U data st = (Raise e, st) /\
    (e = UnboundLocalError \/ e = UnicodeDecodeError).
Proof.
  intros Hs Hd Hm.
  assert (Hc : ttype_closed (self st) = false)
    by (apply ttype_closed_false; split; [auto|lia]).
  unfold negotiate_TTYPE. unfold bind at 1. cbn [get_self].
  unfold ttype_closed, ttype_done in Hc. rewrite Hc.
  unfold bind at 1, try_except, bind at 1. rewrite join_run.
  unfold malformed in Hm. destruct (joined data) as [x|].
  - apply bool_decide_eq_true_1 in Hm. unfold bind at 1. rewrite Hm.
    exists UnicodeDecodeError. split; [reflexivity|now right].
  - exists UnboundLocalError. split; [|now left].
    cbn [bool_decide]. rewrite bool_decide_eq_true_2 by reflexivity.
    cbn [ret]. unfold bind at 1. cbn [get_self]. rewrite Hs. reflexivity.
Qed.

Lemma negotiate_TTYPE_malformed_witness :
  ttype_step (self fresh) = 1 /\
  ttype_done (self fresh) = false /\
  malformed [VBytes [x80]] = true /\
  exists e,
    negotiate_TTYPE ascii_only [VBytes [x80]] fresh = (Raise e, fresh) /\
    (e = UnboundLocalError \/ e = UnicodeDecodeError).
Proof.
  repeat (split; [reflexivity|]).
  apply (negotiate_TTYPE_malformed ascii_only fresh [VBytes [x80]]); reflexivity.
Defined.

Example negotiate_TTYPE_undecodable :
  negotiate_TTYPE ascii_only (items [x00; x80]) fresh = (Raise UnicodeDecodeError, fresh).
Proof. reflexivity. Qed.

Example negotiate_TTYPE_not_joinable :
  negotiate_TTYPE ascii_only [VInt 77] fresh = (Raise UnboundLocalError, fresh).
Proof. reflexivity. Qed.


(** ** Sending *)

Lemma bind_ret_r {A} (m : M A) st : (x <- m ;; ret x) st = m st.
Proof. unfold bind. destruct (m st) as [[a|e] st']; reflexivity. Qed.

Lemma send_one zl rM rG kwarg v st :
  send zl rM rG [(kwarg, v)] st
  = (if bool_decide (kwarg = u "text") then sendText zl v
     else if bool_decide (kwarg = u "prompt") then sendPrompt zl v
     else sendOOB zl rM rG v [] []) st.
Proof.
  unfold send. cbn [for_each].
  destruct (bool_decide (kwarg = u "text")), (bool_decide (kwarg = u "prompt"));
    unfold bind; match goal with |- context [?m st] => destruct (m st) as [[[]|e] st'] end;
    reflexivity.
Qed.

(** C4, at the code: a field whose name is neither text nor prompt is sent by
    [sendOOB] with the value of the field as the command and no arguments;
    the name of the field takes no part in what is sent. *)
Theorem send_other_field zl rM rG kwarg kwarg' v st :
  kwarg <> u "text" -> kwarg <> u "prompt" ->
  kwarg' <> u "text" -> kwarg' <> u "prompt" ->
  send zl rM rG [(kwarg, v)] st = sendOOB zl rM rG v [] [] st /\
  send zl rM rG [(kwarg, v)] st = send zl rM rG [(kwarg', v)] st.
Proof.
  intros H1 H2 H3 H4. rewrite !send_one.
  rewrite !bool_decide_eq_false_2 by assumption. split; reflexivity.
Qed.


Lemma send_other_field_witness :
  u "client_options" <> u "text" /\ u "client_options" <> u "prompt" /\
  u "get_value" <> u "text" /\ u "get_value" <> u "prompt" /\
  send counting_zlib echo_render echo_render [(u "client_options", VBytes (b "hp"))] with_msdp
  = sendOOB counting_zlib echo_render echo_render (VBytes (b "hp")) [] [] with_msdp /\
  send counting_zlib echo_render echo_render [(u "client_options", VBytes (b "hp"))] with_msdp
  = send counting_zlib echo_render echo_render [(u "get_value", VBytes (b "hp"))] with_msdp.
Proof.
  do 4 (split; [vm_compute; discriminate|]).
  apply (send_other_field counting_zlib echo_render echo_render
           (u "client_options") (u "get_value") (VBytes (b "hp")) with_msdp);
    vm_compute; discriminate.
Defined.

(** With a renderer that writes out the command it receives, the field
    [client_options=b"hp"] puts [hp] on the wire: the command rendered is the
    value, and the name of the field is lost. *)
Example send_renders_value :
  written (trace (self (snd (send counting_zlib echo_render echo_render
                               [(u "client_options", VBytes (b "hp"))] with_msdp))))
  = [VBytes (b "hp")].
Proof. vm_compute. reflexivity. Qed.

(** ** Compression *)

Lemma set_flag_run k v st :
  set_flag k v st = (Ret tt, with_flags (<[k := v]> (protocol_flags (self st))) st).
Proof. reflexivity. Qed.

Lemma begin_MCCP2_globals st : g (snd (begin_MCCP2 st)) = g st.
Proof. reflexivity. Qed.

Lemma disable_MCCP2_globals st st2 :
  disable_MCCP2 st = (Ret tt, st2) -> g st2 = g st.
Proof.
  unfold disable_MCCP2, get_flag, bind, get_self, or_raise.
  destruct (protocol_flags (self st) !! u "MCCP2") as [f|]; [|discriminate].
  cbn [ret]. destruct (truthy f); intros [= <-]; reflexivity.
Qed.

Lemma enable_MCCP2_run st :
  enable_MCCP2 st
  = (Ret tt,
     with_flags (<[u "MCCP2" := VBool true]> (protocol_flags (self st)))
       (with_calls [tn_write (VBytes (IAC ++ SB ++ MCCP2 ++ IAC ++ SE))] st)).
Proof. reflexivity. Qed.

Lemma compressData_on zl d st :
  protocol_flags (self st) !! u "MCCP2" = Some (VBool true) ->
  compressData zl (VBytes d) st
  = (Ret (VBytes (deflate zl (ZLIB_COMPRESS (g st)) (z_compress d)
                  ++ deflate zl (ZLIB_COMPRESS (g st) ++ [z_compress d])
                       (z_flush ZLIB_FLUSH))),
     {| g := {| ZLIB_COMPRESS :=
                  ZLIB_COMPRESS (g st) ++ [z_compress d; z_flush ZLIB_FLUSH];
                ZLIB_DECOMPRESS := ZLIB_DECOMPRESS (g st) |};
        self := self st |}).
Proof.
  intros H. unfold compressData, get_flag, bind, get_self. cbn [fst snd].
  rewrite H. cbn [or_raise ret truthy compressor_call g self ZLIB_COMPRESS ZLIB_DECOMPRESS].
  now rewrite <- app_assoc.
Qed.

Lemma compressData_off zl v st :
  protocol_flags (self st) !! u "MCCP2" = Some (VBool false) ->
  compressData zl v st = (Ret v, st).
Proof.
  intros H. unfold compressData, get_flag, bind, get_self. cbn [fst snd].
  rewrite H. reflexivity.
Qed.

Lemma sendText_on zl d st :
  protocol_flags (self st) !! u "MCCP2" = Some (VBool true) ->
  sendText zl (VBytes d) st
  = (Ret tt,
     with_calls
       [tn_write (VBytes (deflate zl (ZLIB_COMPRESS (g st)) (z_compress d)
                          ++ deflate zl (ZLIB_COMPRESS (g st) ++ [z_compress d])
                               (z_flush ZLIB_FLUSH)))]
       {| g := {| ZLIB_COMPRESS :=
                    ZLIB_COMPRESS (g st) ++ [z_compress d; z_flush ZLIB_FLUSH];
                  ZLIB_DECOMPRESS := ZLIB_DECOMPRESS (g st) |};
          self := self st |}).
Proof.
  intros H. unfold sendText, renderOutgoing. rewrite bind_ret_l.
  rewrite (bind_run _ _ _ _ _ (compressData_on zl d st H)). reflexivity.
Qed.

(** C7, as the code has it: switching outbound compression off and on again
    creates no compressor: the module-level compressor is kept with the
    state it had, and what is sent after the re-enabling is compressed as a
    continuation of everything compressed before. *)
Theorem disable_enable_keeps_compressor zl st st2 st3 d :
  disable_MCCP2 st = (Ret tt, st2) ->
  enable_MCCP2 st2 = (Ret tt, st3) ->
  ZLIB_COMPRESS (g st3) = ZLIB_COMPRESS (g st) /\
  exists st4,
    sendText zl (VBytes d) st3 = (Ret tt, st4) /\
    written (trace (self st4))
    = written (trace (self st3))
      ++ [VBytes (deflate zl (ZLIB_COMPRESS (g st)) (z_compress d)
                  ++ deflate zl (ZLIB_COMPRESS (g st) ++ [z_compress d])
                       (z_flush ZLIB_FLUSH))] /\
    ZLIB_COMPRESS (g st4)
    = ZLIB_COMPRESS (g st) ++ [z_compress d; z_flush ZLIB_FLUSH].
Proof.
  intros Hd He. apply disable_MCCP2_globals in Hd.
  rewrite enable_MCCP2_run in He. injection He as <-.
  cbn [with_flags with_calls g]. rewrite Hd. split; [reflexivity|].
  eexists. split.
  - apply sendText_on. cbn. apply lookup_insert_eq.
  - cbn [with_calls with_flags g self trace set_trace set_flags ZLIB_COMPRESS].
    rewrite Hd. split; [|reflexivity].
    unfold written. rewrite omap_app. reflexivity.
Qed.


Lemma disable_enable_keeps_compressor_witness :
  disable_MCCP2 after_hello = (Ret tt, snd (disable_MCCP2 after_hello)) /\
  enable_MCCP2 (snd (disable_MCCP2 after_hello))
  = (Ret tt, snd (enable_MCCP2 (snd (disable_MCCP2 after_hello)))) /\
  ZLIB_COMPRESS (g (snd (enable_MCCP2 (snd (disable_MCCP2 after_hello)))))
  = ZLIB_COMPRESS (g after_hello) /\
  exists st4,
    sendText counting_zlib (VBytes (b "x"))
      (snd (enable_MCCP2 (snd (disable_MCCP2 after_hello)))) = (Ret tt, st4) /\
    written (trace (self st4))
    = written (trace (self (snd (enable_MCCP2 (snd (disable_MCCP2 after_hello))))))
      ++ [VBytes (deflate counting_zlib (ZLIB_COMPRESS (g after_hello)) (z_compress (b "x"))
                  ++ deflate counting_zlib
                       (ZLIB_COMPRESS (g after_hello) ++ [z_compress (b "x")])
                       (z_flush ZLIB_FLUSH))] /\
    ZLIB_COMPRESS (g st4)
    = ZLIB_COMPRESS (g after_hello) ++ [z_compress (b "x"); z_flush ZLIB_FLUSH].
Proof.
  do 2 (split; [vm_compute; reflexivity|]).
  apply (disable_enable_keeps_compressor counting_zlib after_hello
           (snd (disable_MCCP2 after_hello))
           (snd (enable_MCCP2 (snd (disable_MCCP2 after_hello)))) (b "x"));
    vm_compute; reflexivity.
Defined.

(** Switching compression off writes the constant [ZLIB_FLUSH] and makes no
    call on the compressor; after switching it on again the compressor still
    holds what was compressed before, and so compresses [x] differently from
    a new compressor. *)
Lemma end_MCCP2_neither_flushes_nor_renews :
  let st2 := snd (disable_MCCP2 after_hello) in
  let st3 := snd (enable_MCCP2 st2) in
  let renewed := {| g := module_init; self := self st3 |} in
  written (trace (self st2)) = written (trace (self after_hello)) ++ [VInt 2] /\
  ZLIB_COMPRESS (g st2) = ZLIB_COMPRESS (g after_hello) /\
  ZLIB_COMPRESS (g st3) = [z_compress (b "hello"); z_flush 2] /\
  ZLIB_COMPRESS (g renewed) = [] /\
  bool_decide (written (trace (self (snd (sendText counting_zlib (VBytes (b "x")) st3))))
               = written (trace (self (snd (sendText counting_zlib (VBytes (b "x")) renewed)))))
  = false.
Proof. vm_compute. repeat split. Qed.

(** ** Sessions of one process *)

Lemma on_frame {A} (i j : nat) (m : M A) w r w' :
  i <> j -> on i m w = Some (r, w') -> sessions w' !! j = sessions w !! j.
Proof.
  intros Hij. unfold on. destruct (sessions w !! i) as [s|]; [|discriminate].
  destruct (m _) as [r' st']. intros [= <- <-]. cbn. now rewrite lookup_insert_ne.
Qed.

Lemma on_sendText zl i d w s :
  sessions w !! i = Some s ->
  protocol_flags s !! u "MCCP2" = Some (VBool true) ->
  on i (sendText zl (VBytes d)) w
  = Some (Ret tt,
          {| wg := {| ZLIB_COMPRESS :=
                        ZLIB_COMPRESS (wg w) ++ [z_compress d; z_flush ZLIB_FLUSH];
                      ZLIB_DECOMPRESS := ZLIB_DECOMPRESS (wg w) |};
             sessions :=
               <[i := set_trace
                        (trace s ++
                         [tn_write (VBytes (deflate zl (ZLIB_COMPRESS (wg w)) (z_compress d)
                                            ++ deflate zl (ZLIB_COMPRESS (wg w) ++ [z_compress d])
                                                 (z_flush ZLIB_FLUSH)))]) s]>
                 (sessions w) |}).
Proof.
  intros Hs Hf. unfold on. rewrite Hs.
  rewrite (sendText_on zl d {| g := wg w; self := s |} Hf). reflexivity.
Qed.

Lemma dataReceived_on zl d st out fl :
  protocol_flags (self st) !! u "MCCP3" = Some (VBool true) ->
  inflate zl (ZLIB_DECOMPRESS (g st)) (z_decompress d) = Some out ->
  inflate zl (ZLIB_DECOMPRESS (g st) ++ [z_decompress d]) (z_flush ZLIB_FLUSH) = Some fl ->
  dataReceived zl d st
  = (Ret tt,
     with_calls [tn_dataReceived (out ++ fl)]
       {| g := {| ZLIB_COMPRESS := ZLIB_COMPRESS (g st);
                  ZLIB_DECOMPRESS :=
                    ZLIB_DECOMPRESS (g st) ++ [z_decompress d; z_flush ZLIB_FLUSH] |};
          self := self st |}).
Proof.
  intros Hf Ho Hfl. unfold dataReceived, get_flag, bind, get_self. cbn [fst snd].
  rewrite Hf. cbn [or_raise ret truthy]. unfold decompressor_call at 1.
  rewrite Ho. unfold decompressor_call.
  cbn [g self ZLIB_COMPRESS ZLIB_DECOMPRESS]. rewrite Hfl.
  unfold with_calls. cbn. now rewrite <- app_assoc.
Qed.

(** C8, as the code has it: the flags, step counter, line buffer, command
    queue and trace of a session are its own: a method called on another
    session leaves them as they are.  The compressor and the decompressor
    are the two objects of the module, shared by all sessions: every text a
    compressing session sends is compressed from the state in which the
    sessions before it, whichever they were, left the one compressor, and
    advances that state for all. *)
Theorem sessions_share_compressor zl (i j : nat) w si sj di dj :
  i <> j ->
  sessions w !! i = Some si ->
  sessions w !! j = Some sj ->
  protocol_flags si !! u "MCCP2" = Some (VBool true) ->
  protocol_flags sj !! u "MCCP2" = Some (VBool true) ->
  (forall A (m : M A) r w', on i m w = Some (r, w') -> sessions w' !! j = Some sj) /\
  (forall d out fl,
     protocol_flags si !! u "MCCP3" = Some (VBool true) ->
     inflate zl (ZLIB_DECOMPRESS (wg w)) (z_decompress d) = Some out ->
     inflate zl (ZLIB_DECOMPRESS (wg w) ++ [z_decompress d]) (z_flush ZLIB_FLUSH) = Some fl ->
     exists w',
       on i (dataReceived zl d) w = Some (Ret tt, w') /\
       ZLIB_DECOMPRESS (wg w')
       = ZLIB_DECOMPRESS (wg w) ++ [z_decompress d; z_flush ZLIB_FLUSH] /\
       sessions w' !! i = Some (set_trace (trace si ++ [tn_dataReceived (out ++ fl)]) si)) /\
  exists w1 w2 sj',
    on i (sendText zl (VBytes di)) w = Some (Ret tt, w1) /\
    on j (sendText zl (VBytes dj)) w1 = Some (Ret tt, w2) /\
    ZLIB_COMPRESS (wg w1) = ZLIB_COMPRESS (wg w) ++ [z_compress di; z_flush ZLIB_FLUSH] /\
    sessions w2 !! j = Some sj' /\
    written (trace sj')
    = written (trace sj)
      ++ [VBytes (deflate zl (ZLIB_COMPRESS (wg w) ++ [z_compress di; z_flush ZLIB_FLUSH])
                    (z_compress dj)
                  ++ deflate zl (ZLIB_COMPRESS (wg w)
                                 ++ [z_compress di; z_flush ZLIB_FLUSH; z_compress dj])
                       (z_flush ZLIB_FLUSH))].
Proof.
  intros Hij Hi Hj Hfi Hfj. split.
  - intros A m r w' H. rewrite (on_frame i j m w r w' Hij H). exact Hj.
  - split.
    { intros d out fl Hf Ho Hfl. eexists. unfold on. rewrite Hi.
      rewrite (dataReceived_on zl d {| g := wg w; self := si |} out fl Hf Ho Hfl).
      split; [reflexivity|]. split; [reflexivity|]. cbn. apply lookup_insert_eq. }
    eexists _, _, _. split; [apply (on_sendText zl i di w si Hi Hfi)|].
    split; [apply on_sendText; [cbn; rewrite lookup_insert_ne by exact Hij; exact Hj|exact Hfj]|].
    split; [reflexivity|]. split; [cbn; apply lookup_insert_eq|].
    cbn. unfold written. rewrite omap_app, <- !app_assoc. reflexivity.
Qed.

Lemma sessions_share_compressor_witness :
  (1 <> 2)%nat /\
  sessions two_sessions !! 1%nat = Some compressing /\
  sessions two_sessions !! 2%nat = Some compressing /\
  protocol_flags compressing !! u "MCCP2" = Some (VBool true) /\
  (forall A (m : M A) r w',
     on 1 m two_sessions = Some (r, w') -> sessions w' !! 2%nat = Some compressing) /\
  (forall d out fl,
     protocol_flags compressing !! u "MCCP3" = Some (VBool true) ->
     inflate counting_zlib (ZLIB_DECOMPRESS (wg two_sessions)) (z_decompress d) = Some out ->
     inflate counting_zlib (ZLIB_DECOMPRESS (wg two_sessions) ++ [z_decompress d])
       (z_flush ZLIB_FLUSH) = Some fl ->
     exists w',
       on 1 (dataReceived counting_zlib d) two_sessions = Some (Ret tt, w') /\
       ZLIB_DECOMPRESS (wg w')
       = ZLIB_DECOMPRESS (wg two_sessions) ++ [z_decompress d; z_flush ZLIB_FLUSH] /\
       sessions w' !! 1%nat
       = Some (set_trace (trace compressing ++ [tn_dataReceived (out ++ fl)]) compressing)) /\
  exists w1 w2 sj',
    on 1 (sendText counting_zlib (VBytes (b "secret"))) two_sessions = Some (Ret tt, w1) /\
    on 2 (sendText counting_zlib (VBytes (b "hi"))) w1 = Some (Ret tt, w2) /\
    ZLIB_COMPRESS (wg w1)
    = ZLIB_COMPRESS (wg two_sessions) ++ [z_compress (b "secret"); z_flush ZLIB_FLUSH] /\
    sessions w2 !! 2%nat = Some sj' /\
    written (trace sj')
    = written (trace compressing)
      ++ [VBytes (deflate counting_zlib
                    (ZLIB_COMPRESS (wg two_sessions)
                     ++ [z_compress (b "secret"); z_flush ZLIB_FLUSH])
                    (z_compress (b "hi"))
                  ++ deflate counting_zlib
                       (ZLIB_COMPRESS (wg two_sessions)
                        ++ [z_compress (b "secret"); z_flush ZLIB_FLUSH; z_compress (b "hi")])
                       (z_flush ZLIB_FLUSH))].
Proof.
  split; [discriminate|]. do 3 (split; [vm_compute; reflexivity|]).
  apply (sessions_share_compressor counting_zlib 1 2 two_sessions compressing compressing
           (b "secret") (b "hi"));
    solve [discriminate | vm_compute; reflexivity].
Defined.

(** Two sessions of one process: what session 2 writes for [hi] depends on
    whether session 1 has sent something before, and the compressor session
    2 uses then holds the text of session 1. *)
Lemma other_session_changes_output :
  let alone := on 2 (sendText counting_zlib (VBytes (b "hi"))) two_sessions in
  let w1 := snd (default (Ret tt, two_sessions)
                   (on 1 (sendText counting_zlib (VBytes (b "secret"))) two_sessions)) in
  let after := on 2 (sendText counting_zlib (VBytes (b "hi"))) w1 in
  (written <$> (trace <$> (alone ≫= fun rw => sessions (snd rw) !! 2%nat))
   = Some [VBytes (x00 :: b "hi" ++ [x01])]) /\
  (written <$> (trace <$> (after ≫= fun rw => sessions (snd rw) !! 2%nat))
   = Some [VBytes (x02 :: b "hi" ++ [x03])]) /\
  ZLIB_COMPRESS (wg w1) = [z_compress (b "secret"); z_flush 2] /\
  sessions w1 !! 2%nat = sessions two_sessions !! 2%nat.
Proof. vm_compute. repeat split. Qed.

(** * Further properties of the methods *)

(** ** Line splitting: how the input is cut into chunks *)

Lemma startswith_app_short {A} `{EqDecision A} (s p t : list A) :
  (length p <= length s)%nat -> startswith (s ++ t) p = startswith s p.
Proof.
  revert s. induction p as [|x p IH]; intros [|y s] L; simpl in *; try lia; auto.
  rewrite IH by lia. reflexivity.
Qed.

Lemma split_once_app_r {A} `{EqDecision A} (s sep t l r : list A) :
  split_once s sep = Some (l, r) -> split_once (s ++ t) sep = Some (l, r ++ t).
Proof.
  revert l r. induction s as [|x s IH]; intros l r E.
  - cbn [split_once] in E. destruct (startswith [] sep) eqn:Hs; [|discriminate].
    injection E as <- <-. destruct sep; [|discriminate]. simpl.
    destruct t; reflexivity.
  - pose proof (split_once_shorter _ _ _ _ E) as Hlen.
    cbn [split_once] in E.
    change ((x :: s) ++ t) with (x :: (s ++ t)). cbn [split_once].
    change (x :: (s ++ t)) with ((x :: s) ++ t).
    rewrite startswith_app_short by lia.
    destruct (startswith (x :: s) sep) eqn:Hs.
    + injection E as <- <-.
      pose proof (startswith_length _ _ Hs) as Hl.
      f_equal. f_equal.
      rewrite drop_app_le by exact Hl. reflexivity.
    + destruct (split_once s sep) as [[l' r']|] eqn:E'; [|discriminate].
      injection E as <- <-. rewrite (IH _ _ eq_refl). reflexivity.
Qed.

(** One step of [processTextCommands], when a call is allowed. *)
Lemma processTextCommands_step frames st :
  processTextCommands (S frames) st
  = match split_once (game_data_buffer (self st)) delimiter with
    | Some (cmd, remaining) =>
        let st2 := {| g := g st;
                      self := set_game_data_buffer remaining
                                (set_inputfuncs_buffer
                                   (inputfuncs_buffer (self st) ++ [text_command cmd])
                                   (self st)) |} in
        match remaining with
        | [] => (Ret tt, st2)
        | _ :: _ => processTextCommands frames st2
        end
    | None => (Ret tt, st)
    end.
Proof.
  cbn [processTextCommands]. unfold bind at 1. cbn [get_self].
  destruct (split_once (game_data_buffer (self st)) delimiter) as [[cmd rem]|];
    [|reflexivity].
  destruct rem; reflexivity.
Qed.

(** A call that returns with room for [frames] calls returns the same with
    room for more. *)
Lemma processTextCommands_more frames st st' :
  processTextCommands frames st = (Ret tt, st') ->
  processTextCommands (S frames) st = (Ret tt, st').
Proof.
  revert st. induction frames as [|f IH]; intros st E; [discriminate|].
  rewrite processTextCommands_step in E. rewrite processTextCommands_step.
  destruct (split_once (game_data_buffer (self st)) delimiter) as [[cmd rem]|];
    [|exact E].
  cbn zeta in *. destruct rem; [exact E|]. apply IH, E.
Qed.

(** A call that returns leaves no delimiter in the buffer. *)
Lemma processTextCommands_returns frames st st' :
  processTextCommands frames st = (Ret tt, st') ->
  split_once (game_data_buffer (self st')) delimiter = None.
Proof.
  revert st. induction frames as [|f IH]; intros st E; [discriminate|].
  rewrite processTextCommands_step in E.
  destruct (split_once (game_data_buffer (self st)) delimiter) as [[cmd rem]|] eqn:Es.
  - cbn zeta in E. destruct rem; [injection E as <-; reflexivity|]. eapply IH, E.
  - injection E as <-. exact Es.
Qed.

(** Splitting what the buffer holds, and then again once more data has
    arrived, comes to the same as splitting once after the data arrived,
    whenever that returns. *)
Lemma processTextCommands_buffered frames data st st' :
  processTextCommands frames (buffered data st) = (Ret tt, st') ->
  exists s1,
    processTextCommands frames st = (Ret tt, s1) /\
    processTextCommands frames (buffered data s1) = (Ret tt, st').
Proof.
  revert st. induction frames as [|f IH]; intros st E; [discriminate|].
  rewrite processTextCommands_step in E. rewrite processTextCommands_step.
  cbn [buffered self game_data_buffer set_game_data_buffer] in E.
  destruct (split_once (game_data_buffer (self st)) delimiter) as [[cmd rem]|] eqn:Es.
  - rewrite (split_once_app_r _ _ data _ _ Es) in E. cbn zeta in *.
    destruct rem as [|x rem].
    + eexists. split; [reflexivity|]. cbn [app] in E.
      rewrite processTextCommands_step.
      cbn [buffered self game_data_buffer set_game_data_buffer app].
      destruct data as [|y data].
      * injection E as <-. reflexivity.
      * destruct (split_once (y :: data) delimiter) as [[cmd2 rem2]|] eqn:Ed.
        -- apply processTextCommands_more in E.
           rewrite processTextCommands_step in E.
           cbn [self game_data_buffer set_game_data_buffer] in E.
           rewrite Ed in E. exact E.
        -- apply processTextCommands_more in E.
           rewrite processTextCommands_step in E.
           cbn [self game_data_buffer set_game_data_buffer] in E.
           rewrite Ed in E. injection E as <-. reflexivity.
    + cbn [app] in E.
      destruct (IH {| g := g st;
                      self := set_game_data_buffer (x :: rem)
                                (set_inputfuncs_buffer
                                   (inputfuncs_buffer (self st) ++ [text_command cmd])
                                   (self st)) |} E) as (s1 & E1 & E2).
      exists s1. split; [exact E1|].
      apply processTextCommands_more, E2.
  - exists st. split; [reflexivity|]. rewrite processTextCommands_step.
    cbn [buffered self game_data_buffer set_game_data_buffer]. exact E.
Qed.

(** X1: the way the input is cut into chunks does not matter, as long as the
    recursion limit leaves room: when one delivery of some bytes returns,
    delivering the same bytes cut into chunks returns too and leaves the
    session (queue, line buffer and all) in the same state, whatever the line
    buffer held before.  (The converse fails: a delivery of many lines can
    raise RecursionError where its chunks, delivered one by one, are all
    split.) *)
Theorem feed_concat frames c chunks st st' :
  applicationDataReceived frames (concat (c :: chunks)) st = (Ret tt, st') ->
  feed frames (c :: chunks) st = (Ret tt, st').
Proof.
  revert c st. induction chunks as [|c2 chunks IH]; intros c st E.
  - unfold feed. cbn [for_each concat] in *. rewrite app_nil_r in E.
    unfold bind. rewrite E. reflexivity.
  - change (concat (c :: c2 :: chunks)) with (c ++ concat (c2 :: chunks)) in E.
    rewrite applicationDataReceived_run in E.
    assert (Eb : buffered (c ++ concat (c2 :: chunks)) st
                 = buffered (concat (c2 :: chunks)) (buffered c st)).
    { unfold buffered. cbn. now rewrite app_assoc. }
    rewrite Eb in E. apply processTextCommands_buffered in E as (s1 & E1 & E2).
    rewrite <- applicationDataReceived_run in E1, E2.
    unfold feed. cbn [for_each]. rewrite (bind_run _ _ _ _ _ E1).
    apply IH, E2.
Qed.

Lemma feed_concat_witness :
  let chunks := [b "look" ++ [x0d]; [x0a] ++ b "north" ++ delimiter ++ b "sa"] in
  let st' := with_lines [ {| if_kind := u "text"; if_args := [b "look"]; if_kwargs := [] |};
                          {| if_kind := u "text"; if_args := [b "north"]; if_kwargs := [] |} ]
               (b "sa") fresh in
  applicationDataReceived 3 (concat chunks) fresh = (Ret tt, st') /\
  feed 3 chunks fresh = (Ret tt, st').
Proof.
  split; [vm_compute; reflexivity|].
  apply (feed_concat 3 (b "look" ++ [x0d]) [[x0a] ++ b "north" ++ delimiter ++ b "sa"] fresh).
  vm_compute. reflexivity.
Defined.

(** The converse of X1 fails: three lines in one chunk overflow two calls,
    and the same lines in chunks of one line do not. *)
Example feed_chunks_only :
  let chunks := [b "a" ++ delimiter; b "b" ++ delimiter; b "c" ++ delimiter] in
  fst (feed 2 chunks fresh) = Ret tt /\
  fst (applicationDataReceived 2 (concat chunks) fresh) = Raise RecursionError.
Proof. vm_compute. split; reflexivity. Qed.

(** X2: [processTextCommands] is idempotent where it returns: a call that
    returns leaves no delimiter in the line buffer, so a further call, made
    with room for at least one call, changes nothing. *)
Theorem processTextCommands_idempotent frames frames' st st' :
  processTextCommands frames st = (Ret tt, st') ->
  processTextCommands (S frames') st' = (Ret tt, st').
Proof.
  intros E. apply processTextCommands_returns in E.
  rewrite processTextCommands_step, E. reflexivity.
Qed.

Lemma processTextCommands_idempotent_witness :
  let st := buffered (b "look" ++ delimiter ++ b "north" ++ delimiter ++ b "sa") fresh in
  let st' := with_lines [ {| if_kind := u "text"; if_args := [b "look"]; if_kwargs := [] |};
                          {| if_kind := u "text"; if_args := [b "north"]; if_kwargs := [] |} ]
               (b "sa") fresh in
  processTextCommands 3 st = (Ret tt, st') /\
  processTextCommands 1 st' = (Ret tt, st').
Proof.
  split; [vm_compute; reflexivity|].
  apply (processTextCommands_idempotent 3 0
           (buffered (b "look" ++ delimiter ++ b "north" ++ delimiter ++ b "sa") fresh)).
  vm_compute. reflexivity.
Defined.

(** ** Terminal type: the three rounds, one by one *)

Lemma option_run data st :
  try_except
    (joined <- join data ;;
     o <- or_raise (decode (lstrip_chars IS joined)) UnicodeDecodeError ;;
     ret (Some o))
    TypeError (ret None) st
  = match joined data with
    | None => (Ret None, st)
    | Some x =>
        match decode (lstrip_chars IS x) with
        | Some t => (Ret (Some t), st)
        | None => (Raise UnicodeDecodeError, st)
        end
    end.
Proof.
  unfold try_except, bind at 1. rewrite join_run.
  destruct (joined data) as [x|]; [|reflexivity].
  unfold bind. destruct (decode (lstrip_chars IS x)); reflexivity.
Qed.

Lemma split_once_startswith {A} `{EqDecision A} (s p : list A) :
  startswith s p = true -> split_once s p = Some ([], drop (length p) s).
Proof. intros E. destruct s; cbn [split_once]; now rewrite E. Qed.

Lemma ttype_step1_run U t st :
  ttype_step1 U (Some t) st
  = (Ret tt,
     with_calls [tn_requestNegotiation TTYPE SEND]
       (with_flags (client_flags U (upper U t) (protocol_flags (self st))) st)).
Proof.
  unfold ttype_step1, client_flags, client_xterm256.
  unfold bind at 1. unfold try_except, local, or_raise. rewrite bind_ret_l. cbn [ret].
  generalize (upper U t). intros name. unfold bind at 1.
  destruct (startswith name (u "MUDLET")) eqn:Em.
  - rewrite (split_once_startswith _ _ Em). cbn [or_raise]. rewrite bind_ret_l.
    cbn [snd]. change (length (u "MUDLET")) with 6%nat.
    generalize (str_ge (strip U (drop 6 name)) (u "1.1")). intros x.
    generalize (startswith name (u "XTERM")), (endswith name (u "-256COLOR")),
      (bool_decide (name ∈ xterm256_clients)). intros y1 y2 y3.
    destruct (startswith name (u "TINTIN++")), x, y1, y2, y3; reflexivity.
  - generalize (startswith name (u "XTERM")), (endswith name (u "-256COLOR")),
      (bool_decide (name ∈ xterm256_clients)). intros y1 y2 y3.
    destruct (startswith name (u "TINTIN++")), y1, y2, y3; reflexivity.
Qed.

(** A string that ends with XTERM does not end with -COLOR: the second test
    of step 2 never decides. *)
Lemma endswith_XTERM_not_COLOR (s : str) :
  endswith s (u "XTERM") = true -> endswith s (u "-COLOR") = false.
Proof.
  unfold endswith. generalize (rev s). intros [|c r]; [discriminate|].
  let v := eval vm_compute in (rev (u "XTERM")) in change (rev (u "XTERM")) with v.
  let v := eval vm_compute in (rev (u "-COLOR")) in change (rev (u "-COLOR")) with v.
  cbn [startswith]. intros H. apply andb_prop in H as [H _].
  apply bool_decide_eq_true_1 in H. subst c. reflexivity.
Qed.

Lemma ttype_step2_run U t st :
  ttype_step2 U (Some t) st
  = (Ret tt,
     with_calls [tn_requestNegotiation TTYPE SEND]
       (with_flags
          (<[u "TERM" := VStr t]>
             (if term_xterm256 U t
              then <[u "XTERM256" := VBool true]>
                     (<[u "ANSI" := VBool true]> (protocol_flags (self st)))
              else protocol_flags (self st))) st)).
Proof.
  unfold ttype_step2, term_xterm256, local, or_raise. rewrite bind_ret_l. cbn zeta.
  generalize (upper U t). intros tu.
  destruct (endswith tu (u "-256COLOR")) eqn:E1.
  - reflexivity.
  - destruct (endswith tu (u "XTERM")) eqn:E2.
    + rewrite (endswith_XTERM_not_COLOR _ E2). reflexivity.
    + reflexivity.
Qed.

Lemma ttype_step3_run U t st :
  ttype_step3 U (Some t) st
  = if startswith t (u "MTTS") then
      let tok := strip U (drop 4 t) in
      if isdigit U tok then
        match int U tok with
        | Some n =>
            (Ret tt,
             with_calls [handshake_done]
               (with_flags
                  (<[u "TTYPE" := VBool true]>
                     (insert_all (map (fun bc => (snd bc, VBool true))
                                    (filter (fun bc => Z.land n (fst bc) > 0) MTTS))
                        (protocol_flags (self st)))) st))
        | None => (Raise ValueError, st)
        end
      else (Ret tt,
            with_calls [handshake_done]
              (with_flags (<[u "TTYPE" := VBool true]>
                             (<[upper U tok := VBool true]> (protocol_flags (self st)))) st))
    else (Ret tt,
          with_calls [handshake_done]
            (with_flags (<[u "TTYPE" := VBool true]> (protocol_flags (self st))) st)).
Proof.
  unfold ttype_step3, local, or_raise. rewrite bind_ret_l.
  destruct (startswith t (u "MTTS")).
  - cbn zeta. destruct (isdigit U (strip U (drop 4 t))).
    + unfold bind at 1. unfold bind at 1.
      destruct (int U (strip U (drop 4 t))) as [n|]; [|reflexivity].
      cbn [ret]. rewrite update_run. reflexivity.
    + reflexivity.
  - destruct st as [gl []]. reflexivity.
Qed.

Lemma negotiate_TTYPE_open U data st :
  ttype_closed (self st) = false ->
  negotiate_TTYPE U data st
  = match joined data with
    | None => ttype_round U None st
    | Some x =>
        match decode (lstrip_chars IS x) with
        | Some t => ttype_round U (Some t) st
        | None => (Raise UnicodeDecodeError, st)
        end
    end.
Proof.
  intros Hc. unfold negotiate_TTYPE. unfold bind at 1. cbn [get_self].
  unfold ttype_closed, ttype_done in Hc. rewrite Hc.
  unfold bind at 1. rewrite option_run.
  destruct (joined data) as [x|]; [|reflexivity].
  destruct (decode (lstrip_chars IS x)); reflexivity.
Qed.

Lemma ttype_round_None U st :
  ttype_round U None st
  = if bool_decide (1 <= ttype_step (self st) <= 3)
    then (Raise UnboundLocalError, st)
    else (Ret tt, {| g := g st;
                     self := set_ttype_step (ttype_step (self st) + 1) (self st) |}).
Proof.
  unfold ttype_round. unfold bind at 1. cbn [get_self].
  destruct (ttype_step (self st) =? 1) eqn:E1.
  { apply Z.eqb_eq in E1. rewrite bool_decide_eq_true_2 by lia. reflexivity. }
  destruct (ttype_step (self st) =? 2) eqn:E2.
  { apply Z.eqb_eq in E2. rewrite bool_decide_eq_true_2 by lia. reflexivity. }
  destruct (ttype_step (self st) =? 3) eqn:E3.
  { apply Z.eqb_eq in E3. rewrite bool_decide_eq_true_2 by lia. reflexivity. }
  apply Z.eqb_neq in E1, E2, E3. rewrite bool_decide_eq_false_2 by lia.
  destruct st as [gl []]. reflexivity.
Qed.

Lemma ttype_round_text U t st :
  ttype_round U (Some t) st
  = ((if ttype_step (self st) =? 1 then ttype_step1 U (Some t)
      else if ttype_step (self st) =? 2 then ttype_step2 U (Some t)
      else if ttype_step (self st) =? 3 then ttype_step3 U (Some t)
      else ret tt) ;;
     modify_self (fun s => set_ttype_step (ttype_step s + 1) s)) st.
Proof. reflexivity. Qed.

(** X3: [negotiate_TTYPE] is all or nothing, and only three exceptions
    leave it: when it raises, the state is exactly as before the call, and
    the exception is UnicodeDecodeError (the payload joins but is no UTF-8
    text), UnboundLocalError (the payload does not join) or, at step 3 only,
    ValueError.  TypeError, AttributeError, IndexError and KeyError never
    leave the handler. *)
Theorem negotiate_TTYPE_raises U data st e st' :
  negotiate_TTYPE U data st = (Raise e, st') ->
  st' = st /\
  (e = UnicodeDecodeError /\ (exists x, joined data = Some x /\ decode (lstrip_chars IS x) = None)
   \/ e = UnboundLocalError /\ joined data = None
   \/ e = ValueError /\ ttype_step (self st) = 3).
Proof.
  destruct (ttype_closed (self st)) eqn:Hc.
  { rewrite negotiate_TTYPE_closed by exact Hc. discriminate. }
  rewrite (negotiate_TTYPE_open U data st Hc).
  destruct (joined data) as [x|].
  - destruct (decode (lstrip_chars IS x)) as [t|] eqn:Ed.
    + unfold ttype_round. unfold bind at 1. cbn [get_self]. unfold bind at 1.
      destruct (ttype_step (self st) =? 1).
      { rewrite ttype_step1_run. discriminate. }
      destruct (ttype_step (self st) =? 2).
      { rewrite ttype_step2_run. discriminate. }
      destruct (ttype_step (self st) =? 3) eqn:E3; [|discriminate].
      apply Z.eqb_eq in E3. rewrite ttype_step3_run.
      destruct (startswith t (u "MTTS")); [|discriminate].
      cbn zeta. destruct (isdigit U (strip U (drop 4 t))); [|discriminate].
      destruct (int U (strip U (drop 4 t))); [discriminate|].
      intros [= <- <-]. auto.
    + intros [= <- <-]. split; [reflexivity|]. left. eauto.
  - rewrite ttype_round_None. destruct (bool_decide _); [|discriminate].
    intros [= <- <-]. auto.
Qed.

Lemma negotiate_TTYPE_raises_witness :
  negotiate_TTYPE ascii_only [VBytes [x80]] fresh = (Raise UnicodeDecodeError, fresh) /\
  fresh = fresh /\
  (UnicodeDecodeError = UnicodeDecodeError /\
   (exists x, joined [VBytes [x80]] = Some x /\ decode (lstrip_chars IS x) = None)
   \/ UnicodeDecodeError = UnboundLocalError /\ joined [VBytes [x80]] = None
   \/ UnicodeDecodeError = ValueError /\ ttype_step (self fresh) = 3).
Proof.
  split; [vm_compute; reflexivity|].
  apply (negotiate_TTYPE_raises ascii_only [VBytes [x80]] fresh UnicodeDecodeError fresh).
  vm_compute; reflexivity.
Defined.


Lemma negotiate_TTYPE_step2 U payload t st :
  ttype_step (self st) = 2 ->
  ttype_done (self st) = false ->
  decode (lstrip_chars IS payload) = Some t ->
  negotiate_TTYPE U (items payload) st
  = (Ret tt,
     ttype_advanced
       (<[u "TERM" := VStr t]>
          (if term_xterm256 U t
           then <[u "XTERM256" := VBool true]>
                  (<[u "ANSI" := VBool true]> (protocol_flags (self st)))
           else protocol_flags (self st)))
       (tn_requestNegotiation TTYPE SEND) st).
Proof.
  intros Hs Hd Ht.
  rewrite (negotiate_TTYPE_text U payload t st);
    [|apply ttype_closed_false; split; [auto|lia]|auto].
  rewrite Hs. cbn [Z.eqb Pos.eqb].
  rewrite (bind_run _ _ _ _ _ (ttype_step2_run U t st)). reflexivity.
Qed.



(** X5: step 2, on a payload of text: the handler returns; TERM is the text
    as sent (not upper-cased); XTERM256 and ANSI are set to true when the
    text in upper case ends with -256COLOR or with XTERM (the further test
    for -COLOR never decides) and are otherwise kept, so step 2 never
    clears them; no other flag changes; the next terminal type is requested
    and the counter goes to 3. *)
Theorem negotiate_TTYPE_term U st payload t :
  ttype_step (self st) = 2 ->
  ttype_done (self st) = false ->
  decode (lstrip_chars IS payload) = Some t ->
  let flags := protocol_flags (self st) in
  let colours :=
    endswith (upper U t) (u "-256COLOR") || endswith (upper U t) (u "XTERM") in
  exists st',
    negotiate_TTYPE U (items payload) st = (Ret tt, st') /\
    protocol_flags (self st') !! u "TERM" = Some (VStr t) /\
    protocol_flags (self st') !! u "XTERM256"
    = (if colours then Some (VBool true) else flags !! u "XTERM256") /\
    protocol_flags (self st') !! u "ANSI"
    = (if colours then Some (VBool true) else flags !! u "ANSI") /\
    (forall k, k ∉ [u "TERM"; u "XTERM256"; u "ANSI"] ->
       protocol_flags (self st') !! k = flags !! k) /\
    ttype_step (self st') = 3 /\
    trace (self st') = trace (self st) ++ [tn_requestNegotiation TTYPE SEND] /\
    g st' = g st.
Proof.
  intros Hs Hd Ht flags colours. eexists. split; [apply negotiate_TTYPE_step2; eauto|].
  fold flags. change (term_xterm256 U t) with colours.
  cbn [ttype_advanced self protocol_flags set_ttype_step set_trace set_flags ttype_step trace g].
  split; [apply lookup_insert_eq|].
  split.
  { rewrite lookup_insert_ne by flag_ne. destruct colours; [apply lookup_insert_eq|reflexivity]. }
  split.
  { rewrite lookup_insert_ne by flag_ne. destruct colours; [|reflexivity].
    rewrite lookup_insert_ne by flag_ne. apply lookup_insert_eq. }
  split.
  { intros k Hk.
    assert (k <> u "TERM" /\ k <> u "XTERM256" /\ k <> u "ANSI") as (H1 & H2 & H3).
    { repeat split; intros ->; apply Hk; set_solver. }
    rewrite lookup_insert_ne by congruence.
    destruct colours; rewrite ?lookup_insert_ne by congruence; reflexivity. }
  rewrite Hs. auto.
Qed.

Lemma negotiate_TTYPE_term_witness :
  ttype_step (self at_step2) = 2 /\
  ttype_done (self at_step2) = false /\
  decode (lstrip_chars IS (x00 :: b "xterm")) = Some (u "xterm") /\
  endswith (upper ascii_only (u "xterm")) (u "XTERM") = true /\
  let flags := protocol_flags (self at_step2) in
  let colours :=
    endswith (upper ascii_only (u "xterm")) (u "-256COLOR")
    || endswith (upper ascii_only (u "xterm")) (u "XTERM") in
  exists st',
    negotiate_TTYPE ascii_only (items (x00 :: b "xterm")) at_step2 = (Ret tt, st') /\
    protocol_flags (self st') !! u "TERM" = Some (VStr (u "xterm")) /\
    protocol_flags (self st') !! u "XTERM256"
    = (if colours then Some (VBool true) else flags !! u "XTERM256") /\
    protocol_flags (self st') !! u "ANSI"
    = (if colours then Some (VBool true) else flags !! u "ANSI") /\
    (forall k, k ∉ [u "TERM"; u "XTERM256"; u "ANSI"] ->
       protocol_flags (self st') !! k = flags !! k) /\
    ttype_step (self st') = 3 /\
    trace (self st') = trace (self at_step2) ++ [tn_requestNegotiation TTYPE SEND] /\
    g st' = g at_step2.
Proof.
  do 4 (split; [vm_compute; reflexivity|]).
  refine (negotiate_TTYPE_term ascii_only at_step2 (x00 :: b "xterm") (u "xterm") _ _ _);
    vm_compute; reflexivity.
Defined.

Lemma filter_ext_Forall {A} (P1 P2 : A -> Prop) `{!forall x, Decision (P1 x)}
    `{!forall x, Decision (P2 x)} (l : list A) :
  Forall (fun x => P1 x <-> P2 x) l -> filter P1 l = filter P2 l.
Proof.
  induction 1 as [|x l Hx _ IH]; [reflexivity|].
  rewrite !filter_cons, IH. destruct (decide (P1 x)), (decide (P2 x)); tauto.
Qed.

Lemma mtts_filter_low_octet (n : Z) :
  filter (fun bc : Z * str => Z.land n (fst bc) > 0) MTTS
  = filter (fun bc : Z * str => Z.land (n mod 256) (fst bc) > 0) MTTS.
Proof.
  apply filter_ext_Forall.
  assert (H : forall bit, Z.land 255 bit = bit -> Z.land (n mod 256) bit = Z.land n bit).
  { intros bit Hb. change 256 with (2 ^ 8). rewrite <- Z.land_ones by lia.
    rewrite <- Z.land_assoc. change (Z.ones 8) with 255. now rewrite Hb. }
  unfold MTTS. repeat constructor; cbn [fst]; rewrite H by reflexivity; lia.
Qed.

(** X6: of the number a client sends after MTTS only the low octet counts:
    two numbers of at most 4300 digits (the longest the interpreter
    converts) that agree modulo 256 leave the session in the same state. *)
Theorem negotiate_TTYPE_mtts_low_octet U st p1 p2 t1 t2 :
  ttype_step (self st) = 3 ->
  ttype_done (self st) = false ->
  decode (lstrip_chars IS p1) = Some t1 -> startswith t1 (u "MTTS") = true ->
  decode (lstrip_chars IS p2) = Some t2 -> startswith t2 (u "MTTS") = true ->
  let tok1 := strip U (drop 4 t1) in
  let tok2 := strip U (drop 4 t2) in
  tok1 <> [] -> forallb ascii_isdigit tok1 = true -> Z.of_nat (length tok1) <= 4300 ->
  tok2 <> [] -> forallb ascii_isdigit tok2 = true -> Z.of_nat (length tok2) <= 4300 ->
  decimal tok1 mod 256 = decimal tok2 mod 256 ->
  negotiate_TTYPE U (items p1) st = negotiate_TTYPE U (items p2) st.
Proof.
  intros Hs Hd Hp1 Hm1 Hp2 Hm2 tok1 tok2 Hn1 Hd1 Hl1 Hn2 Hd2 Hl2 Hmod.
  rewrite (negotiate_TTYPE_step3 U p1 t1 st Hs Hd Hp1 Hm1).
  rewrite (negotiate_TTYPE_step3 U p2 t2 st Hs Hd Hp2 Hm2).
  cbn zeta. fold tok1 tok2.
  destruct (ascii_digits_isdigit U tok1 Hn1 Hd1 Hl1) as [-> ->].
  destruct (ascii_digits_isdigit U tok2 Hn2 Hd2 Hl2) as [-> ->].
  rewrite (mtts_filter_low_octet (decimal tok1)), (mtts_filter_low_octet (decimal tok2)).
  now rewrite Hmod.
Qed.

Lemma negotiate_TTYPE_mtts_low_octet_witness :
  ttype_step (self at_step3) = 3 /\
  ttype_done (self at_step3) = false /\
  decode (lstrip_chars IS (x00 :: b "MTTS 13")) = Some (u "MTTS 13") /\
  decode (lstrip_chars IS (x00 :: b "MTTS 269")) = Some (u "MTTS 269") /\
  decimal (strip ascii_only (drop 4 (u "MTTS 13"))) = 13 /\
  decimal (strip ascii_only (drop 4 (u "MTTS 269"))) = 269 /\
  length (strip ascii_only (drop 4 (u "MTTS 13"))) = 2%nat /\
  length (strip ascii_only (drop 4 (u "MTTS 269"))) = 3%nat /\
  negotiate_TTYPE ascii_only (items (x00 :: b "MTTS 13")) at_step3
  = negotiate_TTYPE ascii_only (items (x00 :: b "MTTS 269")) at_step3.
Proof.
  do 8 (split; [vm_compute; reflexivity|]).
  refine (negotiate_TTYPE_mtts_low_octet ascii_only at_step3
            (x00 :: b "MTTS 13") (x00 :: b "MTTS 269") (u "MTTS 13") (u "MTTS 269")
            _ _ _ _ _ _ _ _ _ _ _ _ _);
    solve [vm_compute; reflexivity | vm_compute; discriminate].
Defined.

Lemma negotiate_TTYPE_called U data st st' :
  ttype_done (self st) = false ->
  1 <= ttype_step (self st) <= 3 ->
  negotiate_TTYPE U data st = (Ret tt, st') ->
  trace (self st')
  = trace (self st)
    ++ [if ttype_step (self st) =? 3 then handshake_done
        else tn_requestNegotiation TTYPE SEND] /\
  ttype_step (self st') = ttype_step (self st) + 1 /\
  ttype_done (self st') = (ttype_step (self st) =? 3).
Proof.
  intros Hd Hs E.
  assert (Hc : ttype_closed (self st) = false)
    by (apply ttype_closed_false; split; [auto|lia]).
  pose proof (negotiate_TTYPE_effect U data st Hc) as He. rewrite E in He.
  destruct He as (_ & Hs' & He). split; [|split; [exact Hs'|]].
  2:{ destruct (ttype_step (self st) =? 3); destruct He; congruence. }
  clear He Hs'. rewrite (negotiate_TTYPE_open U data st Hc) in E.
  destruct (joined data) as [x|].
  - destruct (decode (lstrip_chars IS x)) as [t|]; [|discriminate].
    rewrite ttype_round_text in E. unfold bind at 1 in E.
    destruct (ttype_step (self st) =? 1) eqn:E1.
    { apply Z.eqb_eq in E1. rewrite E1. rewrite ttype_step1_run in E.
      injection E as <-. reflexivity. }
    destruct (ttype_step (self st) =? 2) eqn:E2.
    { apply Z.eqb_eq in E2. rewrite E2. rewrite ttype_step2_run in E.
      injection E as <-. reflexivity. }
    destruct (ttype_step (self st) =? 3) eqn:E3.
    2:{ apply Z.eqb_neq in E1, E2, E3. lia. }
    rewrite ttype_step3_run in E.
    destruct (startswith t (u "MTTS")).
    + cbn zeta in E. destruct (isdigit U (strip U (drop 4 t))).
      * destruct (int U (strip U (drop 4 t))); [|discriminate].
        injection E as <-. reflexivity.
      * injection E as <-. reflexivity.
    + injection E as <-. reflexivity.
  - rewrite ttype_round_None, bool_decide_eq_true_2 in E by lia. discriminate.
Qed.

(** X7: a handshake that [enable_TTYPE] opens and three payloads complete
    asks the client for its terminal type exactly three times (once on
    enabling, once after each of the first two answers: the octets IAC SB
    TTYPE SEND IAC SE each time) and then notifies the dispatcher once; the
    third answer is followed by no request. *)
Theorem handshake_requests U st d1 d2 d3 st' :
  ttype_step (self st) = 1 ->
  ttype_done (self st) = false ->
  (enable_TTYPE ;; negotiate_TTYPE U d1 ;; negotiate_TTYPE U d2 ;; negotiate_TTYPE U d3) st
  = (Ret tt, st') ->
  trace (self st')
  = trace (self st)
    ++ [tn_requestNegotiation TTYPE SEND; tn_requestNegotiation TTYPE SEND;
        tn_requestNegotiation TTYPE SEND; handshake_done] /\
  sent (trace (self st'))
  = sent (trace (self st))
    ++ [xff; xfa; x18; x01; xff; xf0; xff; xfa; x18; x01; xff; xf0;
        xff; xfa; x18; x01; xff; xf0].
Proof.
  intros Hs Hd E. unfold enable_TTYPE in E.
  rewrite (bind_run _ _ _ _ _ (emit_run _ st)) in E.
  unfold bind at 1 in E.
  destruct (negotiate_TTYPE U d1 _) as [[[]|e] s1] eqn:E1; [|discriminate].
  unfold bind at 1 in E.
  destruct (negotiate_TTYPE U d2 s1) as [[[]|e] s2] eqn:E2; [|discriminate].
  apply negotiate_TTYPE_called in E1 as (T1 & S1 & D1); [|exact Hd|cbn; lia].
  cbn [with_calls self ttype_step set_trace trace] in T1, S1, D1.
  rewrite Hs in *. cbn [Z.eqb Pos.eqb Z.add Pos.add] in *.
  apply negotiate_TTYPE_called in E2 as (T2 & S2 & D2); [|exact D1|lia].
  rewrite S1 in *. cbn [Z.eqb Pos.eqb Z.add Pos.add Pos.succ] in *.
  apply negotiate_TTYPE_called in E as (T3 & S3 & D3); [|exact D2|lia].
  rewrite S2 in *. cbn [Z.eqb Pos.eqb] in *.
  assert (T : trace (self st')
              = trace (self st)
                ++ [tn_requestNegotiation TTYPE SEND; tn_requestNegotiation TTYPE SEND;
                    tn_requestNegotiation TTYPE SEND; handshake_done]).
  { rewrite T3, T2, T1, <- !app_assoc. reflexivity. }
  split; [exact T|]. rewrite T. unfold sent. rewrite map_app, concat_app. reflexivity.
Qed.

Lemma handshake_requests_witness :
  let payloads := [items (x00 :: b "MUDLET 2.0"); items (x00 :: b "ansi-256color");
                   items (x00 :: b "MTTS 13")] in
  let st' := deliver ascii_only payloads (snd (enable_TTYPE fresh)) in
  ttype_step (self fresh) = 1 /\
  ttype_done (self fresh) = false /\
  (enable_TTYPE ;;
   negotiate_TTYPE ascii_only (items (x00 :: b "MUDLET 2.0")) ;;
   negotiate_TTYPE ascii_only (items (x00 :: b "ansi-256color")) ;;
   negotiate_TTYPE ascii_only (items (x00 :: b "MTTS 13"))) fresh = (Ret tt, st') /\
  trace (self st')
  = trace (self fresh)
    ++ [tn_requestNegotiation TTYPE SEND; tn_requestNegotiation TTYPE SEND;
        tn_requestNegotiation TTYPE SEND; handshake_done] /\
  sent (trace (self st'))
  = sent (trace (self fresh))
    ++ [xff; xfa; x18; x01; xff; xf0; xff; xfa; x18; x01; xff; xf0;
        xff; xfa; x18; x01; xff; xf0].
Proof.
  do 3 (split; [vm_compute; reflexivity|]).
  refine (handshake_requests ascii_only fresh
            (items (x00 :: b "MUDLET 2.0")) (items (x00 :: b "ansi-256color"))
            (items (x00 :: b "MTTS 13")) _ _ _ _); vm_compute; reflexivity.
Defined.

(** ** Compression and sending, in sequence *)

Lemma written_app t t' : written (t ++ t') = written t ++ written t'.
Proof. unfold written. apply omap_app. Qed.

Lemma compressData_bytes zl d st f :
  protocol_flags (self st) !! u "MCCP2" = Some f ->
  compressData zl (VBytes d) st
  = if truthy f then (Ret (VBytes (block zl (ZLIB_COMPRESS (g st)) d)), compressed d st)
    else (Ret (VBytes d), st).
Proof.
  intros H. unfold compressData, get_flag, bind, get_self. cbn [fst snd].
  rewrite H. cbn [or_raise ret]. destruct (truthy f); [|reflexivity].
  unfold compressed, block. cbn. now rewrite <- app_assoc.
Qed.

(** X8: at step 3 a client that sends MTTS followed by the word MCCP2 (in
    any case, not a number) switches the outbound compression flag on
    without any MCCP2 negotiation: nothing is written to it (no start
    marker), and the next text sent is compressed. *)
Theorem mtts_token_switches_compression U zl st payload t d :
  ttype_step (self st) = 3 ->
  ttype_done (self st) = false ->
  decode (lstrip_chars IS payload) = Some t ->
  startswith t (u "MTTS") = true ->
  isdigit U (strip U (drop 4 t)) = false ->
  upper U (strip U (drop 4 t)) = u "MCCP2" ->
  exists st1,
    negotiate_TTYPE U (items payload) st = (Ret tt, st1) /\
    g st1 = g st /\
    written (trace (self st1)) = written (trace (self st)) /\
    sendText zl (VBytes d) st1
    = (Ret tt,
       with_calls [tn_write (VBytes (block zl (ZLIB_COMPRESS (g st)) d))]
         (compressed d st1)).
Proof.
  intros Hs Hd Ht Hm Hdig Hup.
  pose proof (negotiate_TTYPE_step3 U payload t st Hs Hd Ht Hm) as E.
  cbn zeta in E. rewrite Hdig, Hup in E. eexists. split; [exact E|].
  split; [reflexivity|]. split.
  { cbn [ttype_finished self trace set_ttype_step set_trace]. rewrite written_app.
    cbn. now rewrite app_nil_r. }
  rewrite sendText_on.
  - unfold compressed, block. reflexivity.
  - cbn [ttype_finished self protocol_flags set_ttype_step set_trace set_flags].
    rewrite lookup_insert_ne by flag_ne. apply lookup_insert_eq.
Qed.

Lemma mtts_token_switches_compression_witness :
  ttype_step (self at_step3) = 3 /\
  ttype_done (self at_step3) = false /\
  decode (lstrip_chars IS (x00 :: b "MTTS mccp2")) = Some (u "MTTS mccp2") /\
  startswith (u "MTTS mccp2") (u "MTTS") = true /\
  isdigit ascii_only (strip ascii_only (drop 4 (u "MTTS mccp2"))) = false /\
  upper ascii_only (strip ascii_only (drop 4 (u "MTTS mccp2"))) = u "MCCP2" /\
  protocol_flags (self at_step3) !! u "MCCP2" = Some (VBool false) /\
  exists st1,
    negotiate_TTYPE ascii_only (items (x00 :: b "MTTS mccp2")) at_step3 = (Ret tt, st1) /\
    g st1 = g at_step3 /\
    written (trace (self st1)) = written (trace (self at_step3)) /\
    sendText counting_zlib (VBytes (b "hello")) st1
    = (Ret tt,
       with_calls
         [tn_write (VBytes (block counting_zlib (ZLIB_COMPRESS (g at_step3)) (b "hello")))]
         (compressed (b "hello") st1)).
Proof.
  do 7 (split; [vm_compute; reflexivity|]).
  refine (mtts_token_switches_compression ascii_only counting_zlib at_step3
            (x00 :: b "MTTS mccp2") (u "MTTS mccp2") (b "hello") _ _ _ _ _ _);
    vm_compute; reflexivity.
Defined.

(** X9: [enable_MCCP2] followed by [sendText]: the start marker IAC SB
    MCCP2 IAC SE is written uncompressed, and the text that follows it is
    the first thing compressed; this holds in every state, whatever the flag
    was before. *)
Theorem enable_MCCP2_then_sendText zl d st :
  (enable_MCCP2 ;; sendText zl (VBytes d)) st
  = (Ret tt,
     with_calls [tn_write (VBytes [xff; xfa; x56; xff; xf0]);
                 tn_write (VBytes (block zl (ZLIB_COMPRESS (g st)) d))]
       (with_flags (<[u "MCCP2" := VBool true]> (protocol_flags (self st)))
          (compressed d st))).
Proof.
  rewrite (bind_run _ _ _ _ _ (enable_MCCP2_run st)).
  rewrite sendText_on by (cbn; apply lookup_insert_eq).
  unfold with_calls, with_flags, compressed, block. cbn. rewrite <- app_assoc. reflexivity.
Qed.

(** X10: texts sent one after another while compression is on: each is
    written as one block, in order; the compressor takes each text followed
    by one sync flush, so its history grows by exactly two calls per text;
    the decompressor and the flags are not touched. *)
Theorem send_texts_compressed zl ds st :
  protocol_flags (self st) !! u "MCCP2" = Some (VBool true) ->
  exists st',
    send_texts zl ds st = (Ret tt, st') /\
    written (trace (self st'))
    = written (trace (self st)) ++ map VBytes (blocks zl (ZLIB_COMPRESS (g st)) ds) /\
    ZLIB_COMPRESS (g st')
    = ZLIB_COMPRESS (g st) ++ flat_map (fun d => [z_compress d; z_flush ZLIB_FLUSH]) ds /\
    ZLIB_DECOMPRESS (g st') = ZLIB_DECOMPRESS (g st) /\
    protocol_flags (self st') = protocol_flags (self st).
Proof.
  revert st. induction ds as [|d ds IH]; intros st Hf.
  - exists st. cbn. rewrite !app_nil_r. auto.
  - unfold send_texts. cbn [for_each].
    rewrite (bind_run _ _ _ _ _ (sendText_on zl d st Hf)).
    match goal with |- context [for_each ds _ ?s] =>
      destruct (IH s) as (st' & E & Hw & Hc & Hd & Hp); [exact Hf|] end.
    exists st'. split; [exact E|].
    rewrite Hw, Hc, Hd, Hp. cbn [with_calls self g trace set_trace ZLIB_COMPRESS
      ZLIB_DECOMPRESS protocol_flags blocks map flat_map].
    rewrite written_app, <- !app_assoc. auto.
Qed.

Lemma send_texts_compressed_witness :
  let st := {| g := module_init; self := compressing |} in
  let ds := [b "look"; b "north"] in
  protocol_flags (self st) !! u "MCCP2" = Some (VBool true) /\
  exists st',
    send_texts counting_zlib ds st = (Ret tt, st') /\
    written (trace (self st'))
    = written (trace (self st))
      ++ map VBytes (blocks counting_zlib (ZLIB_COMPRESS (g st)) ds) /\
    ZLIB_COMPRESS (g st')
    = ZLIB_COMPRESS (g st) ++ flat_map (fun d => [z_compress d; z_flush ZLIB_FLUSH]) ds /\
    ZLIB_DECOMPRESS (g st') = ZLIB_DECOMPRESS (g st) /\
    protocol_flags (self st') = protocol_flags (self st).
Proof.
  split; [vm_compute; reflexivity|].
  refine (send_texts_compressed counting_zlib [b "look"; b "north"]
            {| g := module_init; self := compressing |} _); vm_compute; reflexivity.
Defined.

(** X11: a prompt is what the same bytes sent as text would be, followed by
    IAC GA: the two octets are added after compression and are never
    compressed themselves, and the compressor is left as [sendText] would
    leave it. *)
Theorem sendPrompt_after_sendText zl d st f :
  protocol_flags (self st) !! u "MCCP2" = Some f ->
  let out := if truthy f then block zl (ZLIB_COMPRESS (g st)) d else d in
  let st1 := if truthy f then compressed d st else st in
  sendText zl (VBytes d) st = (Ret tt, with_calls [tn_write (VBytes out)] st1) /\
  sendPrompt zl (VBytes d) st
  = (Ret tt, with_calls [tn_write (VBytes (out ++ [xff; xf9]))] st1).
Proof.
  intros Hf. unfold sendText, sendPrompt, renderOutgoing. rewrite !bind_ret_l.
  pose proof (compressData_bytes zl d st f Hf) as E. cbn zeta. destruct (truthy f);
    rewrite !(bind_run _ _ _ _ _ E); split; reflexivity.
Qed.

Lemma sendPrompt_after_sendText_witness :
  let st := {| g := module_init; self := compressing |} in
  protocol_flags (self st) !! u "MCCP2" = Some (VBool true) /\
  let out := if truthy (VBool true)
             then block counting_zlib (ZLIB_COMPRESS (g st)) (b "> ") else b "> " in
  let st1 := if truthy (VBool true) then compressed (b "> ") st else st in
  sendText counting_zlib (VBytes (b "> ")) st
  = (Ret tt, with_calls [tn_write (VBytes out)] st1) /\
  sendPrompt counting_zlib (VBytes (b "> ")) st
  = (Ret tt, with_calls [tn_write (VBytes (out ++ [xff; xf9]))] st1).
Proof.
  split; [vm_compute; reflexivity|].
  refine (sendPrompt_after_sendText counting_zlib (b "> ")
            {| g := module_init; self := compressing |} (VBool true) _);
    vm_compute; reflexivity.
Defined.

Lemma send_field_plain zl rM rG msdp gmcp kv st :
  plain msdp gmcp (self st) ->
  (if bool_decide (fst kv = u "text") then sendText zl (snd kv)
   else if bool_decide (fst kv = u "prompt") then sendPrompt zl (snd kv)
   else sendOOB zl rM rG (snd kv) [] []) st
  = match field_output rM rG msdp gmcp kv with
    | Some out => (Ret tt, with_calls [tn_write out] st)
    | None => (Raise TypeError, st)
    end.
Proof.
  intros (c & m & gm & Hc & Hc' & Hm & Hm' & Hg & Hg').
  assert (Eoff : forall v, compressData zl v st = (Ret v, st)).
  { intros v. unfold compressData, get_flag, bind, get_self. cbn [fst snd].
    rewrite Hc. cbn [or_raise ret]. now rewrite Hc'. }
  unfold field_output. destruct kv as [k v]. cbn [fst snd].
  destruct (bool_decide (k = u "text")).
  { unfold sendText, renderOutgoing. rewrite bind_ret_l.
    rewrite (bind_run _ _ _ _ _ (Eoff v)). reflexivity. }
  destruct (bool_decide (k = u "prompt")).
  { unfold sendPrompt, renderOutgoing. rewrite bind_ret_l.
    rewrite (bind_run _ _ _ _ _ (Eoff v)). destruct v; reflexivity. }
  unfold sendOOB, get_flag. unfold bind at 1. unfold bind at 1. cbn [get_self].
  rewrite Hm. cbn [or_raise ret]. unfold bind at 1. unfold bind at 1. cbn [get_self].
  rewrite Hg. cbn [or_raise ret]. rewrite Hm', Hg'.
  rewrite (bind_run _ _ _ _ _ (Eoff _)).
  destruct msdp, gmcp; cbn [app]; rewrite ?app_nil_r; reflexivity.
Qed.

Lemma send_cons zl rM rG kv kwargs st :
  send zl rM rG (kv :: kwargs) st
  = ((if bool_decide (fst kv = u "text") then sendText zl (snd kv)
      else if bool_decide (fst kv = u "prompt") then sendPrompt zl (snd kv)
      else sendOOB zl rM rG (snd kv) [] []) ;;
     send zl rM rG kwargs) st.
Proof. destruct kv. reflexivity. Qed.

(** X12: with compression off, [send] writes one message per field, in the
    order of the fields: a text as it is, a prompt followed by IAC GA, and
    for any other field the MSDP rendering of its value followed by the GMCP
    rendering, each only when its flag is set, so an empty message when
    neither is.  Nothing but the trace changes. *)
Theorem send_plain zl rM rG msdp gmcp kwargs outs st :
  plain msdp gmcp (self st) ->
  mapM (field_output rM rG msdp gmcp) kwargs = Some outs ->
  send zl rM rG kwargs st = (Ret tt, with_calls (map tn_write outs) st).
Proof.
  intros Hp. revert outs st Hp. induction kwargs as [|kv kwargs IH]; intros outs st Hp Ho.
  - injection Ho as <-. destruct st as [gl []]. unfold with_calls. cbn.
    now rewrite app_nil_r.
  - rewrite send_cons. cbn [mapM] in Ho.
    destruct (field_output rM rG msdp gmcp kv) as [out|] eqn:E; [|discriminate].
    cbn in Ho. destruct (mapM (field_output rM rG msdp gmcp) kwargs) as [outs'|] eqn:E';
      [|discriminate]. injection Ho as <-.
    unfold bind. rewrite (send_field_plain zl rM rG msdp gmcp kv st Hp), E.
    rewrite (IH outs'); [|exact Hp|reflexivity].
    rewrite with_calls_app. reflexivity.
Qed.

Lemma send_plain_witness :
  let kwargs := [(u "text", VBytes (b "You see a door.")); (u "prompt", VBytes (b "> "));
                 (u "options", VBytes (b "x"))] in
  let outs := [VBytes (b "You see a door."); VBytes (b "> " ++ [xff; xf9]); VBytes []] in
  plain false false (self fresh) /\
  mapM (field_output echo_render echo_render false false) kwargs = Some outs /\
  send counting_zlib echo_render echo_render kwargs fresh
  = (Ret tt, with_calls (map tn_write outs) fresh).
Proof.
  split; [exists (VBool false), (VBool false), (VBool false); vm_compute; auto 10|].
  split; [vm_compute; reflexivity|].
  refine (send_plain counting_zlib echo_render echo_render false false _ _ fresh _ _).
  - exists (VBool false), (VBool false), (VBool false). vm_compute. auto 10.
  - vm_compute. reflexivity.
Defined.

(** X13: [send] stops at the first field that raises: with compression off,
    a prompt whose value is not a bytes object raises TypeError; the fields
    before it have been written, in order, and none after it is. *)
Theorem send_stops_at_error zl rM rG msdp gmcp pre kv post outs st :
  plain msdp gmcp (self st) ->
  mapM (field_output rM rG msdp gmcp) pre = Some outs ->
  field_output rM rG msdp gmcp kv = None ->
  send zl rM rG (pre ++ kv :: post) st
  = (Raise TypeError, with_calls (map tn_write outs) st).
Proof.
  intros Hp. revert outs st Hp. induction pre as [|kv' pre IH]; intros outs st Hp Ho Hk.
  - injection Ho as <-. cbn [app]. rewrite send_cons. unfold bind.
    rewrite (send_field_plain zl rM rG msdp gmcp kv st Hp), Hk.
    destruct st as [gl []]. unfold with_calls. cbn. now rewrite app_nil_r.
  - cbn [app]. rewrite send_cons. cbn [mapM] in Ho.
    destruct (field_output rM rG msdp gmcp kv') as [out|] eqn:E; [|discriminate].
    cbn in Ho. destruct (mapM (field_output rM rG msdp gmcp) pre) as [outs'|] eqn:E';
      [|discriminate]. injection Ho as <-.
    unfold bind. rewrite (send_field_plain zl rM rG msdp gmcp kv' st Hp), E.
    rewrite (IH outs'); [|exact Hp|reflexivity|exact Hk].
    rewrite with_calls_app. reflexivity.
Qed.

Lemma send_stops_at_error_witness :
  let pre := [(u "text", VBytes (b "hello"))] in
  let kv := (u "prompt", VStr (u "> ")) in
  let post := [(u "options", VBytes (b "x"))] in
  plain false false (self fresh) /\
  mapM (field_output echo_render echo_render false false) pre = Some [VBytes (b "hello")] /\
  field_output echo_render echo_render false false kv = None /\
  send counting_zlib echo_render echo_render (pre ++ kv :: post) fresh
  = (Raise TypeError, with_calls (map tn_write [VBytes (b "hello")]) fresh).
Proof.
  split; [exists (VBool false), (VBool false), (VBool false); vm_compute; auto 10|].
  do 2 (split; [vm_compute; reflexivity|]).
  refine (send_stops_at_error counting_zlib echo_render echo_render false false
            _ _ _ _ fresh _ _ _).
  - exists (VBool false), (VBool false), (VBool false). vm_compute. auto 10.
  - vm_compute. reflexivity.
  - vm_compute. reflexivity.
Defined.

(** ** Inbound data *)

(** X14: [dataReceived] hands the Telnet layer at most one block and only
    when it returns: when it raises (zlib.error on corrupt input, or
    KeyError when the MCCP3 flag is unbound) the session is exactly as
    before and nothing has been handed on; the compressor is never touched;
    and while the MCCP3 flag is false the bytes are handed on as received,
    with neither zlib object used. *)
Theorem dataReceived_session zl d st :
  let (r, st') := dataReceived zl d st in
  ZLIB_COMPRESS (g st') = ZLIB_COMPRESS (g st) /\
  match r with
  | Ret _ =>
      exists data, self st' = set_trace (trace (self st) ++ [tn_dataReceived data]) (self st)
  | Raise e => self st' = self st /\ (e = ZlibError \/ e = KeyError)
  end /\
  (forall f, protocol_flags (self st) !! u "MCCP3" = Some f -> truthy f = false ->
             r = Ret tt /\ st' = with_calls [tn_dataReceived d] st).
Proof.
  unfold dataReceived, get_flag, bind, get_self. cbn [fst snd].
  destruct (protocol_flags (self st) !! u "MCCP3") as [f|];
    [|cbn; split; [reflexivity|split; [auto|discriminate]]].
  cbn [or_raise ret]. destruct (truthy f) eqn:Ef.
  - unfold decompressor_call. cbn [g self ZLIB_COMPRESS ZLIB_DECOMPRESS].
    destruct (inflate zl _ _).
    2:{ cbn. split; [reflexivity|]. split; [auto|]. intros f' [= <-]. congruence. }
    cbn [g self ZLIB_COMPRESS ZLIB_DECOMPRESS].
    destruct (inflate zl _ _); cbn; (split; [reflexivity|]); (split; [eauto|]);
      intros f' [= <-]; congruence.
  - cbn. split; [reflexivity|]. split; [eauto|]. intros f' _ _. auto.
Qed.

(** X15: a sub-negotiation for MCCP3, whatever its payload, switches
    inbound decompression on: the input received next goes through the
    module decompressor (a decompress call and a sync flush) and what these
    return is handed to the Telnet layer. *)
Theorem negotiate_MCCP3_then_dataReceived zl data d st out fl :
  inflate zl (ZLIB_DECOMPRESS (g st)) (z_decompress d) = Some out ->
  inflate zl (ZLIB_DECOMPRESS (g st) ++ [z_decompress d]) (z_flush ZLIB_FLUSH) = Some fl ->
  exists st',
    (negotiate_MCCP3 data ;; dataReceived zl d) st = (Ret tt, st') /\
    trace (self st') = trace (self st) ++ [tn_dataReceived (out ++ fl)] /\
    protocol_flags (self st') = <[u "MCCP3" := VBool true]> (protocol_flags (self st)) /\
    ZLIB_DECOMPRESS (g st')
    = ZLIB_DECOMPRESS (g st) ++ [z_decompress d; z_flush ZLIB_FLUSH].
Proof.
  intros Ho Hfl. eexists. split.
  - unfold negotiate_MCCP3, begin_MCCP3.
    rewrite (bind_run _ _ _ _ _ (set_flag_run _ _ _)).
    apply dataReceived_on; [cbn; apply lookup_insert_eq|exact Ho|exact Hfl].
  - cbn. auto.
Qed.

Lemma negotiate_MCCP3_then_dataReceived_witness :
  inflate counting_zlib (ZLIB_DECOMPRESS (g fresh)) (z_decompress (b "look")) = Some (b "look") /\
  inflate counting_zlib (ZLIB_DECOMPRESS (g fresh) ++ [z_decompress (b "look")])
    (z_flush ZLIB_FLUSH) = Some [] /\
  exists st',
    (negotiate_MCCP3 [] ;; dataReceived counting_zlib (b "look")) fresh = (Ret tt, st') /\
    trace (self st') = trace (self fresh) ++ [tn_dataReceived (b "look" ++ [])] /\
    protocol_flags (self st')
    = <[u "MCCP3" := VBool true]> (protocol_flags (self fresh)) /\
    ZLIB_DECOMPRESS (g st')
    = ZLIB_DECOMPRESS (g fresh) ++ [z_decompress (b "look"); z_flush ZLIB_FLUSH].
Proof.
  do 2 (split; [vm_compute; reflexivity|]).
  refine (negotiate_MCCP3_then_dataReceived counting_zlib [] (b "look") fresh
            (b "look") [] _ _); vm_compute; reflexivity.
Defined.

(** ** Window size: bytes objects of any length *)

Lemma int16_from_hex_encode_run (bs : bytes) (acc : Z) (rest : bytes) :
  int16_from acc (hex_encode bs ++ rest)
  = int16_from (fold_left (fun acc x => 256 * acc + Z.of_N (Byte.to_N x)) bs acc) rest.
Proof.
  revert acc. induction bs as [|x bs IH]; intros acc; [reflexivity|].
  change (hex_encode (x :: bs)) with (hex_encode [x] ++ hex_encode bs).
  rewrite <- app_assoc, int16_from_hex_encode, IH. reflexivity.
Qed.

(** Hex-encoding a bytes object and reading the digits in base 16 gives its
    big-endian value; the empty object gives no number. *)
Lemma int16_hex_encode (bs : bytes) :
  int16 (hex_encode bs) = match bs with [] => None | _ => Some (big_endian bs) end.
Proof.
  destruct bs as [|x bs]; [reflexivity|].
  assert (E : int16 (hex_encode (x :: bs)) = int16_from 0 (hex_encode (x :: bs) ++ [])).
  { rewrite app_nil_r. reflexivity. }
  rewrite E, int16_from_hex_encode_run. reflexivity.
Qed.

(** X16: [negotiate_NAWS] called with four bytes objects of any length: the
    width is the big-endian value of the first two joined and the height
    that of the last two; a pair that joins to nothing raises ValueError,
    and when that is the second pair SCREENWIDTH has already been changed:
    the handler is not all-or-nothing. *)
Theorem negotiate_NAWS_bytes_objects (w1 w0 h1 h0 : bytes) (st : state) :
  negotiate_NAWS [VBytes w1; VBytes w0; VBytes h1; VBytes h0] st
  = match w1 ++ w0, h1 ++ h0 with
    | [], _ => (Raise ValueError, st)
    | _ :: _, [] =>
        (Raise ValueError,
         with_flags (<[u "SCREENWIDTH" := VInt (big_endian (w1 ++ w0))]>
                       (protocol_flags (self st))) st)
    | _ :: _, _ :: _ =>
        (Ret tt,
         with_flags (<[u "SCREENHEIGHT" := VInt (big_endian (h1 ++ h0))]>
                       (<[u "SCREENWIDTH" := VInt (big_endian (w1 ++ w0))]>
                          (protocol_flags (self st)))) st)
    end.
Proof.
  unfold negotiate_NAWS. cbn [length Nat.eqb].
  unfold bind, index, add, hex_to_int, or_raise, ret. cbn [lookup list_lookup].
  rewrite !int16_hex_encode.
  destruct (w1 ++ w0) as [|x w]; [reflexivity|].
  unfold set_flag, modify_self, bind, get_self, put_self. cbn [self g].
  destruct (h1 ++ h0) as [|y h]; reflexivity.
Qed.

(** ** The keepalive timer *)






Lemma send_nop_keepalive_run st k :
  protocol_flags (self st) !! u "NOPKEEPALIVE" = Some k -> truthy k = true ->
  _send_nop_keepalive st = (Ret tt, with_calls [tn_write (VBytes [xff; xf1])] st).
Proof.
  intros Hk Ht. unfold _send_nop_keepalive. unfold bind at 1. cbn [get_self].
  rewrite Hk. change (default VNone (Some k)) with k. rewrite Ht. reflexivity.
Qed.

(** X21: the keepalive does not go through the compressor: on a session
    that compresses, a keepalive tick between two texts writes the two
    octets IAC NOP as they are, between the two compressed blocks, and the
    compressor sees the two texts only. *)
Theorem keepalive_inside_compressed_stream zl d1 d2 st k :
  protocol_flags (self st) !! u "MCCP2" = Some (VBool true) ->
  protocol_flags (self st) !! u "NOPKEEPALIVE" = Some k -> truthy k = true ->
  exists st',
    (sendText zl (VBytes d1) ;; _send_nop_keepalive ;; sendText zl (VBytes d2)) st
    = (Ret tt, st') /\
    written (trace (self st'))
    = written (trace (self st))
      ++ [VBytes (block zl (ZLIB_COMPRESS (g st)) d1);
          VBytes [xff; xf1];
          VBytes (block zl (ZLIB_COMPRESS (g st) ++ [z_compress d1; z_flush ZLIB_FLUSH]) d2)] /\
    ZLIB_COMPRESS (g st')
    = ZLIB_COMPRESS (g st)
      ++ [z_compress d1; z_flush ZLIB_FLUSH; z_compress d2; z_flush ZLIB_FLUSH].
Proof.
  intros Hc Hk Ht. eexists. split.
  - rewrite (bind_run _ _ _ _ _ (sendText_on zl d1 st Hc)).
    match goal with |- context [bind _send_nop_keepalive _ ?s] =>
      rewrite (bind_run _ _ s _ _ (send_nop_keepalive_run s k Hk Ht)) end.
    apply sendText_on. exact Hc.
  - cbn [with_calls self g trace set_trace ZLIB_COMPRESS]. unfold block.
    rewrite !written_app, <- !app_assoc. split; reflexivity.
Qed.

Lemma keepalive_inside_compressed_stream_witness :
  let st := {| g := module_init; self := compressing |} in
  protocol_flags (self st) !! u "MCCP2" = Some (VBool true) /\
  protocol_flags (self st) !! u "NOPKEEPALIVE" = Some (VBool true) /\
  truthy (VBool true) = true /\
  exists st',
    (sendText counting_zlib (VBytes (b "look")) ;; _send_nop_keepalive ;;
     sendText counting_zlib (VBytes (b "north"))) st
    = (Ret tt, st') /\
    written (trace (self st'))
    = written (trace (self st))
      ++ [VBytes (block counting_zlib (ZLIB_COMPRESS (g st)) (b "look"));
          VBytes [xff; xf1];
          VBytes (block counting_zlib
                    (ZLIB_COMPRESS (g st) ++ [z_compress (b "look"); z_flush ZLIB_FLUSH])
                    (b "north"))] /\
    ZLIB_COMPRESS (g st')
    = ZLIB_COMPRESS (g st)
      ++ [z_compress (b "look"); z_flush ZLIB_FLUSH;
          z_compress (b "north"); z_flush ZLIB_FLUSH].
Proof.
  do 3 (split; [vm_compute; reflexivity|]).
  refine (keepalive_inside_compressed_stream counting_zlib (b "look") (b "north")
            {| g := module_init; self := compressing |} (VBool true) _ _ _);
    vm_compute; reflexivity.
Defined.

(** ** Invariants of every method

    A judgement for what every method keeps: from a state in [Inv] the
    method ends in [Inv], whether it returns or raises, and raises nothing
    that is [bad]. *)

Section Invariant.

Variable Inv : state -> Prop.
Variable bad : exn -> Prop.

(** From a state in [Inv], [m] ends in [Inv] and raises nothing that is [bad]. *)
Definition preserves {A} (m : M A) : Prop :=
  forall st, Inv st -> Inv (snd (m st)) /\ forall e, fst (m st) = Raise e -> ~ bad e.

Lemma preserves_ret {A} (a : A) : preserves (ret a).
Proof. intros st H. split; [exact H|discriminate]. Qed.

Lemma preserves_raise {A} e : ~ bad e -> preserves (@raise A e).
Proof. intros He st H. split; [exact H|]. intros e' [= <-]. exact He. Qed.

Lemma preserves_or_raise {A} (o : option A) e : ~ bad e -> preserves (or_raise o e).
Proof. intros He. destruct o; [apply preserves_ret|now apply preserves_raise]. Qed.

Lemma preserves_get_self : preserves get_self.
Proof. intros st H. split; [exact H|discriminate]. Qed.

Lemma preserves_bind {A B} (m : M A) (k : A -> M B) :
  preserves m -> (forall a, preserves (k a)) -> preserves (x <- m ;; k x).
Proof.
  intros Hm Hk st H. unfold bind. destruct (Hm st H) as [H1 H2].
  destruct (m st) as [[a|e] st']; [apply Hk, H1|]. split; [exact H1|].
  intros e' [= <-]. now apply H2.
Qed.

Lemma preserves_try_except {A} (m : M A) e (h : M A) :
  preserves m -> preserves h -> preserves (try_except m e h).
Proof.
  intros Hm Hh st H. unfold try_except. destruct (Hm st H) as [H1 H2].
  destruct (m st) as [[a|e'] st']; [split; [exact H1|discriminate]|].
  destruct (bool_decide (e' = e)); [apply Hh, H1|].
  split; [exact H1|]. intros e'' [= <-]. now apply H2.
Qed.

Lemma preserves_if {A} (c : bool) (m1 m2 : M A) :
  preserves m1 -> preserves m2 -> preserves (if c then m1 else m2).
Proof. now destruct c. Qed.

Lemma preserves_for_each {A} (l : list A) (body : A -> M unit) :
  (forall x, preserves (body x)) -> preserves (for_each l body).
Proof.
  intros H. induction l as [|x l IH]; cbn [for_each]; [apply preserves_ret|].
  apply preserves_bind; [apply H|intros _; exact IH].
Qed.

Lemma preserves_modify_self f :
  (forall st, Inv st -> Inv {| g := g st; self := f (self st) |}) -> preserves (modify_self f).
Proof. intros Hf st H. split; [apply Hf, H|discriminate]. Qed.

Lemma preserves_join data : ~ bad TypeError -> preserves (join data).
Proof.
  intros Hb. induction data as [|[] data IH]; cbn [join];
    try (now apply preserves_raise); [apply preserves_ret|].
  apply preserves_bind; [exact IH|intros; apply preserves_ret].
Qed.

End Invariant.

Ltac not_bad := let H := fresh in intros H; first [discriminate H | exact H].

Ltac preserves_step prim :=
  lazymatch goal with
  | |- preserves _ _ (match ?x with _ => _ end) => destruct x
  | |- preserves _ _ (ret _) => apply preserves_ret
  | |- preserves _ _ get_self => apply preserves_get_self
  | |- preserves _ _ (or_raise _ _) => apply preserves_or_raise; not_bad
  | |- preserves _ _ (raise _) => apply preserves_raise; not_bad
  | |- preserves _ _ (join _) => apply preserves_join; not_bad
  | |- preserves _ _ (try_except _ _ _) => apply preserves_try_except
  | |- preserves _ _ (for_each _ _) => apply preserves_for_each; intros ?
  | |- preserves _ _ (bind _ _) => apply preserves_bind; [|intros ?]
  | |- _ => prim
  end.

Lemma run_preserves (Inv : state -> Prop) bad zl U rM rG :
  (forall m, preserves Inv bad (call_method zl U rM rG m)) ->
  forall ms st, Inv st -> Inv (run zl U rM rG ms st).
Proof.
  intros Hm ms. induction ms as [|m ms IH]; intros st H; [exact H|].
  cbn [run]. apply IH, Hm, H.
Qed.

(** *** No flag is ever unbound *)


Lemma bound_set_flag k v : preserves bound is_KeyError (set_flag k v).
Proof.
  intros st H. split; [|discriminate]. intros k' Hk'. cbn.
  apply lookup_insert_is_Some'. right. apply H, Hk'.
Qed.

Lemma bound_get_flag k :
  k ∈ [u "MCCP2"; u "MCCP3"; u "MSDP"; u "GMCP"] -> preserves bound is_KeyError (get_flag k).
Proof.
  intros Hk st H. unfold get_flag, bind, get_self. destruct (H k Hk) as [v ->].
  split; [exact H|discriminate].
Qed.

Lemma bound_modify_self f :
  (forall s, protocol_flags (f s) = protocol_flags s) ->
  preserves bound is_KeyError (modify_self f).
Proof.
  intros Hf. apply preserves_modify_self. intros st H k Hk. cbn. rewrite Hf. apply H, Hk.
Qed.

Lemma bound_emit c : preserves bound is_KeyError (emit c).
Proof. apply bound_modify_self. reflexivity. Qed.

Lemma bound_compressor_call zl c : preserves bound is_KeyError (compressor_call zl c).
Proof. intros st H. split; [exact H|discriminate]. Qed.

Lemma bound_decompressor_call zl c : preserves bound is_KeyError (decompressor_call zl c).
Proof.
  intros st H. unfold decompressor_call. destruct (inflate zl _ _); (split; [exact H|]);
    intros e [= <-]; discriminate.
Qed.

Ltac bound_prim :=
  first
    [ apply bound_set_flag
    | apply bound_emit
    | apply bound_get_flag; apply (bool_decide_unpack _); vm_compute; exact Logic.I
    | apply bound_compressor_call
    | apply bound_decompressor_call
    | apply bound_modify_self; reflexivity ].

Ltac bound_auto := repeat preserves_step bound_prim.

Lemma bound_processTextCommands frames :
  preserves bound is_KeyError (processTextCommands frames).
Proof.
  induction frames as [|frames IH]; cbn [processTextCommands]; bound_auto. exact IH.
Qed.

Lemma bound_call_method zl U rM rG m :
  preserves bound is_KeyError (call_method zl U rM rG m).
Proof.
  destruct m; cbn [call_method].
  - unfold connectionMade, toggle_nop_keepalive. bound_auto.
  - unfold applicationDataReceived. bound_auto. apply bound_processTextCommands.
  - unfold dataReceived. bound_auto.
  - unfold enable_MCCP2, begin_MCCP2, _write. bound_auto.
  - unfold disable_MCCP2, end_MCCP2, _write. bound_auto.
  - unfold begin_MCCP3. bound_auto.
  - unfold end_MCCP3. bound_auto.
  - unfold enable_TTYPE. bound_auto.
  - unfold negotiate_MCCP2. bound_auto.
  - unfold negotiate_MCCP3, begin_MCCP3. bound_auto.
  - unfold negotiate_MSDP. bound_auto.
  - unfold negotiate_GMCP. bound_auto.
  - unfold negotiate_NAWS, index, add, hex_to_int, number. bound_auto.
  - unfold negotiate_TTYPE, ttype_step1, ttype_step2, ttype_step3, local, update. bound_auto.
  - unfold sendText, renderOutgoing, compressData, _write. bound_auto.
  - unfold sendPrompt, renderOutgoing, compressData, _write. bound_auto.
  - unfold sendOOB, renderOutgoing, compressData, _write. bound_auto.
  - unfold send, sendText, sendPrompt, sendOOB, renderOutgoing, compressData, _write. bound_auto.
  - unfold toggle_nop_keepalive. bound_auto.
  - unfold _send_nop_keepalive, _write. bound_auto.
Qed.

(** X18: no method unbinds a flag: from a session in which the four flags
    the methods read with a subscript (MCCP2, MCCP3, MSDP, GMCP) are bound,
    as [__init__] leaves them, they stay bound after any sequence of method
    calls, returning or raising, and no call ever raises KeyError. *)
Theorem no_KeyError zl U rM rG ms st :
  flags_bound (self st) ->
  flags_bound (self (run zl U rM rG ms st)) /\
  forall m, fst (call_method zl U rM rG m (run zl U rM rG ms st)) <> Raise KeyError.
Proof.
  intros H.
  assert (H' : bound (run zl U rM rG ms st)).
  { apply (run_preserves bound is_KeyError); [apply bound_call_method|exact H]. }
  split; [exact H'|]. intros m E.
  destruct (bound_call_method zl U rM rG m _ H') as [_ Hb]. now apply (Hb KeyError).
Qed.

(** *** The handshake among other calls *)


Lemma handshake_inv_same st st' :
  same_handshake st st' -> in_handshake st -> in_handshake st'.
Proof.
  intros H. pose proof (same_handshake_done _ _ H) as Hd.
  destruct H as [(_ & Hs & Hn) _]. unfold in_handshake, handshake_inv.
  rewrite Hd, Hs, Hn. auto.
Qed.

Lemma handshake_safe_preserves {A} (m : M A) :
  safe same_handshake m -> preserves in_handshake never m.
Proof.
  intros Hm st H. destruct (Hm st) as (a & st' & E & HR). rewrite E.
  split; [exact (handshake_inv_same _ _ HR H)|discriminate].
Qed.

Lemma handshake_modify_self f :
  (forall s, protocol_flags (f s) = protocol_flags s /\ ttype_step (f s) = ttype_step s /\
             trace (f s) = trace s) ->
  preserves in_handshake never (modify_self f).
Proof.
  intros Hf. apply preserves_modify_self. intros st H.
  destruct (Hf (self st)) as (Hp & Hs & Ht).
  unfold in_handshake, handshake_inv, ttype_done, notified in *. cbn [self].
  rewrite Hp, Hs, Ht. exact H.
Qed.

Lemma handshake_compressor_call zl c : preserves in_handshake never (compressor_call zl c).
Proof. intros st H. split; [exact H|discriminate]. Qed.

Lemma handshake_decompressor_call zl c :
  preserves in_handshake never (decompressor_call zl c).
Proof.
  intros st H. unfold decompressor_call.
  destruct (inflate zl _ _); (split; [exact H|]); intros e _ [].
Qed.

Ltac handshake_prim :=
  first
    [ apply handshake_safe_preserves, set_flag_handshake; flag_ne
    | apply handshake_safe_preserves, emit_handshake; reflexivity
    | apply handshake_compressor_call
    | apply handshake_decompressor_call
    | apply handshake_modify_self; intros ?; solve [repeat split] ].

Ltac handshake_auto := repeat preserves_step handshake_prim.

Lemma handshake_processTextCommands frames :
  preserves in_handshake never (processTextCommands frames).
Proof.
  induction frames as [|frames IH]; cbn [processTextCommands]; handshake_auto. exact IH.
Qed.

Lemma handshake_call_method zl U rM rG m :
  preserves in_handshake never (call_method zl U rM rG m).
Proof.
  destruct m; cbn [call_method].
  - unfold connectionMade, toggle_nop_keepalive. handshake_auto.
  - unfold applicationDataReceived. handshake_auto.
    apply handshake_processTextCommands.
  - unfold dataReceived, get_flag. handshake_auto.
  - unfold enable_MCCP2, begin_MCCP2, _write. handshake_auto.
  - unfold disable_MCCP2, end_MCCP2, _write, get_flag. handshake_auto.
  - unfold begin_MCCP3. handshake_auto.
  - unfold end_MCCP3. handshake_auto.
  - unfold enable_TTYPE. handshake_auto.
  - unfold negotiate_MCCP2. handshake_auto.
  - unfold negotiate_MCCP3, begin_MCCP3. handshake_auto.
  - unfold negotiate_MSDP. handshake_auto.
  - unfold negotiate_GMCP. handshake_auto.
  - unfold negotiate_NAWS, index, add, hex_to_int, number. handshake_auto.
  - intros st H. split; [apply negotiate_TTYPE_inv, H|intros e _ []].
  - unfold sendText, renderOutgoing, compressData, _write, get_flag. handshake_auto.
  - unfold sendPrompt, renderOutgoing, compressData, _write, get_flag. handshake_auto.
  - unfold sendOOB, renderOutgoing, compressData, _write, get_flag. handshake_auto.
  - unfold send, sendText, sendPrompt, sendOOB, renderOutgoing, compressData, _write, get_flag.
    handshake_auto.
  - unfold toggle_nop_keepalive. handshake_auto.
  - unfold _send_nop_keepalive, _write. handshake_auto.
Qed.

(** X19: the terminal-type handshake keeps its shape among all other calls:
    from a session at step 1, after any sequence of calls of any methods
    (sending, receiving, window size, compression, keepalive, further
    terminal-type payloads), returning or raising, the step counter is
    between 1 and 4, the TTYPE flag is set exactly when it is 4, and the
    notification has fired once then and never before. *)
Theorem handshake_among_other_calls zl U rM rG ms st :
  ttype_step (self st) = 1 ->
  ttype_done (self st) = false ->
  notified (self st) = 0%nat ->
  let st' := run zl U rM rG ms st in
  1 <= ttype_step (self st') <= 4 /\
  (ttype_step (self st') = 4 <-> ttype_done (self st') = true) /\
  notified (self st') = (if ttype_step (self st') =? 4 then 1%nat else 0%nat).
Proof.
  intros Hs Hd Hn st'.
  assert (H : in_handshake st').
  { apply (run_preserves in_handshake never); [apply handshake_call_method|].
    left. repeat split; auto; lia. }
  destruct H as [(Hs' & Hd' & Hn')|(Hs' & Hd' & Hn')].
  - split; [lia|]. split; [split; [lia|congruence]|].
    destruct (ttype_step (self st') =? 4) eqn:E; [apply Z.eqb_eq in E; lia|auto].
  - split; [lia|]. split; [tauto|]. rewrite Hs'. exact Hn'.
Qed.

(** *** The zlib objects are never replaced *)

Lemma extends_modify_self h0 d0 f : preserves (extends h0 d0) never (modify_self f).
Proof. apply preserves_modify_self. intros st H. exact H. Qed.

Lemma extends_compressor_call h0 d0 zl c :
  preserves (extends h0 d0) never (compressor_call zl c).
Proof.
  intros st [H1 H2]. split; [|discriminate]. split; [|exact H2].
  cbn. now apply prefix_app_r.
Qed.

Lemma extends_decompressor_call h0 d0 zl c :
  preserves (extends h0 d0) never (decompressor_call zl c).
Proof.
  intros st [H1 H2]. unfold decompressor_call.
  destruct (inflate zl _ _); (split; [|intros e _ []]); (split; [exact H1|]);
    cbn; now apply prefix_app_r.
Qed.

Ltac extends_prim :=
  first
    [ apply extends_modify_self
    | apply extends_compressor_call
    | apply extends_decompressor_call ].

Ltac extends_auto := repeat preserves_step extends_prim.

Lemma extends_processTextCommands h0 d0 frames :
  preserves (extends h0 d0) never (processTextCommands frames).
Proof.
  induction frames as [|frames IH]; cbn [processTextCommands]; extends_auto. exact IH.
Qed.

Lemma extends_call_method h0 d0 zl U rM rG m :
  preserves (extends h0 d0) never (call_method zl U rM rG m).
Proof.
  destruct m; cbn [call_method].
  - unfold connectionMade, toggle_nop_keepalive. extends_auto.
  - unfold applicationDataReceived. extends_auto. apply extends_processTextCommands.
  - unfold dataReceived, get_flag. extends_auto.
  - unfold enable_MCCP2, begin_MCCP2, _write. extends_auto.
  - unfold disable_MCCP2, end_MCCP2, _write, get_flag. extends_auto.
  - unfold begin_MCCP3. extends_auto.
  - unfold end_MCCP3. extends_auto.
  - unfold enable_TTYPE. extends_auto.
  - unfold negotiate_MCCP2. extends_auto.
  - unfold negotiate_MCCP3, begin_MCCP3. extends_auto.
  - unfold negotiate_MSDP. extends_auto.
  - unfold negotiate_GMCP. extends_auto.
  - unfold negotiate_NAWS, index, add, hex_to_int, number. extends_auto.
  - unfold negotiate_TTYPE, ttype_step1, ttype_step2, ttype_step3, local, update. extends_auto.
  - unfold sendText, renderOutgoing, compressData, _write, get_flag. extends_auto.
  - unfold sendPrompt, renderOutgoing, compressData, _write, get_flag. extends_auto.
  - unfold sendOOB, renderOutgoing, compressData, _write, get_flag. extends_auto.
  - unfold send, sendText, sendPrompt, sendOOB, renderOutgoing, compressData, _write, get_flag.
    extends_auto.
  - unfold toggle_nop_keepalive. extends_auto.
  - unfold _send_nop_keepalive, _write. extends_auto.
Qed.

(** X20: no method replaces or resets the two zlib objects of the module:
    after any sequence of method calls the history of the compressor and
    that of the decompressor begin with what they were before. *)
Theorem zlib_objects_never_replaced zl U rM rG ms st :
  ZLIB_COMPRESS (g st) `prefix_of` ZLIB_COMPRESS (g (run zl U rM rG ms st)) /\
  ZLIB_DECOMPRESS (g st) `prefix_of` ZLIB_DECOMPRESS (g (run zl U rM rG ms st)).
Proof.
  apply (run_preserves (extends (ZLIB_COMPRESS (g st)) (ZLIB_DECOMPRESS (g st))) never);
    [apply extends_call_method|]. split; reflexivity.
Qed.

Lemma no_KeyError_witness :
  let ms := [m_connectionMade; m_negotiate_TTYPE [VInt 1]; m_enable_MCCP2;
             m_send [(u "text", VInt 5); (u "prompt", VInt 5)]; m_disable_MCCP2] in
  flags_bound (self fresh) /\
  flags_bound (self (run counting_zlib ascii_only echo_render echo_render ms fresh)) /\
  forall m,
    fst (call_method counting_zlib ascii_only echo_render echo_render m
           (run counting_zlib ascii_only echo_render echo_render ms fresh))
    <> Raise KeyError.
Proof.
  assert (H : flags_bound (self fresh)).
  { intros k Hk. repeat (rewrite elem_of_cons in Hk; destruct Hk as [->|Hk]);
      [vm_compute; eauto ..|now apply elem_of_nil in Hk]. }
  split; [exact H|].
  apply (no_KeyError counting_zlib ascii_only echo_render echo_render
           [m_connectionMade; m_negotiate_TTYPE [VInt 1]; m_enable_MCCP2;
            m_send [(u "text", VInt 5); (u "prompt", VInt 5)]; m_disable_MCCP2] fresh H).
Defined.

Lemma handshake_among_other_calls_witness :
  let ms := [m_connectionMade; m_enable_TTYPE;
             m_negotiate_TTYPE (items (x00 :: b "MUDLET 2.0"));
             m_sendText (VBytes (b "hello"));
             m_negotiate_TTYPE (items (x00 :: b "ansi-256color"));
             m_negotiate_NAWS (items [x00; x50; x00; x18]);
             m_negotiate_TTYPE (items (x00 :: b "MTTS 13"));
             m_negotiate_TTYPE (items (x00 :: b "MTTS 13"))] in
  let st' := run counting_zlib ascii_only echo_render echo_render ms fresh in
  ttype_step (self fresh) = 1 /\
  ttype_done (self fresh) = false /\
  notified (self fresh) = 0%nat /\
  ttype_step (self st') = 4 /\
  1 <= ttype_step (self st') <= 4 /\
  (ttype_step (self st') = 4 <-> ttype_done (self st') = true) /\
  notified (self st') = (if ttype_step (self st') =? 4 then 1%nat else 0%nat).
Proof.
  do 4 (split; [vm_compute; reflexivity|]).
  refine (handshake_among_other_calls counting_zlib ascii_only echo_render echo_render
            _ fresh _ _ _); vm_compute; reflexivity.
Defined.
